(** * freescout-notifier: the notification decision engine

    A shallow embedding of the Go packages [internal/notifier]
    (business_hours.go, notifier.go, cleanup.go), [internal/models],
    [internal/slack], [internal/config] (config.go), the schema of
    [internal/database/sqlite.go] and the row scanning of
    [internal/database/freescout.go], and the properties of the eligibility,
    de-duplication, start-of-day flush, retry, cleanup and configuration
    logic.

    Conventions of the embedding
    - A Go [time.Time] is an instant, a number of nanoseconds since the Unix
      epoch ([Time := Z]); a [time.Duration] is a number of nanoseconds.
      Locations are functions giving the UTC offset in force at an instant.
    - SQLite's [CURRENT_TIMESTAMP] and [datetime('now', ...)] have a
      resolution of one second: they are the clock reading truncated to the
      second.  TIMESTAMP columns are compared as instants.  SQLite compares
      the stored text: the two agree for every value that SQLite stamps
      itself ([CURRENT_TIMESTAMP], text in UTC) and, for a value bound by
      the Go driver (the [time.Now()] of an INSERT, text with the offset of
      the process), when the process runs in UTC: a property that rests on
      the comparison of such a value is one of a process running in UTC.
    - Go strings are byte strings ([string], one [ascii] per byte).
    - The [notifications] table has [UNIQUE(ticket_id, notification_type)]:
      it is a finite map from that key to the remaining columns. *)

From Stdlib Require Import ZArith Lia Bool Ascii String List.
From stdpp Require Import base option gmap strings list sorting.

Local Open Scope string_scope.
Local Open Scope list_scope.
Local Open Scope Z_scope.

(** ** Byte strings and decimal numbers (strconv, fmt "%d") *)

Definition byte_of (n : Z) : ascii := ascii_of_N (Z.to_N n).
Definition code (c : ascii) : Z := Z.of_N (N_of_ascii c).

(** The double quote and the backslash. *)
Definition DQ : ascii := "034"%char.
Definition BSL : ascii := "092"%char.

Definition digitChar (d : Z) : ascii := byte_of (48 + d).
Definition isDigit (c : ascii) : bool := (48 <=? code c) && (code c <=? 57).
Definition digitVal (c : ascii) : Z := code c - 48.

(** Digits of a non-negative number, most significant first, pushed in
    front of [acc]; [fuel] bounds the number of digits. *)
Fixpoint utoa_go (fuel : nat) (n : Z) (acc : string) : string :=
  match fuel with
  | O => acc
  | S f =>
      let acc' := String (digitChar (n mod 10)) acc in
      if n <? 10 then acc' else utoa_go f (n / 10) acc'
  end.

Definition utoa (n : Z) : string := utoa_go (S (Z.to_nat (Z.log2 n))) n "".

(** [strconv.Itoa], also the verb [%d] of [fmt.Sprintf]. *)
Definition itoa (n : Z) : string :=
  if n <? 0 then String "-" (utoa (- n)) else utoa n.

(** [appendInt(b, x, width)] of package time: zero-padded to [width]. *)
Fixpoint zeros (k : nat) : string :=
  match k with O => "" | S k' => String "0" (zeros k') end.

Definition padInt (x : Z) (width : nat) : string :=
  let body (u : Z) := let s := utoa u in zeros (width - String.length s) +:+ s in
  if x <? 0 then String "-" (body (- x)) else body x.

(** ** Time *)

Definition Time := Z.
Definition Duration := Z.

Definition Nanosecond : Duration := 1.
Definition Second : Duration := 1000000000.
Definition Minute : Duration := 60 * Second.
Definition Hour : Duration := 60 * Minute.

(** [t.Add(d)] and [t.Before(u)]. *)
Definition Time_Add (t : Time) (d : Duration) : Time := t + d.
Definition Time_Before (t u : Time) : bool := t <? u.

(** [*time.Location]: the offset from UTC, in seconds, at an instant. *)
Definition Location := Time -> Z.
Definition UTC : Location := fun _ => 0.

(** Seconds since the epoch, shifted to the wall clock of [loc]. *)
Definition wallSeconds (loc : Location) (t : Time) : Z := t / Second + loc t.

(** Civil date of a day number (days since 1970-01-01), proleptic
    Gregorian calendar. *)
Definition civilFromDays (days : Z) : Z * Z * Z :=
  let z := days + 719468 in
  let era := z / 146097 in
  let doe := z - era * 146097 in
  let yoe := (doe - doe / 1460 + doe / 36524 - doe / 146096) / 365 in
  let doy := doe - (365 * yoe + yoe / 4 - yoe / 100) in
  let mp := (5 * doy + 2) / 153 in
  let d := doy - (153 * mp + 2) / 5 + 1 in
  let m := if mp <? 10 then mp + 3 else mp - 9 in
  let y := yoe + era * 400 + (if m <=? 2 then 1 else 0) in
  (y, m, d).

(** [time.Weekday]: Sunday = 0 ... Saturday = 6. *)
Definition Weekday := Z.

Definition Time_Weekday (loc : Location) (t : Time) : Weekday :=
  (wallSeconds loc t / 86400 + 4) mod 7.
Definition Time_Hour (loc : Location) (t : Time) : Z :=
  wallSeconds loc t mod 86400 / 3600.
Definition Time_Minute (loc : Location) (t : Time) : Z :=
  wallSeconds loc t mod 3600 / 60.
Definition Time_Second (loc : Location) (t : Time) : Z :=
  wallSeconds loc t mod 60.

(** [t.In(loc).Format("2006-01-02")]. *)
Definition Time_FormatDate (loc : Location) (t : Time) : string :=
  let '(y, m, d) := civilFromDays (wallSeconds loc t / 86400) in
  padInt y 4 +:+ "-" +:+ padInt m 2 +:+ "-" +:+ padInt d 2.

(** ** Business hours (business_hours.go) *)

Record BusinessHours := {
  enabled : bool;
  startHour : Z;
  endHour : Z;
  timezone : Location;
  workDays : gmap Z bool;
  holidays : gmap string bool;
  notifyOnOpen : bool
}.

(** Reading a Go [map[K]bool]: a missing key reads as [false]. *)
Definition mapBool `{Countable K} (m : gmap K bool) (k : K) : bool :=
  default false (m !! k).

Definition IsBusinessHours (bh : BusinessHours) (t : Time) : bool :=
  if negb (enabled bh) then true
  else
    let dateStr := Time_FormatDate (timezone bh) t in
    if mapBool (holidays bh) dateStr then false
    else if negb (mapBool (workDays bh) (Time_Weekday (timezone bh) t)) then false
    else
      let hour := Time_Hour (timezone bh) t in
      (startHour bh <=? hour) && (hour <? endHour bh).

Definition IsStartOfBusinessDay (bh : BusinessHours) (t : Time) : bool :=
  if negb (enabled bh) || negb (notifyOnOpen bh) then false
  else if negb (IsBusinessHours bh t) then false
  else (Time_Hour (timezone bh) t =? startHour bh)
       && (Time_Minute (timezone bh) t <? 5).

(** ** Models (internal/models) *)

Definition OpenNoAgentResponse : string := "open_no_agent_response".
Definition PendingNoCustomerResponse : string := "pending_no_customer_response".

Definition StatusPending : string := "pending".
Definition StatusQueued : string := "queued".
Definition StatusSent : string := "sent".

(** [models.Ticket]; [NotificationType] is a Go string type. *)
Record Ticket := {
  ID : Z;
  Number : Z;
  Subject : string;
  CustomerEmail : string;
  CustomerName : string;
  AssignedUserID : option Z;
  AssignedUserName : string;
  LastReplyAt : Time;
  MinutesSinceReply : Z;
  MailboxID : Z;
  NotificationType : string
}.

(** The zero value of the struct ([var ticket models.Ticket]); the zero
    [time.Time] is January 1, year 1, 00:00:00 UTC. *)
Definition zeroTime : Time := (-62135596800) * Second.

Definition zeroTicket : Ticket :=
  {| ID := 0; Number := 0; Subject := ""; CustomerEmail := "";
     CustomerName := ""; AssignedUserID := None; AssignedUserName := "";
     LastReplyAt := zeroTime; MinutesSinceReply := 0; MailboxID := 0;
     NotificationType := "" |}.

Record RunStats := {
  TicketsChecked : Z;
  NotificationsSent : Z;
  NotificationsQueued : Z;
  Errors : Z
}.

(** Go's [int] and [time.Duration] are 64-bit: arithmetic wraps. *)
Definition minInt64 : Z := - 2 ^ 63.
Definition maxInt64 : Z := 2 ^ 63 - 1.
Definition wrap64 (z : Z) : Z := (z + 2 ^ 63) mod 2 ^ 64 - 2 ^ 63.
Definition inInt64 (z : Z) : bool := (minInt64 <=? z) && (z <=? maxInt64).

(** ** Wait durations (notifier.go, formatDuration)

    [int(d.Minutes())] and [int(d.Hours())] convert a float64 quotient to an
    integer, truncating toward zero.  For every duration that is a whole
    number of minutes (the only ones [formatSlackMessage] builds) the
    float64 value is exact and the result is the truncated quotient. *)
Definition minutesInt (d : Duration) : Z := d ÷ Minute.
Definition hoursInt (d : Duration) : Z := d ÷ Hour.

Definition formatDuration (d : Duration) : string :=
  if d <? Hour then itoa (minutesInt d) +:+ " minutes"
  else
    let hours := hoursInt d in
    let minutes := Z.rem (minutesInt d) 60 in
    if hours =? 1 then
      if minutes =? 0 then "1 hour"
      else "1 hour " +:+ itoa minutes +:+ " minutes"
    else if minutes =? 0 then itoa hours +:+ " hours"
    else itoa hours +:+ " hours " +:+ itoa minutes +:+ " minutes".

(** ** UTF-8 (unicode/utf8) *)

Definition RuneError : Z := 65533.
Definition MaxRune : Z := 1114111.

Fixpoint skip (n : nat) (s : string) : string :=
  match n, s with
  | S n', String _ r => skip n' r
  | _, _ => s
  end.

(** [utf8.DecodeRuneInString]: the first rune of [s] and its width in
    bytes; [(RuneError, 1)] for an invalid or truncated encoding. *)
Definition decodeRune (s : string) : Z * nat :=
  match s with
  | "" => (RuneError, 0%nat)
  | String c0 r0 =>
      let b0 := code c0 in
      if b0 <? 128 then (b0, 1%nat)
      else if (b0 <? 194) || (244 <? b0) then (RuneError, 1%nat)
      else
        match r0 with
        | "" => (RuneError, 1%nat)
        | String c1 r1 =>
            let b1 := code c1 in
            let lo := if b0 =? 224 then 160 else if b0 =? 240 then 144 else 128 in
            let hi := if b0 =? 237 then 159 else if b0 =? 244 then 143 else 191 in
            if (b1 <? lo) || (hi <? b1) then (RuneError, 1%nat)
            else if b0 <? 224 then ((b0 mod 32) * 64 + b1 mod 64, 2%nat)
            else
              match r1 with
              | "" => (RuneError, 1%nat)
              | String c2 r2 =>
                  let b2 := code c2 in
                  if (b2 <? 128) || (191 <? b2) then (RuneError, 1%nat)
                  else if b0 <? 240 then
                    ((b0 mod 16) * 4096 + (b1 mod 64) * 64 + b2 mod 64, 3%nat)
                  else
                    match r2 with
                    | "" => (RuneError, 1%nat)
                    | String c3 _ =>
                        let b3 := code c3 in
                        if (b3 <? 128) || (191 <? b3) then (RuneError, 1%nat)
                        else ((b0 mod 8) * 262144 + (b1 mod 64) * 4096
                              + (b2 mod 64) * 64 + b3 mod 64, 4%nat)
                    end
              end
        end
  end.

(** [utf8.AppendRune]: surrogates and out-of-range values are written as
    U+FFFD. *)
Definition encodeRune (r : Z) : string :=
  let r := if (r <? 0) || (MaxRune <? r) || ((55296 <=? r) && (r <=? 57343))
           then RuneError else r in
  if r <=? 127 then String (byte_of r) ""
  else if r <=? 2047 then
    String (byte_of (192 + r / 64)) (String (byte_of (128 + r mod 64)) "")
  else if r <=? 65535 then
    String (byte_of (224 + r / 4096))
      (String (byte_of (128 + r / 64 mod 64))
         (String (byte_of (128 + r mod 64)) ""))
  else
    String (byte_of (240 + r / 262144))
      (String (byte_of (128 + r / 4096 mod 64))
         (String (byte_of (128 + r / 64 mod 64))
            (String (byte_of (128 + r mod 64)) ""))).

(** [utf8.ValidString]. *)
Fixpoint validUTF8_go (fuel : nat) (s : string) : bool :=
  match fuel with
  | O => true
  | S f =>
      match s with
      | "" => true
      | _ =>
          let '(r, n) := decodeRune s in
          if (r =? RuneError) && (n =? 1)%nat then false
          else validUTF8_go f (skip n s)
      end
  end.
Definition validUTF8 (s : string) : bool := validUTF8_go (String.length s) s.

(** ** JSON text of a ticket (encoding/json, Go 1.22 and later)

    [json.Marshal] writes the exported fields of the struct in declaration
    order, under their Go names.  Strings are quoted with HTML-safe
    escaping, and bytes that are not valid UTF-8 are replaced by U+FFFD. *)

Definition hexDigit (n : Z) : ascii :=
  if n <? 10 then byte_of (48 + n) else byte_of (87 + n).

(** The bytes that [appendString] copies unchanged ([htmlSafeSet]). *)
Definition htmlSafe (b : Z) : bool :=
  (32 <=? b) && (b <? 128)
  && negb ((b =? 34) || (b =? 92) || (b =? 60) || (b =? 62) || (b =? 38)).

Definition escapeByte (c : ascii) : string :=
  let b := code c in
  if (b =? 92) || (b =? 34) then String BSL (String c "")
  else if b =? 8 then String BSL "b"
  else if b =? 12 then String BSL "f"
  else if b =? 10 then String BSL "n"
  else if b =? 13 then String BSL "r"
  else if b =? 9 then String BSL "t"
  else String BSL "u00" +:+ String (hexDigit (b / 16)) (String (hexDigit (b mod 16)) "").

Definition take (n : nat) (s : string) : string := String.substring 0 n s.

Fixpoint escape_go (fuel : nat) (s : string) : string :=
  match fuel with
  | O => ""
  | S f =>
      match s with
      | "" => ""
      | String c r =>
          if code c <? 128 then
            (if htmlSafe (code c) then String c "" else escapeByte c)
            +:+ escape_go f r
          else
            let '(rn, size) := decodeRune s in
            if (rn =? RuneError) && (size =? 1)%nat then
              String BSL "ufffd" +:+ escape_go f r
            else if (rn =? 8232) || (rn =? 8233) then
              String BSL "u202" +:+ String (hexDigit (rn mod 16)) "" +:+ escape_go f (skip size s)
            else take size s +:+ escape_go f (skip size s)
      end
  end.

(** [appendString(dst, s, escapeHTML = true)]. *)
Definition quote (s : string) : string :=
  String DQ (escape_go (String.length s) s +:+ String DQ "").

(** *** time.Time as JSON: RFC 3339 text in UTC *)

Definition isLeap (y : Z) : bool :=
  (y mod 4 =? 0) && (negb (y mod 100 =? 0) || (y mod 400 =? 0)).

Definition daysIn (m y : Z) : Z :=
  if m =? 2 then (if isLeap y then 29 else 28)
  else if (m =? 4) || (m =? 6) || (m =? 9) || (m =? 11) then 30
  else 31.

Definition daysFromCivil (y m d : Z) : Z :=
  let y' := if m <=? 2 then y - 1 else y in
  let era := y' / 400 in
  let yoe := y' - era * 400 in
  let doy := (153 * (if 2 <? m then m - 3 else m + 9) + 2) / 5 + d - 1 in
  let doe := yoe * 365 + yoe / 4 - yoe / 100 + doy in
  era * 146097 + doe - 719468.

(** Trailing zeros removed (the [.999999999] layout). *)
Fixpoint trimZeros (s : string) : string :=
  match s with
  | "" => ""
  | String c r =>
      let r' := trimZeros r in
      if (code c =? 48) && (String.length r' =? 0)%nat then "" else String c r'
  end.

Definition formatRFC3339 (t : Time) : string :=
  let sec := t / Second in
  let nsec := t mod Second in
  let '(y, m, d) := civilFromDays (sec / 86400) in
  let sod := sec mod 86400 in
  padInt y 4 +:+ "-" +:+ padInt m 2 +:+ "-" +:+ padInt d 2 +:+ "T"
  +:+ padInt (sod / 3600) 2 +:+ ":" +:+ padInt (sod mod 3600 / 60) 2 +:+ ":"
  +:+ padInt (sod mod 60) 2
  +:+ (if nsec =? 0 then "" else String "." (trimZeros (padInt nsec 9)))
  +:+ "Z".

(** [Time.MarshalJSON]: fails for a year outside [0, 9999]. *)
Definition Time_MarshalJSON (t : Time) : option string :=
  let '(y, _, _) := civilFromDays (t / Second / 86400) in
  if (y <? 0) || (9999 <? y) then None
  else Some (String DQ (formatRFC3339 t +:+ String DQ "")).

(** Value of a run of decimal digits; [None] if another byte occurs. *)
Fixpoint parseDigits (s : string) (acc : Z) : option Z :=
  match s with
  | "" => Some acc
  | String c r => if isDigit c then parseDigits r (10 * acc + digitVal c) else None
  end.

(** The local [parseUint] of [parseRFC3339]: digits, within [lo, hi]. *)
Definition parseUintIn (s : string) (lo hi : Z) : option Z :=
  x ← parseDigits s 0;
  if (x <? lo) || (hi <? x) then None else Some x.

Fixpoint spanDigits (s : string) : string * string :=
  match s with
  | String c r =>
      if isDigit c then let '(ds, rest) := spanDigits r in (String c ds, rest)
      else ("", s)
  | "" => ("", "")
  end.

(** [parseNanoseconds]: at most nine digits count, scaled to nanoseconds. *)
Definition parseNanos (ds : string) : Z :=
  let ds9 := take 9 ds in
  default 0 (parseDigits ds9 0) * 10 ^ Z.of_nat (9 - String.length ds9).

(** [parseRFC3339] on the text between the quotes. *)
Definition parseRFC3339 (s : string) : option Time :=
  if (String.length s <? 19)%nat then None
  else
    year ← parseUintIn (String.substring 0 4 s) 0 9999;
    month ← parseUintIn (String.substring 5 2 s) 1 12;
    day ← parseUintIn (String.substring 8 2 s) 1 (daysIn month year);
    hour ← parseUintIn (String.substring 11 2 s) 0 23;
    mins ← parseUintIn (String.substring 14 2 s) 0 59;
    sec ← parseUintIn (String.substring 17 2 s) 0 59;
    if negb (String.eqb (String.substring 4 1 s) "-" && String.eqb (String.substring 7 1 s) "-"
             && String.eqb (String.substring 10 1 s) "T"
             && String.eqb (String.substring 13 1 s) ":"
             && String.eqb (String.substring 16 1 s) ":")
    then None
    else
      let s1 := skip 19 s in
      let '(nsec, s2) :=
        match s1 with
        | String "." (String c r) =>
            if isDigit c then
              let '(ds, rest) := spanDigits (String c r) in (parseNanos ds, rest)
            else (0, s1)
        | _ => (0, s1)
        end in
      let wall := daysFromCivil year month day * 86400 + hour * 3600 + mins * 60 + sec in
      if String.eqb s2 "Z" then Some (wall * Second + nsec)
      else if negb (String.length s2 =? 6)%nat then None
      else
        hr ← parseUintIn (String.substring 1 2 s2) 0 23;
        mm ← parseUintIn (String.substring 4 2 s2) 0 59;
        let sign := String.substring 0 1 s2 in
        if negb ((String.eqb sign "-" || String.eqb sign "+")
                 && String.eqb (String.substring 3 1 s2) ":")
        then None
        else
          let zoneOffset := (hr * 60 + mm) * 60 in
          let zoneOffset := if String.eqb sign "-" then - zoneOffset else zoneOffset in
          Some ((wall - zoneOffset) * Second + nsec).

(** *** json.Marshal of a ticket *)

Definition jkey (name : string) : string := String DQ (name +:+ String DQ ":").

Definition marshalOptInt (o : option Z) : string :=
  match o with None => "null" | Some n => itoa n end.

Definition Marshal (t : Ticket) : option string :=
  ts ← Time_MarshalJSON (LastReplyAt t);
  Some ("{" +:+ jkey "ID" +:+ itoa (ID t)
        +:+ "," +:+ jkey "Number" +:+ itoa (Number t)
        +:+ "," +:+ jkey "Subject" +:+ quote (Subject t)
        +:+ "," +:+ jkey "CustomerEmail" +:+ quote (CustomerEmail t)
        +:+ "," +:+ jkey "CustomerName" +:+ quote (CustomerName t)
        +:+ "," +:+ jkey "AssignedUserID" +:+ marshalOptInt (AssignedUserID t)
        +:+ "," +:+ jkey "AssignedUserName" +:+ quote (AssignedUserName t)
        +:+ "," +:+ jkey "LastReplyAt" +:+ ts
        +:+ "," +:+ jkey "MinutesSinceReply" +:+ itoa (MinutesSinceReply t)
        +:+ "," +:+ jkey "MailboxID" +:+ itoa (MailboxID t)
        +:+ "," +:+ jkey "NotificationType" +:+ quote (NotificationType t)
        +:+ "}").

(** *** The JSON scanner

    Values keep the source text of their literals: a number its digits, a
    string the bytes between its quotes (escapes included), as the decoder
    hands them to [literalStore] and to [UnmarshalJSON] methods. *)

#[warnings="-register-all"]
Inductive Json :=
| JNull
| JBool (b : bool)
| JNumber (lit : string)
| JString (raw : string)
| JArray (items : list Json)
| JObject (members : list (string * Json)).

Definition isSpace (c : ascii) : bool :=
  let b := code c in (b =? 32) || (b =? 9) || (b =? 13) || (b =? 10).

Fixpoint skipWS (s : string) : string :=
  match s with
  | String c r => if isSpace c then skipWS r else s
  | "" => ""
  end.

Definition isHex (c : ascii) : bool :=
  let b := code c in
  ((48 <=? b) && (b <=? 57)) || ((97 <=? b) && (b <=? 102))
  || ((65 <=? b) && (b <=? 70)).

Definition isSimpleEscape (c : ascii) : bool :=
  let b := code c in
  (b =? 98) || (b =? 102) || (b =? 110) || (b =? 114) || (b =? 116)
  || (b =? 92) || (b =? 47) || (b =? 34).

(** The inside of a string literal, after the opening quote: the raw bytes
    up to the closing quote and what follows it. *)
Fixpoint scanString (s : string) : option (string * string) :=
  match s with
  | "" => None
  | String c r =>
      if code c =? 34 then Some ("", r)
      else if code c =? 92 then
        match r with
        | String e r' =>
            if isSimpleEscape e then
              '(raw, rest) ← scanString r';
              Some (String c (String e raw), rest)
            else if code e =? 117 then
              match r' with
              | String h1 (String h2 (String h3 (String h4 r''))) =>
                  if isHex h1 && isHex h2 && isHex h3 && isHex h4 then
                    '(raw, rest) ← scanString r'';
                    Some (String c (String e (String h1 (String h2
                            (String h3 (String h4 raw))))), rest)
                  else None
              | _ => None
              end
            else None
        | "" => None
        end
      else if code c <? 32 then None
      else
        '(raw, rest) ← scanString r;
        Some (String c raw, rest)
  end.

(** A number literal: an optional minus sign; a zero, or digits that do not
    start with a zero; an optional fraction (a dot and digits); an optional
    exponent (e or E, an optional sign, digits). *)
Definition splitSign (s : string) : bool * string :=
  match s with
  | String c r => if code c =? 45 then (true, r) else (false, s)
  | "" => (false, s)
  end.

Definition scanFraction (s : string) : option (string * string) :=
  match s with
  | String c r =>
      if code c =? 46 then
        let '(ds, rest) := spanDigits r in
        if (String.length ds =? 0)%nat then None else Some (String c ds, rest)
      else Some ("", s)
  | "" => Some ("", s)
  end.

Definition scanExponent (s : string) : option (string * string) :=
  match s with
  | String c r =>
      if (code c =? 101) || (code c =? 69) then
        let '(sg, r1) :=
          match r with
          | String x r1 =>
              if (code x =? 43) || (code x =? 45) then (String x "", r1) else ("", r)
          | "" => ("", r)
          end in
        let '(ds, rest) := spanDigits r1 in
        if (String.length ds =? 0)%nat then None
        else Some (String c (sg +:+ ds), rest)
      else Some ("", s)
  | "" => Some ("", s)
  end.

Definition scanNumber (s : string) : option (string * string) :=
  let '(neg, s1) := splitSign s in
  '(int, s2) ←
    match s1 with
    | String c r =>
        if code c =? 48 then Some (String c "", r)
        else if isDigit c then Some (spanDigits s1)
        else None
    | "" => None
    end;
  '(frac, s3) ← scanFraction s2;
  '(exp, s4) ← scanExponent s3;
  Some ((if neg then "-" else "") +:+ int +:+ frac +:+ exp, s4).

(** The text after the literal [p], when [s] starts with it. *)
Fixpoint stripPrefix (p s : string) : option string :=
  match p with
  | "" => Some s
  | String a p' =>
      match s with
      | String b s' => if Ascii.eqb a b then stripPrefix p' s' else None
      | "" => None
      end
  end.

(** One JSON value at the head of [s] (after white space) and the rest of
    the text; [fuel] bounds the number of values and members read. *)
Fixpoint parseValue (fuel : nat) (s : string) : option (Json * string) :=
  match fuel with
  | O => None
  | S f =>
      match skipWS s with
      | "" => None
      | String c r =>
          if code c =? 123 then
            match skipWS r with
            | String "}" r' => Some (JObject [], r')
            | r1 => '(ms, rest) ← parseMembers f r1; Some (JObject ms, rest)
            end
          else if code c =? 91 then
            match skipWS r with
            | String "]" r' => Some (JArray [], r')
            | r1 => '(vs, rest) ← parseElements f r1; Some (JArray vs, rest)
            end
          else if code c =? 34 then
            '(raw, rest) ← scanString r; Some (JString raw, rest)
          else if code c =? 116 then
            rest ← stripPrefix "true" (String c r); Some (JBool true, rest)
          else if code c =? 102 then
            rest ← stripPrefix "false" (String c r); Some (JBool false, rest)
          else if code c =? 110 then
            rest ← stripPrefix "null" (String c r); Some (JNull, rest)
          else
            '(lit, rest) ← scanNumber (String c r); Some (JNumber lit, rest)
      end
  end
with parseMembers (fuel : nat) (s : string) : option (list (string * Json) * string) :=
  match fuel with
  | O => None
  | S f =>
      match skipWS s with
      | String c r =>
          if code c =? 34 then
            '(k, r1) ← scanString r;
            match skipWS r1 with
            | String ":" r2 =>
                '(v, r3) ← parseValue f r2;
                match skipWS r3 with
                | String "," r4 =>
                    '(ms, r5) ← parseMembers f r4; Some ((k, v) :: ms, r5)
                | String "}" r4 => Some ([(k, v)], r4)
                | _ => None
                end
            | _ => None
            end
          else None
      | "" => None
      end
  end
with parseElements (fuel : nat) (s : string) : option (list Json * string) :=
  match fuel with
  | O => None
  | S f =>
      '(v, r1) ← parseValue f s;
      match skipWS r1 with
      | String "," r2 => '(vs, r3) ← parseElements f r2; Some (v :: vs, r3)
      | String "]" r2 => Some ([v], r2)
      | _ => None
      end
  end.

(** [checkValid]: the whole text is one value, white space around it. *)
Definition parseJSON (data : string) : option Json :=
  '(v, rest) ← parseValue (S (String.length data)) data;
  if (String.length (skipWS rest) =? 0)%nat then Some v else None.

(** *** Unquoting a string literal ([unquoteBytes]) *)

Definition hexVal (c : ascii) : Z :=
  let b := code c in
  if b <=? 57 then b - 48 else if b <=? 70 then b - 55 else b - 87.

(** [getu4]: the value of a leading [\uXXXX], and the text after it. *)
Definition getu4 (s : string) : option (Z * string) :=
  match s with
  | String c (String e (String h1 (String h2 (String h3 (String h4 r))))) =>
      if (code c =? 92) && (code e =? 117)
         && isHex h1 && isHex h2 && isHex h3 && isHex h4
      then Some (hexVal h1 * 4096 + hexVal h2 * 256 + hexVal h3 * 16 + hexVal h4, r)
      else None
  | _ => None
  end.

Definition isSurrogate (r : Z) : bool := (55296 <=? r) && (r <? 57344).

(** [utf16.DecodeRune]. *)
Definition utf16Decode (r1 r2 : Z) : Z :=
  if (55296 <=? r1) && (r1 <? 56320) && (56320 <=? r2) && (r2 <? 57344)
  then (r1 - 55296) * 1024 + (r2 - 56320) + 65536
  else RuneError.

Definition unescapeChar (e : ascii) : option ascii :=
  let b := code e in
  if (b =? 34) || (b =? 92) || (b =? 47) || (b =? 39) then Some e
  else if b =? 98 then Some (byte_of 8)
  else if b =? 102 then Some (byte_of 12)
  else if b =? 110 then Some (byte_of 10)
  else if b =? 114 then Some (byte_of 13)
  else if b =? 116 then Some (byte_of 9)
  else None.

Fixpoint unquote_go (fuel : nat) (s : string) : option string :=
  match fuel with
  | O => match s with "" => Some "" | _ => None end
  | S f =>
      match s with
      | "" => Some ""
      | String c r =>
          if code c =? 92 then
            match r with
            | "" => None
            | String e r' =>
                if code e =? 117 then
                  '(rr, r1) ← getu4 s;
                  if isSurrogate rr then
                    let dec := match getu4 r1 with
                               | Some (rr1, _) => utf16Decode rr rr1
                               | None => RuneError
                               end in
                    if negb (dec =? RuneError) then
                      out ← unquote_go f (skip 6 r1); Some (encodeRune dec +:+ out)
                    else
                      out ← unquote_go f r1; Some (encodeRune RuneError +:+ out)
                  else
                    out ← unquote_go f r1; Some (encodeRune rr +:+ out)
                else
                  x ← unescapeChar e;
                  out ← unquote_go f r'; Some (String x out)
            end
          else if (code c =? 34) || (code c <? 32) then None
          else if code c <? 128 then
            out ← unquote_go f r; Some (String c out)
          else
            let '(rr, size) := decodeRune s in
            out ← unquote_go f (skip size s); Some (encodeRune rr +:+ out)
      end
  end.

Definition unquote (raw : string) : option string :=
  unquote_go (String.length raw) raw.

(** *** json.Unmarshal into a ticket *)

(** [strconv.ParseInt(s, 10, 64)] on a number literal. *)
Definition parseInt64 (lit : string) : option Z :=
  let '(neg, ds) := splitSign lit in
  if (String.length ds =? 0)%nat then None
  else
    v ← parseDigits ds 0;
    let n := if neg then - v else v in
    if inInt64 n then Some n else None.

Definition decodeInt (v : Json) (old : Z) : option Z :=
  match v with
  | JNull => Some old
  | JNumber lit => parseInt64 lit
  | _ => None
  end.

Definition decodeString (v : Json) (old : string) : option string :=
  match v with
  | JNull => Some old
  | JString raw => unquote raw
  | _ => None
  end.

Definition decodeIntPtr (v : Json) : option (option Z) :=
  match v with
  | JNull => Some None
  | JNumber lit => n ← parseInt64 lit; Some (Some n)
  | _ => None
  end.

(** [Time.UnmarshalJSON]: [null] is a no-op, a string is parsed raw. *)
Definition decodeTime (v : Json) (old : Time) : option Time :=
  match v with
  | JNull => Some old
  | JString raw => parseRFC3339 raw
  | _ => None
  end.

Definition upperByte (c : ascii) : ascii :=
  if (97 <=? code c) && (code c <=? 122) then byte_of (code c - 32) else c.

Fixpoint upper (s : string) : string :=
  match s with "" => "" | String c r => String (upperByte c) (upper r) end.

(** Field names match exactly or without regard to (ASCII) case. *)
Definition keyIs (key field : string) : bool := String.eqb (upper key) (upper field).

(** One member of the object stored into the struct; members that name no
    field are skipped. *)
Definition setField (t : Ticket) (key : string) (v : Json) : option Ticket :=
  if keyIs key "ID" then
    n ← decodeInt v (ID t);
    Some {| ID := n; Number := Number t; Subject := Subject t;
            CustomerEmail := CustomerEmail t; CustomerName := CustomerName t;
            AssignedUserID := AssignedUserID t; AssignedUserName := AssignedUserName t;
            LastReplyAt := LastReplyAt t; MinutesSinceReply := MinutesSinceReply t;
            MailboxID := MailboxID t; NotificationType := NotificationType t |}
  else if keyIs key "Number" then
    n ← decodeInt v (Number t);
    Some {| ID := ID t; Number := n; Subject := Subject t;
            CustomerEmail := CustomerEmail t; CustomerName := CustomerName t;
            AssignedUserID := AssignedUserID t; AssignedUserName := AssignedUserName t;
            LastReplyAt := LastReplyAt t; MinutesSinceReply := MinutesSinceReply t;
            MailboxID := MailboxID t; NotificationType := NotificationType t |}
  else if keyIs key "Subject" then
    x ← decodeString v (Subject t);
    Some {| ID := ID t; Number := Number t; Subject := x;
            CustomerEmail := CustomerEmail t; CustomerName := CustomerName t;
            AssignedUserID := AssignedUserID t; AssignedUserName := AssignedUserName t;
            LastReplyAt := LastReplyAt t; MinutesSinceReply := MinutesSinceReply t;
            MailboxID := MailboxID t; NotificationType := NotificationType t |}
  else if keyIs key "CustomerEmail" then
    x ← decodeString v (CustomerEmail t);
    Some {| ID := ID t; Number := Number t; Subject := Subject t;
            CustomerEmail := x; CustomerName := CustomerName t;
            AssignedUserID := AssignedUserID t; AssignedUserName := AssignedUserName t;
            LastReplyAt := LastReplyAt t; MinutesSinceReply := MinutesSinceReply t;
            MailboxID := MailboxID t; NotificationType := NotificationType t |}
  else if keyIs key "CustomerName" then
    x ← decodeString v (CustomerName t);
    Some {| ID := ID t; Number := Number t; Subject := Subject t;
            CustomerEmail := CustomerEmail t; CustomerName := x;
            AssignedUserID := AssignedUserID t; AssignedUserName := AssignedUserName t;
            LastReplyAt := LastReplyAt t; MinutesSinceReply := MinutesSinceReply t;
            MailboxID := MailboxID t; NotificationType := NotificationType t |}
  else if keyIs key "AssignedUserID" then
    o ← decodeIntPtr v;
    Some {| ID := ID t; Number := Number t; Subject := Subject t;
            CustomerEmail := CustomerEmail t; CustomerName := CustomerName t;
            AssignedUserID := o; AssignedUserName := AssignedUserName t;
            LastReplyAt := LastReplyAt t; MinutesSinceReply := MinutesSinceReply t;
            MailboxID := MailboxID t; NotificationType := NotificationType t |}
  else if keyIs key "AssignedUserName" then
    x ← decodeString v (AssignedUserName t);
    Some {| ID := ID t; Number := Number t; Subject := Subject t;
            CustomerEmail := CustomerEmail t; CustomerName := CustomerName t;
            AssignedUserID := AssignedUserID t; AssignedUserName := x;
            LastReplyAt := LastReplyAt t; MinutesSinceReply := MinutesSinceReply t;
            MailboxID := MailboxID t; NotificationType := NotificationType t |}
  else if keyIs key "LastReplyAt" then
    x ← decodeTime v (LastReplyAt t);
    Some {| ID := ID t; Number := Number t; Subject := Subject t;
            CustomerEmail := CustomerEmail t; CustomerName := CustomerName t;
            AssignedUserID := AssignedUserID t; AssignedUserName := AssignedUserName t;
            LastReplyAt := x; MinutesSinceReply := MinutesSinceReply t;
            MailboxID := MailboxID t; NotificationType := NotificationType t |}
  else if keyIs key "MinutesSinceReply" then
    n ← decodeInt v (MinutesSinceReply t);
    Some {| ID := ID t; Number := Number t; Subject := Subject t;
            CustomerEmail := CustomerEmail t; CustomerName := CustomerName t;
            AssignedUserID := AssignedUserID t; AssignedUserName := AssignedUserName t;
            LastReplyAt := LastReplyAt t; MinutesSinceReply := n;
            MailboxID := MailboxID t; NotificationType := NotificationType t |}
  else if keyIs key "MailboxID" then
    n ← decodeInt v (MailboxID t);
    Some {| ID := ID t; Number := Number t; Subject := Subject t;
            CustomerEmail := CustomerEmail t; CustomerName := CustomerName t;
            AssignedUserID := AssignedUserID t; AssignedUserName := AssignedUserName t;
            LastReplyAt := LastReplyAt t; MinutesSinceReply := MinutesSinceReply t;
            MailboxID := n; NotificationType := NotificationType t |}
  else if keyIs key "NotificationType" then
    x ← decodeString v (NotificationType t);
    Some {| ID := ID t; Number := Number t; Subject := Subject t;
            CustomerEmail := CustomerEmail t; CustomerName := CustomerName t;
            AssignedUserID := AssignedUserID t; AssignedUserName := AssignedUserName t;
            LastReplyAt := LastReplyAt t; MinutesSinceReply := MinutesSinceReply t;
            MailboxID := MailboxID t; NotificationType := x |}
  else Some t.

Fixpoint setFields (t : Ticket) (ms : list (string * Json)) : option Ticket :=
  match ms with
  | [] => Some t
  | (rawkey, v) :: ms' =>
      key ← unquote rawkey;
      t' ← setField t key v;
      setFields t' ms'
  end.

(** [json.Unmarshal(data, &ticket)] on a zero ticket; [None] stands for
    any error (a syntax error, or a value of the wrong type for a field). *)
Definition Unmarshal (data : string) : option Ticket :=
  v ← parseJSON data;
  match v with
  | JNull => Some zeroTicket
  | JObject ms => setFields zeroTicket ms
  | _ => None
  end.

(** ** Configuration (internal/config) *)

Record Config := {
  OpenThreshold : Duration;
  PendingThreshold : Duration;
  CooldownPeriod : Duration;
  MaxNotifications : Z;
  DryRun : bool;
  FreeScoutURL : string
}.

(** [int(d.Seconds())]: exact for every whole number of seconds. *)
Definition secondsInt (d : Duration) : Z := d ÷ Second.

(** ** The local store (internal/database/sqlite.go, InitSchema)

    One row of [notifications] without its key columns.  The row id plays
    no part in any query of the notifier and is left out. *)

Record Notification := {
  notification_status : string;
  first_eligible_at : option Time;
  queued_at : option Time;
  sent_at : option Time;
  ticket_subject : string;
  customer_name : string;
  assigned_user : string;
  minutes_waiting : Z;
  threshold_minutes : Z;
  ticket_data : string
}.

Abbreviation Key := (Z * string)%type.
Abbreviation Table := (gmap (Z * string) Notification).

Record BurstLog := {
  event_type : string;
  event_time : option Time;
  notifications_sent : Z
}.

(** [CURRENT_TIMESTAMP]: the clock reading, to the second. *)
Definition CURRENT_TIMESTAMP (now : Time) : Time := now - now mod Second.

(** [datetime('now', '-' || secs || ' seconds')]. *)
Definition datetimeNowMinus (now : Time) (secs : Z) : Time :=
  CURRENT_TIMESTAMP now - secs * Second.

(** ** notifier.go *)

(** [shouldSkipTicket]; the key is unique, so [ORDER BY ... LIMIT 1]
    selects the one row of the key when there is one. *)
Definition shouldSkipTicket (cfg : Config) (now : Time) (db : Table)
    (ticket : Ticket) : bool :=
  match db !! (ID ticket, NotificationType ticket) with
  | None => false
  | Some row =>
      if String.eqb (notification_status row) StatusQueued then true
      else
        match sent_at row with
        | Some sentAt =>
            let cooldownExpiry := Time_Add sentAt (CooldownPeriod cfg) in
            if Time_Before now cooldownExpiry then true else false
        | None => false
        end
  end.

(** The [WHERE] clause of the conflict update.  For a negative number of
    seconds the modifier reads [--N seconds], which SQLite does not accept:
    [datetime] is then NULL and the comparison is not met. *)
Definition updateGuard (cfg : Config) (now : Time) (old : Notification) : bool :=
  match sent_at old with
  | None => true
  | Some s =>
      let secs := secondsInt (CooldownPeriod cfg) in
      if secs <? 0 then false else s <? datetimeNowMinus now secs
  end.

Definition thresholdMinutesOf (cfg : Config) (ticket : Ticket) : Z :=
  if String.eqb (NotificationType ticket) PendingNoCustomerResponse
  then minutesInt (PendingThreshold cfg)
  else minutesInt (OpenThreshold cfg).

(** The row written by the [INSERT] when the key is new. *)
Definition insertedRow (cfg : Config) (now : Time) (ticket : Ticket)
    (status ticketJSON : string) : Notification :=
  {| notification_status := status;
     first_eligible_at := Some (CURRENT_TIMESTAMP now);
     queued_at := if String.eqb status StatusQueued then Some now else None;
     sent_at := if String.eqb status StatusQueued then None
                else if String.eqb status StatusSent then Some now else None;
     ticket_subject := Subject ticket;
     customer_name := CustomerName ticket;
     assigned_user := AssignedUserName ticket;
     minutes_waiting := MinutesSinceReply ticket;
     threshold_minutes := thresholdMinutesOf cfg ticket;
     ticket_data := ticketJSON |}.

(** The row left by [DO UPDATE SET ...]. *)
Definition updatedRow (now : Time) (ticket : Ticket) (status ticketJSON : string)
    (old : Notification) : Notification :=
  {| notification_status := status;
     first_eligible_at := first_eligible_at old;
     queued_at := if String.eqb status "queued"
                  then Some (CURRENT_TIMESTAMP now) else queued_at old;
     sent_at := if String.eqb status "sent"
                then Some (CURRENT_TIMESTAMP now) else sent_at old;
     ticket_subject := Subject ticket;
     customer_name := CustomerName ticket;
     assigned_user := AssignedUserName ticket;
     minutes_waiting := MinutesSinceReply ticket;
     threshold_minutes := threshold_minutes old;
     ticket_data := ticketJSON |}.

(** [recordNotification]; [execOk] is whether the store accepts the
    statement.  [None] is a returned error, the table being unchanged. *)
Definition recordNotification (cfg : Config) (now : Time) (execOk : bool)
    (db : Table) (ticket : Ticket) (status : string) : option Table :=
  ticketJSON ← Marshal ticket;
  if negb execOk then None
  else
    let key := (ID ticket, NotificationType ticket) in
    match db !! key with
    | None => Some (<[key := insertedRow cfg now ticket status ticketJSON]> db)
    | Some old =>
        if updateGuard cfg now old
        then Some (<[key := updatedRow now ticket status ticketJSON old]> db)
        else Some db
    end.

Definition formatSlackMessage (cfg : Config) (ticket : Ticket) : string :=
  let pending := String.eqb (NotificationType ticket) PendingNoCustomerResponse in
  let emoji := if pending then encodeRune 9203 else encodeRune 128680 in
  let action := if pending then "waiting for customer" else "needs attention" in
  let waitingFor := if pending then "customer response" else "agent response" in
  let nl := String (byte_of 10) "" in
  let timeAgo := formatDuration (wrap64 (MinutesSinceReply ticket * Minute)) in
  let ticketURL := FreeScoutURL cfg +:+ "/conversation/" +:+ itoa (Number ticket) in
  emoji +:+ " Ticket #" +:+ itoa (Number ticket) +:+ " " +:+ action +:+ nl
  +:+ "*Subject:* " +:+ Subject ticket +:+ nl
  +:+ "*Customer:* " +:+ CustomerName ticket +:+ nl
  +:+ "*Waiting for:* " +:+ waitingFor +:+ " for " +:+ timeAgo +:+ nl
  +:+ (if (String.length (AssignedUserName ticket) =? 0)%nat
       then "*Assigned to:* Unassigned" +:+ nl
       else "*Assigned to:* " +:+ AssignedUserName ticket +:+ nl)
  +:+ "*View ticket:* <" +:+ ticketURL +:+ "|Open in FreeScout>".

(** *** The world of one run

    The local store, the clock, the pauses taken and the messages that the
    webhook accepted. *)
Record World := {
  notifications : gmap (Z * string) Notification;
  business_hours_log : list BurstLog;
  clock : Time;
  sleeps : list Duration;
  outbox : list string
}.

(** What the collaborators answer during one run.  Calls made inside a loop
    are named by the position of the item the loop is at. *)
Record Env := {
  drainQueryOk : bool;
  flushSendOk : nat -> bool;
  flushUpdateOk : nat -> bool;
  burstLogOk : bool;
  fetchOpen : option (list Ticket);
  fetchPending : option (list Ticket);
  skipQueryOk : nat -> bool;
  ticketSendOk : nat -> bool;
  recordExecOk : nat -> bool
}.

(** *** sendQueuedNotifications *)

(** [ORDER BY queued_at ASC]: NULL sorts first.  The order is taken on the
    instants (see the conventions above for the stored text). *)
Definition queuedAtLe (a b : Key * Notification) : Prop :=
  match queued_at a.2, queued_at b.2 with
  | None, _ => True
  | Some _, None => False
  | Some x, Some y => x <= y
  end.

#[local] Instance queuedAtLe_dec a b : Decision (queuedAtLe a b).
Proof. unfold queuedAtLe. destruct (queued_at a.2), (queued_at b.2); apply _. Defined.

(** [LIMIT n]: a negative limit is no limit. *)
Definition limitRows {A} (n : Z) (l : list A) : list A :=
  if n <? 0 then l else firstn (Z.to_nat n) l.

(** [WHERE notification_status = 'queued']. *)
Definition isQueued (kr : Key * Notification) : Prop :=
  notification_status kr.2 = "queued".

#[local] Instance isQueued_dec kr : Decision (isQueued kr).
Proof. unfold isQueued. apply _. Defined.

Definition queuedOrdered (db : Table) : list (Key * Notification) :=
  merge_sort queuedAtLe (filter isQueued (map_to_list db)).

(** The drained batch: what the [SELECT] returns. *)
Definition drainQueued (cfg : Config) (db : Table) : list (Key * Notification) :=
  limitRows (MaxNotifications cfg) (queuedOrdered db).

(** The [UPDATE] of the flush: the row of the key becomes sent. *)
Definition markSent (now : Time) (row : Notification) : Notification :=
  {| notification_status := "sent";
     first_eligible_at := first_eligible_at row;
     queued_at := queued_at row;
     sent_at := Some (CURRENT_TIMESTAMP now);
     ticket_subject := ticket_subject row;
     customer_name := customer_name row;
     assigned_user := assigned_user row;
     minutes_waiting := minutes_waiting row;
     threshold_minutes := threshold_minutes row;
     ticket_data := ticket_data row |}.

Record FlushState := {
  fs_world : World;
  fs_sent : Z
}.

Definition setNotifications (w : World) (db : gmap (Z * string) Notification) : World :=
  {| notifications := db; business_hours_log := business_hours_log w;
     clock := clock w; sleeps := sleeps w; outbox := outbox w |}.

Definition deliver (w : World) (msg : string) : World :=
  {| notifications := notifications w; business_hours_log := business_hours_log w;
     clock := clock w; sleeps := sleeps w; outbox := outbox w ++ [msg] |}.

(** [time.Sleep(d)]. *)
Definition sleep (w : World) (d : Duration) : World :=
  {| notifications := notifications w; business_hours_log := business_hours_log w;
     clock := clock w + d; sleeps := sleeps w ++ [d]; outbox := outbox w |}.

Definition appendBurstLog (w : World) (e : BurstLog) : World :=
  {| notifications := notifications w; business_hours_log := business_hours_log w ++ [e];
     clock := clock w; sleeps := sleeps w; outbox := outbox w |}.

(** The body of the loop over the drained rows, for the item at position
    [i].  Each [continue] of the source leaves the state as it is then. *)
Definition flushItem (cfg : Config) (env : Env) (i : nat)
    (item : Key * Notification) (st : FlushState) : FlushState :=
  let w := fs_world st in
  match Unmarshal (ticket_data item.2) with
  | None => st
  | Some ticket =>
      if negb (DryRun cfg) && negb (flushSendOk env i) then st
      else
        let w1 := if DryRun cfg then w else deliver w (formatSlackMessage cfg ticket) in
        if negb (flushUpdateOk env i) then {| fs_world := w1; fs_sent := fs_sent st |}
        else
          let w2 := setNotifications w1 (alter (markSent (clock w1)) item.1 (notifications w1)) in
          let sent := fs_sent st + 1 in
          let w3 := if sent <? MaxNotifications cfg then sleep w2 (2 * Second) else w2 in
          {| fs_world := w3; fs_sent := sent |}
  end.

Fixpoint flushLoop (cfg : Config) (env : Env) (i : nat)
    (items : list (Key * Notification)) (st : FlushState) : FlushState :=
  match items with
  | [] => st
  | item :: rest => flushLoop cfg env (S i) rest (flushItem cfg env i item st)
  end.

(** [sendQueuedNotifications]: the world after it, and [Some sent] for
    [(sent, nil)], [None] for a returned error. *)
Definition sendQueuedNotifications (cfg : Config) (env : Env) (w : World)
    : World * option Z :=
  if negb (drainQueryOk env) then (w, None)
  else
    let st := flushLoop cfg env 0 (drainQueued cfg (notifications w))
                {| fs_world := w; fs_sent := 0 |} in
    let w1 := fs_world st in
    let w2 :=
      if (0 <? fs_sent st) && burstLogOk env then
        appendBurstLog w1 {| event_type := "burst_sent";
                             event_time := Some (CURRENT_TIMESTAMP (clock w1));
                             notifications_sent := fs_sent st |}
      else w1 in
    (w2, Some (fs_sent st)).

(** *** processTicket and Run *)

Definition addSent (stats : RunStats) (n : Z) : RunStats :=
  {| TicketsChecked := TicketsChecked stats;
     NotificationsSent := NotificationsSent stats + n;
     NotificationsQueued := NotificationsQueued stats;
     Errors := Errors stats |}.

Definition addQueued (stats : RunStats) : RunStats :=
  {| TicketsChecked := TicketsChecked stats;
     NotificationsSent := NotificationsSent stats;
     NotificationsQueued := NotificationsQueued stats + 1;
     Errors := Errors stats |}.

Definition addError (stats : RunStats) : RunStats :=
  {| TicketsChecked := TicketsChecked stats;
     NotificationsSent := NotificationsSent stats;
     NotificationsQueued := NotificationsQueued stats;
     Errors := Errors stats + 1 |}.

Definition addChecked (stats : RunStats) (n : Z) : RunStats :=
  {| TicketsChecked := TicketsChecked stats + n;
     NotificationsSent := NotificationsSent stats;
     NotificationsQueued := NotificationsQueued stats;
     Errors := Errors stats |}.

(** [processTicket] for the ticket at position [j]; the boolean is whether
    it returned an error. *)
Definition processTicket (cfg : Config) (env : Env) (j : nat) (ticket : Ticket)
    (isBusinessHours : bool) (w : World) (stats : RunStats)
    : World * RunStats * bool :=
  if negb (skipQueryOk env j) then (w, stats, true)
  else if shouldSkipTicket cfg (clock w) (notifications w) ticket then (w, stats, false)
  else if isBusinessHours then
    if negb (DryRun cfg) && negb (ticketSendOk env j) then (w, stats, true)
    else
      let w1 := if DryRun cfg then w else deliver w (formatSlackMessage cfg ticket) in
      match recordNotification cfg (clock w1) (recordExecOk env j)
              (notifications w1) ticket StatusSent with
      | None => (w1, stats, true)
      | Some db => (setNotifications w1 db, addSent stats 1, false)
      end
  else
    match recordNotification cfg (clock w) (recordExecOk env j)
            (notifications w) ticket StatusQueued with
    | None => (w, stats, true)
    | Some db => (setNotifications w db, addQueued stats, false)
    end.

Fixpoint processAll (cfg : Config) (env : Env) (j : nat) (tickets : list Ticket)
    (isBusinessHours : bool) (w : World) (stats : RunStats) : World * RunStats :=
  match tickets with
  | [] => (w, stats)
  | ticket :: rest =>
      let '(w1, stats1, err) := processTicket cfg env j ticket isBusinessHours w stats in
      processAll cfg env (S j) rest isBusinessHours w1
        (if err then addError stats1 else stats1)
  end.

Definition zeroStats : RunStats :=
  {| TicketsChecked := 0; NotificationsSent := 0; NotificationsQueued := 0; Errors := 0 |}.

(** The start of [Run]: the flush at the start of the business day. *)
Definition runFlush (cfg : Config) (bh : BusinessHours) (env : Env) (w : World)
    (stats : RunStats) : World * RunStats :=
  if IsStartOfBusinessDay bh (clock w) then
    match sendQueuedNotifications cfg env w with
    | (w1, None) => (w1, addError stats)
    | (w1, Some sent) => (w1, addSent stats sent)
    end
  else (w, stats).

(** [Run]: the world after the pass, its statistics, and whether it
    returned an error (a failed fetch).  The elapsed time is not kept. *)
Definition Run (cfg : Config) (bh : BusinessHours) (env : Env) (w : World)
    : World * RunStats * bool :=
  let isBusinessHours := IsBusinessHours bh (clock w) in
  let '(w1, stats1) := runFlush cfg bh env w zeroStats in
  match fetchOpen env with
  | None => (w1, stats1, true)
  | Some openTickets =>
      let stats2 := addChecked stats1 (Z.of_nat (length openTickets)) in
      match fetchPending env with
      | None => (w1, stats2, true)
      | Some pendingTickets =>
          let stats3 := addChecked stats2 (Z.of_nat (length pendingTickets)) in
          let '(w2, stats4) :=
            processAll cfg env 0 (openTickets ++ pendingTickets) isBusinessHours w1 stats3 in
          (w2, stats4, false)
      end
  end.

(** ** Cleanup (cleanup.go) *)

(** [datetime('now', '-' || days || ' days')]. *)
Definition datetimeNowMinusDays (now : Time) (days : Z) : Time :=
  CURRENT_TIMESTAMP now - days * (24 * Hour).

(** [ts < cutoff] as a [WHERE] condition: not met by a NULL timestamp. *)
Definition isBefore (ts : option Time) (cutoff : Time) : bool :=
  match ts with
  | Some t => t <? cutoff
  | None => false
  end.

(** The [WHERE] clause of the [DELETE] on [notifications].  The cutoff is
    text in UTC; so is a [first_eligible_at], and a [sent_at] written by
    [CURRENT_TIMESTAMP].  A [sent_at] bound by the [INSERT] of
    [recordNotification] is text with the offset of the process: for such a
    row the comparison is the one of the store when the process runs in
    UTC. *)
Definition expired (cutoff : Time) (row : Notification) : bool :=
  (bool_decide (is_Some (sent_at row)) && isBefore (sent_at row) cutoff)
  || (bool_decide (sent_at row = None) && isBefore (first_eligible_at row) cutoff).

(** The world with another [business_hours_log]. *)
Definition setBusinessHoursLog (w : World) (log : list BurstLog) : World :=
  {| notifications := notifications w; business_hours_log := log;
     clock := clock w; sleeps := sleeps w; outbox := outbox w |}.

(** [CleanupOldNotifications]; [rowsExecOk] and [logExecOk] are whether the
    store accepts the two [DELETE] statements.  The boolean of the result
    is whether an error is returned. *)
Definition CleanupOldNotifications (rowsExecOk logExecOk : bool) (w : World)
    (retentionDays : Z) : World * bool :=
  let retentionDays := if retentionDays <=? 0 then 90 else retentionDays in
  if negb rowsExecOk then (w, true)
  else
    let w1 := setNotifications w
                (filter (fun kr => expired (datetimeNowMinusDays (clock w) retentionDays) kr.2
                                   = false)
                   (notifications w)) in
    if negb logExecOk then (w1, true)
    else
      (setBusinessHoursLog w1
         (filter (fun e => isBefore (event_time e)
                             (datetimeNowMinusDays (clock w1) retentionDays) = false)
            (business_hours_log w1)),
       false).

(** ** The Slack client (internal/slack)

    The HTTP side is given by what [http.NewRequest] says of the webhook URL
    and by the answer to each request, numbered from zero in the order they
    are made. *)

(** The fields of [Client] that [SendMessage] reads. *)
Record Client := {
  webhookURL : string;
  retryAttempts : Z
}.

(** What [httpClient.Do] gives: an error, or a response with its status. *)
Inductive Response :=
| TransportError
| StatusCode (code : Z).

Record Http := {
  newRequestOk : bool;
  roundTrip : nat -> Response
}.

(** The requests posted so far, each by its body, and the pauses taken. *)
Record Wire := {
  posted : list string;
  paused : list Duration
}.

(** The three ways [SendMessage] returns. *)
Inductive SendResult :=
| SendOk
| CreateRequestFailed
| FailedAfter (attempts : Z) (lastErr : option Response).

(** [json.Marshal(Message{Text: text})]. *)
Definition marshalMessage (text : string) : string :=
  "{" +:+ jkey "text" +:+ quote text +:+ "}".

(** [http.StatusOK]. *)
Definition StatusOK : Z := 200.

(** The retry loop from [attempt] on, with [fuel] attempts left. *)
Fixpoint sendAttempts (c : Client) (http : Http) (payload : string) (fuel : nat)
    (attempt : Z) (lastErr : option Response) (wire : Wire) : Wire * SendResult :=
  match fuel with
  | O => (wire, FailedAfter (retryAttempts c) lastErr)
  | S fuel' =>
      let wire1 :=
        if 0 <? attempt
        then {| posted := posted wire;
                paused := paused wire ++ [wrap64 (wrap64 (attempt * attempt) * Second)] |}
        else wire in
      if negb (newRequestOk http) then (wire1, CreateRequestFailed)
      else
        let wire2 := {| posted := posted wire1 ++ [payload]; paused := paused wire1 |} in
        match roundTrip http (Z.to_nat attempt) with
        | TransportError =>
            sendAttempts c http payload fuel' (attempt + 1) (Some TransportError) wire2
        | StatusCode code =>
            if code =? StatusOK then (wire2, SendOk)
            else sendAttempts c http payload fuel' (attempt + 1)
                   (Some (StatusCode code)) wire2
        end
  end.

(** [SendMessage]: the wire after the call and its result, [SendOk] for a
    nil error. *)
Definition SendMessage (c : Client) (http : Http) (text : string) (wire : Wire)
    : Wire * SendResult :=
  sendAttempts c http (marshalMessage text) (Z.to_nat (retryAttempts c)) 0 None wire.

(** ** Byte strings (package strings) *)

(** [strings.HasPrefix]. *)
Definition HasPrefix (s p : string) : bool :=
  match stripPrefix p s with Some _ => true | None => false end.

(** [strings.Index]: the offset of the first occurrence, or -1. *)
Fixpoint Index_from (s sub : string) (i : Z) : Z :=
  if HasPrefix s sub then i
  else match s with
       | "" => -1
       | String _ s' => Index_from s' sub (i + 1)
       end.

Definition Index (s sub : string) : Z := Index_from s sub 0.

(** [strings.Contains]. *)
Definition Contains (s sub : string) : bool := 0 <=? Index s sub.

(** [strings.Split(s, sep)] for a separator of one byte, as in every call
    of the package: the fields between the separators, at least one. *)
Fixpoint Split (s : string) (sep : ascii) : list string :=
  match s with
  | "" => [""]
  | String c s' =>
      if Ascii.eqb c sep then "" :: Split s' sep
      else match Split s' sep with
           | p :: ps => String c p :: ps
           | [] => [String c ""]
           end
  end.

(** [s[i:]] and [s[i:j]]. *)
Definition sliceFrom (s : string) (i : Z) : string := skip (Z.to_nat i) s.
Definition slice (s : string) (i j : Z) : string :=
  String.substring (Z.to_nat i) (Z.to_nat (j - i)) s.

(** [unicode.IsSpace]. *)
Definition IsSpace (r : Z) : bool :=
  if r <=? 255 then
    ((9 <=? r) && (r <=? 13)) || (r =? 32) || (r =? 133) || (r =? 160)
  else
    (r =? 5760) || ((8192 <=? r) && (r <=? 8202)) || (r =? 8232) || (r =? 8233)
    || (r =? 8239) || (r =? 8287) || (r =? 12288).

(** The table [asciiSpace] of package strings. *)
Definition asciiSpace (c : ascii) : bool :=
  ((9 <=? code c) && (code c <=? 13)) || (code c =? 32).

(** [utf8.RuneStart]. *)
Definition RuneStart (b : ascii) : bool := negb (Z.land (code b) 192 =? 128).

(** The backward scan of [utf8.DecodeLastRuneInString], from [start] down
    to [lim]. *)
Fixpoint lastRuneStart (fuel : nat) (s : string) (start lim : Z) : Z :=
  match fuel with
  | O => start
  | S f =>
      if start <? lim then start
      else match String.get (Z.to_nat start) s with
           | Some b => if RuneStart b then start else lastRuneStart f s (start - 1) lim
           | None => start
           end
  end.

(** [utf8.DecodeLastRuneInString]. *)
Definition decodeLastRune (s : string) : Z * nat :=
  let end_ := Z.of_nat (String.length s) in
  match String.get (Z.to_nat (end_ - 1)) s with
  | None => (RuneError, 0%nat)
  | Some b =>
      if code b <? 128 then (code b, 1%nat)
      else
        let lim := Z.max 0 (end_ - 4) in
        let start := lastRuneStart 4 s (end_ - 2) lim in
        let start := if start <? 0 then 0 else start in
        let '(r, size) := decodeRune (slice s start end_) in
        if negb (start + Z.of_nat size =? end_) then (RuneError, 1%nat) else (r, size)
  end.

(** [strings.TrimLeftFunc(s, unicode.IsSpace)]. *)
Fixpoint TrimLeftSpace (fuel : nat) (s : string) : string :=
  match fuel with
  | O => ""
  | S f =>
      match s with
      | "" => ""
      | _ =>
          let '(r, n) := decodeRune s in
          if IsSpace r then TrimLeftSpace f (skip n s) else s
      end
  end.

(** [lastIndexFunc(s[0:i], unicode.IsSpace, false)]. *)
Fixpoint lastIndexNotSpace (fuel : nat) (s : string) (i : Z) : Z :=
  match fuel with
  | O => -1
  | S f =>
      if i <=? 0 then -1
      else
        let '(r, size) := decodeLastRune (slice s 0 i) in
        let i' := i - Z.of_nat size in
        if negb (IsSpace r) then i' else lastIndexNotSpace f s i'
  end.

(** [strings.TrimRightFunc(s, unicode.IsSpace)]. *)
Definition TrimRightSpace (s : string) : string :=
  let n := String.length s in
  let i := lastIndexNotSpace n s (Z.of_nat n) in
  let wide := match String.get (Z.to_nat i) s with
              | Some b => (0 <=? i) && (128 <=? code b)
              | None => false
              end in
  let i := if wide then i + Z.of_nat (decodeRune (sliceFrom s i)).2 else i + 1 in
  slice s 0 i.

(** The second loop of [strings.TrimSpace]: ASCII white space off the end. *)
Fixpoint trimSpaceEnd (fuel : nat) (s : string) : string :=
  match fuel with
  | O => s
  | S f =>
      let n := String.length s in
      match String.get (n - 1) s with
      | None => s
      | Some c =>
          if (n =? 0)%nat then s
          else if 128 <=? code c then TrimRightSpace s
          else if asciiSpace c then trimSpaceEnd f (String.substring 0 (n - 1) s)
          else s
      end
  end.

(** [strings.TrimSpace]. *)
Fixpoint TrimSpace (s : string) : string :=
  match s with
  | "" => ""
  | String c s' =>
      if 128 <=? code c
      then TrimRightSpace (TrimLeftSpace (String.length s) s)
      else if asciiSpace c then TrimSpace s'
      else trimSpaceEnd (String.length s) s
  end.

(** ** Configuration (internal/config/config.go) *)

Module config.

(** The structs of the package, with the fields that the functions below and
    the notifier read. *)
Record FreeScoutConfig := {
  DSN : string;
  URL : string
}.

Record SlackConfig := {
  WebhookURL : string;
  RetryAttempts : Z
}.

Record BusinessHoursConfig := {
  Enabled : bool;
  StartHour : Z;
  EndHour : Z;
  Timezone : string;
  WorkDays : list Weekday;
  NotifyOnOpen : bool;
  HolidaysFile : string
}.

Record Config := {
  FreeScout : FreeScoutConfig;
  Slack : SlackConfig;
  OpenThreshold : Duration;
  PendingThreshold : Duration;
  CooldownPeriod : Duration;
  MaxNotifications : Z;
  BusinessHours : BusinessHoursConfig;
  RetentionDays : Z;
  DryRun : bool;
  CheckConnections : bool;
  InitDB : bool;
  StatsOnly : bool
}.

(** [validateDSN]; [None] is a nil error. *)
Definition validateDSN (c : Config) : option string :=
  let dsn := DSN (FreeScout c) in
  if negb (Contains dsn "@") || negb (Contains dsn "/") then
    Some "DSN must be in format 'user:password@tcp(host:port)/database?options'"
  else if HasPrefix dsn "tcp://" then
    Some "DSN should not include 'tcp://' scheme, use format: 'user:password@tcp(host:port)/database'"
  else None.

Definition Validate (c : Config) : option string :=
  if (String.length (DSN (FreeScout c)) =? 0)%nat then Some "--freescout-dsn is required"
  else
    match validateDSN c with
    | Some err => Some ("invalid DSN: " +:+ err)
    | None =>
        if (String.length (URL (FreeScout c)) =? 0)%nat then Some "--freescout-url is required"
        else if (String.length (WebhookURL (Slack c)) =? 0)%nat && negb (DryRun c)
                && negb (CheckConnections c) && negb (InitDB c) && negb (StatsOnly c)
        then Some "--slack-webhook is required"
        else if (StartHour (BusinessHours c) <? 0) || (23 <? StartHour (BusinessHours c))
        then Some "--business-hours-start must be 0-23"
        else if (EndHour (BusinessHours c) <? 0) || (23 <? EndHour (BusinessHours c))
        then Some "--business-hours-end must be 0-23"
        else if EndHour (BusinessHours c) <=? StartHour (BusinessHours c)
        then Some "--business-hours-start must be before --business-hours-end"
        else None
    end.

(** [GetDSNInfo]. *)
Definition GetDSNInfo (c : Config) : gmap string string :=
  let info : gmap string string := ∅ in
  let dsn := DSN (FreeScout c) in
  match Split dsn "@" with
  | userPass :: remaining :: _ =>
      let info :=
        match Split userPass ":" with
        | user :: _ => <["user" := user]> info
        | [] => info
        end in
      if HasPrefix remaining "tcp(" then
        let end_ := Index remaining ")" in
        let info :=
          if 4 <? end_ then
            let hostPort := slice remaining 4 end_ in
            let info := <["host_port" := hostPort]> info in
            match Split hostPort ":" with
            | host :: port :: _ => <["port" := port]> (<["host" := host]> info)
            | _ => info
            end
          else info in
        let remaining := sliceFrom remaining (end_ + 1) in
        if HasPrefix remaining "/" then
          match Split (sliceFrom remaining 1) "?" with
          | database :: _ => <["database" := database]> info
          | [] => info
          end
        else info
      else info
  | _ => info
  end.

(** The days of [time.Weekday]. *)
Definition Sunday : Weekday := 0.
Definition Monday : Weekday := 1.
Definition Tuesday : Weekday := 2.
Definition Wednesday : Weekday := 3.
Definition Thursday : Weekday := 4.
Definition Friday : Weekday := 5.
Definition Saturday : Weekday := 6.

(** [parseWorkDays]: fields that are none of 1 to 7 are passed over. *)
Definition parseWorkDays (s : string) : list Weekday :=
  foldl (fun days p =>
           let p := TrimSpace p in
           if String.eqb p "1" then days ++ [Monday]
           else if String.eqb p "2" then days ++ [Tuesday]
           else if String.eqb p "3" then days ++ [Wednesday]
           else if String.eqb p "4" then days ++ [Thursday]
           else if String.eqb p "5" then days ++ [Friday]
           else if String.eqb p "6" then days ++ [Saturday]
           else if String.eqb p "7" then days ++ [Sunday]
           else days)
    [] (Split s ",").

End config.

(** ** NewBusinessHours (business_hours.go)

    What the host answers: [time.LoadLocation] for a zone name,
    [os.ReadFile] for a path, and the list that [json.Unmarshal] leaves in
    [HolidaysFile.Holidays] for a text ([None] when it returns an error). *)
Record Host := {
  LoadLocation : string -> option Location;
  ReadFile : string -> option string;
  UnmarshalHolidays : string -> option (list string)
}.

(** [loadHolidays]: the holidays after the call, and whether it returned an
    error. *)
Definition loadHolidays (host : Host) (holidays : gmap string bool) (filename : string)
    : gmap string bool * bool :=
  match ReadFile host filename with
  | None => (holidays, true)
  | Some data =>
      match UnmarshalHolidays host data with
      | None => (holidays, true)
      | Some hf => (foldl (fun m holiday => <[holiday := true]> m) holidays hf, false)
      end
  end.

Definition NewBusinessHours (host : Host) (cfg : config.BusinessHoursConfig)
    : BusinessHours :=
  let loc := match LoadLocation host (config.Timezone cfg) with
             | Some loc => loc
             | None => UTC
             end in
  let workDays := foldl (fun m day => <[day := true]> m) (∅ : gmap Z bool)
                    (config.WorkDays cfg) in
  let holidays :=
    if negb (String.length (config.HolidaysFile cfg) =? 0)%nat
    then (loadHolidays host ∅ (config.HolidaysFile cfg)).1
    else ∅ in
  {| enabled := config.Enabled cfg;
     startHour := config.StartHour cfg;
     endHour := config.EndHour cfg;
     timezone := loc;
     workDays := workDays;
     holidays := holidays;
     notifyOnOpen := config.NotifyOnOpen cfg |}.

(** ** Candidate tickets (internal/database/freescout.go)

    A row of [conversations c LEFT JOIN customers cust LEFT JOIN users u]
    that passes the [WHERE] clause of one of the two queries; the name
    columns of [cust] and [u] are NULL when the join finds no row. *)
Record Joined := {
  c_id : option Z;
  c_number : option Z;
  c_subject : option string;
  c_customer_email : option string;
  cust_first_name : option string;
  cust_last_name : option string;
  c_user_id : option Z;
  u_first_name : option string;
  u_last_name : option string;
  c_last_reply_at : option Time;
  minutes_since_reply : option Z;
  c_mailbox_id : option Z
}.

(** [COALESCE(x, '')]. *)
Definition COALESCE (x : option string) : string :=
  match x with
  | Some s => s
  | None => ""
  end.

(** [CONCAT(a, ' ', b)] of texts that are not NULL. *)
Definition CONCAT3 (a b c : string) : string := a +:+ b +:+ c.

(** The columns of the [SELECT] list, as [rows.Scan] receives them. *)
Record Row := {
  ticket_id : option Z;
  ticket_number : option Z;
  subject : option string;
  customer_email : option string;
  customer_name_col : option string;
  assigned_user_id : option Z;
  assigned_user_name : option string;
  last_reply_at : option Time;
  minutes_since_reply_col : option Z;
  mailbox_id : option Z
}.

Definition selectRow (j : Joined) : Row :=
  {| ticket_id := c_id j;
     ticket_number := c_number j;
     subject := c_subject j;
     customer_email := c_customer_email j;
     customer_name_col :=
       Some (CONCAT3 (COALESCE (cust_first_name j)) " " (COALESCE (cust_last_name j)));
     assigned_user_id := c_user_id j;
     assigned_user_name :=
       Some (CONCAT3 (COALESCE (u_first_name j)) " " (COALESCE (u_last_name j)));
     last_reply_at := c_last_reply_at j;
     minutes_since_reply_col := minutes_since_reply j;
     mailbox_id := c_mailbox_id j |}.

(** [rows.Scan] into the fields of a ticket: a NULL is an error for every
    destination but the pointer [AssignedUserID]. *)
Definition scanRow (r : Row) (notificationType : string) : option Ticket :=
  id ← ticket_id r;
  number ← ticket_number r;
  subject ← subject r;
  customerEmail ← customer_email r;
  customerName ← customer_name_col r;
  assignedUserName ← assigned_user_name r;
  lastReplyAt ← last_reply_at r;
  minutesSinceReply ← minutes_since_reply_col r;
  mailboxID ← mailbox_id r;
  Some {| ID := id; Number := number; Subject := subject;
          CustomerEmail := customerEmail; CustomerName := customerName;
          AssignedUserID := assigned_user_id r;
          AssignedUserName := assignedUserName;
          LastReplyAt := lastReplyAt; MinutesSinceReply := minutesSinceReply;
          MailboxID := mailboxID; NotificationType := notificationType |}.

(** [scanTickets]; [rowsErr] is whether [rows.Err()] reports an error once
    the rows are read.  [None] is a returned error. *)
Fixpoint scanLoop (rows : list Row) (notificationType : string) (tickets : list Ticket)
    : option (list Ticket) :=
  match rows with
  | [] => Some tickets
  | r :: rest =>
      match scanRow r notificationType with
      | None => None
      | Some t => scanLoop rest notificationType (tickets ++ [t])
      end
  end.

Definition scanTickets (rows : list Row) (rowsErr : bool) (notificationType : string)
    : option (list Ticket) :=
  match scanLoop rows notificationType [] with
  | None => None
  | Some tickets => if rowsErr then None else Some tickets
  end.

(** ** Notions used to state the properties *)

(** Whether the item at position [i] goes through all three steps: the
    stored ticket parses, the message is sent (or the run is dry), and the
    row is updated. *)
Definition itemOk (cfg : Config) (env : Env) (i : nat) (item : Key * Notification) : bool :=
  bool_decide (is_Some (Unmarshal (ticket_data item.2)))
  && (DryRun cfg || flushSendOk env i)
  && flushUpdateOk env i.

Fixpoint countOk (cfg : Config) (env : Env) (i : nat)
    (items : list (Key * Notification)) : Z :=
  match items with
  | [] => 0
  | item :: rest => (if itemOk cfg env i item then 1 else 0) + countOk cfg env (S i) rest
  end.

(** The pauses after [sent] sends: one of two seconds after each send that
    leaves the count below [MaxNotifications]. *)
Definition pausesFor (cfg : Config) (sent : Z) : nat :=
  Z.to_nat (Z.min sent (Z.max 0 (MaxNotifications cfg - 1))).

(** Rows are only ever rewritten by [markSent] during a flush. *)
Inductive flushed : Notification -> Notification -> Prop :=
| flushed_refl row : flushed row row
| flushed_step row row' now : flushed row row' -> flushed row (markSent now row').

(** ** Sample data for the concrete instances *)

Definition sampleConfig : Config :=
  {| OpenThreshold := 2 * Hour; PendingThreshold := 24 * Hour;
     CooldownPeriod := 4 * Hour; MaxNotifications := 50; DryRun := false;
     FreeScoutURL := "https://help.example.com" |}.

Definition sampleTicket : Ticket :=
  {| ID := 17; Number := 1042; Subject := "Printer on fire";
     CustomerEmail := "ada@example.com"; CustomerName := "Ada Lovelace";
     AssignedUserID := Some 3; AssignedUserName := "Grace Hopper";
     LastReplyAt := 1705250000 * Second; MinutesSinceReply := 185; MailboxID := 1;
     NotificationType := OpenNoAgentResponse |}.

Definition sampleKey : Z * string := (17, OpenNoAgentResponse).

(** Monday to Friday, 9 to 17, UTC, no holidays. *)
Definition sampleHours : BusinessHours :=
  {| enabled := true; startHour := 9; endHour := 17; timezone := UTC;
     workDays := list_to_map [(1, true); (2, true); (3, true); (4, true); (5, true)];
     holidays := ∅; notifyOnOpen := true |}.

(** Sunday 2024-01-14 22:00:00 UTC and Monday 2024-01-15 09:00:00 UTC. *)
Definition sundayNight : Time := 1705269600 * Second.
Definition mondayNine : Time := 1705309200 * Second.

Definition emptyWorld (now : Time) : World :=
  {| notifications := ∅; business_hours_log := []; clock := now;
     sleeps := []; outbox := [] |}.

(** The store after the sample ticket was queued on Sunday night. *)
Definition queuedStore : gmap (Z * string) Notification :=
  default ∅ (recordNotification sampleConfig sundayNight true ∅ sampleTicket StatusQueued).

Definition mondayWorld : World := setNotifications (emptyWorld mondayNine) queuedStore.

(** Collaborators that all answer, with no candidate tickets; and the same
    with a webhook that refuses every message. *)
Definition okEnv : Env :=
  {| drainQueryOk := true; flushSendOk := fun _ => true; flushUpdateOk := fun _ => true;
     burstLogOk := true; fetchOpen := Some []; fetchPending := Some [];
     skipQueryOk := fun _ => true; ticketSendOk := fun _ => true;
     recordExecOk := fun _ => true |}.

Definition sendFailsEnv : Env :=
  {| drainQueryOk := true; flushSendOk := fun _ => false; flushUpdateOk := fun _ => true;
     burstLogOk := true; fetchOpen := Some []; fetchPending := Some [];
     skipQueryOk := fun _ => true; ticketSendOk := fun _ => true;
     recordExecOk := fun _ => true |}.

(** The store after the sample ticket was notified at [sentAt]: the row
    that [recordNotification] inserts for it. *)
Definition sampleJSON : string := default "" (Marshal sampleTicket).

Definition sentRow (sentAt : Time) : Notification :=
  insertedRow sampleConfig sentAt sampleTicket StatusSent sampleJSON.

Definition sentStore (sentAt : Time) : gmap (Z * string) Notification :=
  {[ sampleKey := sentRow sentAt ]}.

(** Monday 2024-01-15 10:00:00, Thursday 2024-01-18 22:00:00 and Friday
    2024-01-19 09:00:00 UTC. *)
Definition mondayTen : Time := mondayNine + Hour.
Definition thursdayNight : Time := mondayNine + 3 * (24 * Hour) + 13 * Hour.
Definition fridayNine : Time := mondayNine + 4 * (24 * Hour).

(** The sample ticket, notified on Monday at ten and seen again on Thursday
    night: the row that the conflict update leaves when it queues it, and
    the store at the start of Friday. *)
Definition requeuedRow : Notification :=
  updatedRow thursdayNight sampleTicket StatusQueued sampleJSON (sentRow mondayTen).

Definition requeuedStore : gmap (Z * string) Notification :=
  {[ sampleKey := requeuedRow ]}.

Definition fridayWorld : World := setNotifications (emptyWorld fridayNine) requeuedStore.

(** ** Notions used in the proofs *)

(** All bytes of a string satisfy a test. *)
Fixpoint allb (p : ascii -> bool) (s : string) : bool :=
  match s with
  | "" => true
  | String c r => p c && allb p r
  end.

(** The value of a string of digits. *)
Fixpoint decVal (s : string) : Z :=
  match s with
  | "" => 0
  | String c r => digitVal c * 10 ^ Z.of_nat (String.length r) + decVal r
  end.

(** What may follow a value inside an object: a comma or a closing brace. *)
Definition startsDelim (s : string) : bool :=
  match s with
  | String c _ => (code c =? 44) || (code c =? 125)
  | "" => false
  end.

Ltac divlia := Z.div_mod_to_equations; lia.

(** A well-formed encoding at the head of a string: the rune, the bytes
    that encode it, and that nothing after them matters. *)
Definition encodes (s : string) (rn : Z) (size : nat) (p : string) : Prop :=
  String.length p = size
  /\ s = p +:+ skip size s
  /\ encodeRune rn = p
  /\ allb (fun c => 128 <=? code c) p = true
  /\ (2 <= size)%nat
  /\ (forall y, decodeRune (p +:+ y) = (rn, size)).

Ltac zdecide :=
  repeat (match goal with
    | |- context [Z.ltb ?a ?b] =>
        first [ rewrite (proj2 (Z.ltb_lt a b)) by lia
              | rewrite (proj2 (Z.ltb_ge a b)) by lia ]
    | |- context [Z.leb ?a ?b] =>
        first [ rewrite (proj2 (Z.leb_le a b)) by lia
              | rewrite (proj2 (Z.leb_gt a b)) by lia ]
    | |- context [Z.eqb ?a ?b] =>
        first [ rewrite (proj2 (Z.eqb_eq a b)) by lia
              | rewrite (proj2 (Z.eqb_neq a b)) by lia ]
    end; cbn [orb andb negb]).

(** What the decoder reads back from the text the encoder wrote: the
    string with every byte that is not part of a well-formed encoding
    replaced by U+FFFD. *)
Fixpoint toValidUTF8_go (fuel : nat) (s : string) : string :=
  match fuel with
  | O => ""
  | S f =>
      match s with
      | "" => ""
      | String c r =>
          if code c <? 128 then String c (toValidUTF8_go f r)
          else
            let '(rn, size) := decodeRune s in
            encodeRune rn +:+ toValidUTF8_go f (skip size s)
      end
  end.

Definition toValidUTF8 (s : string) : string := toValidUTF8_go (String.length s) s.

Definition scanThen (p : string) (x : string) : option (string * string) :=
  match scanString x with
  | Some (raw, rest) => Some (p +:+ raw, rest)
  | None => None
  end.

Definition unquoteThen (fuel : nat) (p : string) (x : string) : option string :=
  match unquote_go fuel x with
  | Some out => Some (p +:+ out)
  | None => None
  end.

(** The bytes [escape_go] writes for a whole string. *)
Definition escape (s : string) : string := escape_go (String.length s) s.

(** Bytes that stand for themselves inside a string literal. *)
Definition plainByte (c : ascii) : bool :=
  (32 <=? code c) && (code c <? 128) && negb (code c =? 34) && negb (code c =? 92).

(** A test holds for the [n] integers from [i] on. *)
Fixpoint allFrom (p : Z -> bool) (n : nat) (i : Z) : bool :=
  match n with
  | O => true
  | S k => p i && allFrom p k (i + 1)
  end.

(** The month and day of a day of a year that starts on 1 March are a
    date of the calendar; the last day of a long year is 29 February. *)
Definition civilOk (doy : Z) : bool :=
  let mp := (5 * doy + 2) / 153 in
  let d := doy - (153 * mp + 2) / 5 + 1 in
  let m := if mp <? 10 then mp + 3 else mp - 9 in
  (1 <=? m) && (m <=? 12) && (1 <=? d)
  && (if doy =? 365 then (m =? 2) && (d =? 29) else d <=? daysIn m 1).

Definition digits2 (n : Z) : string :=
  String (digitChar (n / 10)) (String (digitChar (n mod 10)) "").

Definition digits4 (n : Z) : string :=
  String (digitChar (n / 1000))
    (String (digitChar (n / 100 mod 10))
       (String (digitChar (n / 10 mod 10)) (String (digitChar (n mod 10)) ""))).

Inductive FieldVal :=
| FInt (z : Z)
| FOptInt (o : option Z)
| FStr (s : string)
| FTime (raw : string).

Definition renderVal (v : FieldVal) : string :=
  match v with
  | FInt z => itoa z
  | FOptInt o => marshalOptInt o
  | FStr s => quote s
  | FTime raw => String DQ (raw +:+ String DQ "")
  end.

Definition jsonOf (v : FieldVal) : Json :=
  match v with
  | FInt z => JNumber (itoa z)
  | FOptInt None => JNull
  | FOptInt (Some z) => JNumber (itoa z)
  | FStr s => JString (escape s)
  | FTime raw => JString raw
  end.

Definition wfVal (v : FieldVal) : Prop :=
  match v with
  | FTime raw => allb plainByte raw = true
  | _ => True
  end.

Fixpoint renderMembers (k : string) (v : FieldVal) (ms : list (string * FieldVal))
    (tail : string) : string :=
  match ms with
  | [] => jkey k +:+ renderVal v +:+ "}" +:+ tail
  | (k', v') :: rest =>
      jkey k +:+ renderVal v +:+ "," +:+ renderMembers k' v' rest tail
  end.

(** The members of a marshalled ticket after the first. *)
Definition ticketMembers (t : Ticket) (raw : string) : list (string * FieldVal) :=
  [("Number", FInt (Number t)); ("Subject", FStr (Subject t));
   ("CustomerEmail", FStr (CustomerEmail t)); ("CustomerName", FStr (CustomerName t));
   ("AssignedUserID", FOptInt (AssignedUserID t));
   ("AssignedUserName", FStr (AssignedUserName t)); ("LastReplyAt", FTime raw);
   ("MinutesSinceReply", FInt (MinutesSinceReply t)); ("MailboxID", FInt (MailboxID t));
   ("NotificationType", FStr (NotificationType t))].

(** What [Unmarshal] makes of a marshalled ticket: strings coerced to valid
    UTF-8, the time as parsed. *)
Definition decodedTicket (t : Ticket) (t' : Time) : Ticket :=
  {| ID := ID t; Number := Number t; Subject := toValidUTF8 (Subject t);
     CustomerEmail := toValidUTF8 (CustomerEmail t);
     CustomerName := toValidUTF8 (CustomerName t);
     AssignedUserID := AssignedUserID t;
     AssignedUserName := toValidUTF8 (AssignedUserName t);
     LastReplyAt := t'; MinutesSinceReply := MinutesSinceReply t;
     MailboxID := MailboxID t;
     NotificationType := toValidUTF8 (NotificationType t) |}.

(** The integers of a ticket are Go [int]s. *)
Definition ticketInts (t : Ticket) : bool :=
  inInt64 (ID t) && inInt64 (Number t) && inInt64 (MinutesSinceReply t)
  && inInt64 (MailboxID t)
  && match AssignedUserID t with Some u => inInt64 u | None => true end.

(** A ticket whose subject is the single byte 0xFF, not valid UTF-8. *)
Definition badTicket : Ticket :=
  {| ID := 17; Number := 1042; Subject := String (byte_of 255) "";
     CustomerEmail := "ada@example.com"; CustomerName := "Ada Lovelace";
     AssignedUserID := None; AssignedUserName := "";
     LastReplyAt := 1705250000 * Second; MinutesSinceReply := 185; MailboxID := 1;
     NotificationType := OpenNoAgentResponse |}.

(** ** Notions used to state the further properties *)

(** The messages a flush hands to the webhook, in the order of the batch:
    one for each item whose stored ticket parses and whose send is accepted. *)
Fixpoint flushMessages (cfg : Config) (env : Env) (i : nat)
    (items : list (Key * Notification)) : list string :=
  match items with
  | [] => []
  | item :: rest =>
      match Unmarshal (ticket_data item.2) with
      | Some ticket =>
          if negb (DryRun cfg) && flushSendOk env i
          then formatSlackMessage cfg ticket :: flushMessages cfg env (S i) rest
          else flushMessages cfg env (S i) rest
      | None => flushMessages cfg env (S i) rest
      end
  end.

(** The key of the row of a ticket. *)
Definition ticketKey (t : Ticket) : Z * string := (ID t, NotificationType t).

(** The retention period in force: 90 days unless a positive number is
    given. *)
Definition retention (retentionDays : Z) : Duration :=
  (if retentionDays <=? 0 then 90 else retentionDays) * (24 * Hour).

(** The timestamp a row is aged by: when it was sent, or else when it was
    first seen. *)
Definition agedBy (row : Notification) : option Time :=
  match sent_at row with
  | Some s => Some s
  | None => first_eligible_at row
  end.

(** [stampedAt row t]: the timestamp that ages [row] is [t], and was written
    by the store itself, as [CURRENT_TIMESTAMP]: the row was never sent and
    first seen at [t]; or it was marked as sent by a flush, or by a conflict
    update to [sent], at [t]; or it is such a sent row, queued again by a
    conflict update, which keeps its [sent_at]. *)
Inductive stampedAt : Notification -> Time -> Prop :=
| stamped_never row t :
    sent_at row = None -> first_eligible_at row = Some t -> stampedAt row t
| stamped_flush now row :
    stampedAt (markSent now row) (CURRENT_TIMESTAMP now)
| stamped_update now ticket ticketJSON old :
    stampedAt (updatedRow now ticket StatusSent ticketJSON old) (CURRENT_TIMESTAMP now)
| stamped_requeue now ticket ticketJSON old t :
    is_Some (sent_at old) -> stampedAt old t ->
    stampedAt (updatedRow now ticket StatusQueued ticketJSON old) t.

(** The pauses before attempts [a], [a + 1], ... ([k] of them): the square of
    the attempt number, in seconds. *)
Fixpoint backoff (k : nat) (a : Z) : list Duration :=
  match k with
  | O => []
  | S k' => a * a * Second :: backoff k' (a + 1)
  end.

(** An answer that ends the retries: status 200. *)
Definition accepted (r : Response) : bool :=
  match r with
  | StatusCode code => code =? StatusOK
  | TransportError => false
  end.

(** The sum of a list of durations. *)
Definition sumZ (l : list Z) : Z := foldr Z.add 0 l.

(** No byte of [s] is [sep]. *)
Definition noByte (sep : ascii) (s : string) : bool :=
  allb (fun c => negb (Ascii.eqb c sep)) s.

(** The field of [--business-hours-days] for a weekday: 1 for Monday to 7
    for Sunday. *)
Definition dayField (d : Weekday) : string :=
  if d =? 0 then "7" else String (digitChar d) "".

(** Fields joined by commas. *)
Fixpoint joinFields (fields : list string) : string :=
  match fields with
  | [] => ""
  | [f] => f
  | f :: rest => f +:+ String "," (joinFields rest)
  end.

(** The body of the loop of [parseWorkDays]. *)
Definition workDayStep (days : list Weekday) (p : string) : list Weekday :=
  let p := TrimSpace p in
  if String.eqb p "1" then days ++ [config.Monday]
  else if String.eqb p "2" then days ++ [config.Tuesday]
  else if String.eqb p "3" then days ++ [config.Wednesday]
  else if String.eqb p "4" then days ++ [config.Thursday]
  else if String.eqb p "5" then days ++ [config.Friday]
  else if String.eqb p "6" then days ++ [config.Saturday]
  else if String.eqb p "7" then days ++ [config.Sunday]
  else days.

(** The holidays that [NewBusinessHours] ends up with: the list of the file
    when one is named, read and decoded; none otherwise. *)
Definition listedHolidays (host : Host) (cfg : config.BusinessHoursConfig) : list string :=
  if (String.length (config.HolidaysFile cfg) =? 0)%nat then []
  else
    match ReadFile host (config.HolidaysFile cfg) with
    | Some data => default [] (UnmarshalHolidays host data)
    | None => []
    end.

(** A DSN written from its parts, with or without options. *)
Definition renderDSN (user pass host port db : string) (opts : option string) : string :=
  user +:+ String ":" (pass +:+ String "@" ("tcp(" +:+ host +:+ String ":" (port
    +:+ String ")" (String "/" (db +:+ match opts with
                                       | Some o => String "?" o
                                       | None => ""
                                       end))))).

(** One step of the loop of [loadHolidays]. *)
Definition withHoliday (bh : BusinessHours) (holiday : string) : BusinessHours :=
  {| enabled := enabled bh; startHour := startHour bh; endHour := endHour bh;
     timezone := timezone bh; workDays := workDays bh;
     holidays := <[holiday := true]> (holidays bh);
     notifyOnOpen := notifyOnOpen bh |}.

(** The year of the date of an instant in a zone. *)
Definition Time_Year (loc : Location) (t : Time) : Z :=
  (civilFromDays (wallSeconds loc t / 86400)).1.1.

(** The message for a ticket with a name in [AssignedUserName]. *)
Definition assignedMessage (cfg : Config) (ticket : Ticket) : string :=
  let pending := String.eqb (NotificationType ticket) PendingNoCustomerResponse in
  let emoji := if pending then encodeRune 9203 else encodeRune 128680 in
  let action := if pending then "waiting for customer" else "needs attention" in
  let waitingFor := if pending then "customer response" else "agent response" in
  let nl := String (byte_of 10) "" in
  let timeAgo := formatDuration (wrap64 (MinutesSinceReply ticket * Minute)) in
  let ticketURL := FreeScoutURL cfg +:+ "/conversation/" +:+ itoa (Number ticket) in
  emoji +:+ " Ticket #" +:+ itoa (Number ticket) +:+ " " +:+ action +:+ nl
  +:+ "*Subject:* " +:+ Subject ticket +:+ nl
  +:+ "*Customer:* " +:+ CustomerName ticket +:+ nl
  +:+ "*Waiting for:* " +:+ waitingFor +:+ " for " +:+ timeAgo +:+ nl
  +:+ ("*Assigned to:* " +:+ AssignedUserName ticket +:+ nl)
  +:+ "*View ticket:* <" +:+ ticketURL +:+ "|Open in FreeScout>".

(** ** Sample data for the further instances *)

(** Collaborators that all answer, but for the updates of the flush. *)
Definition updateFailsEnv : Env :=
  {| drainQueryOk := true; flushSendOk := fun _ => true; flushUpdateOk := fun _ => false;
     burstLogOk := true; fetchOpen := Some []; fetchPending := Some [];
     skipQueryOk := fun _ => true; ticketSendOk := fun _ => true;
     recordExecOk := fun _ => true |}.

(** Collaborators that all answer, with the sample ticket as the one open
    candidate. *)
Definition ticketEnv : Env :=
  {| drainQueryOk := true; flushSendOk := fun _ => true; flushUpdateOk := fun _ => true;
     burstLogOk := true; fetchOpen := Some [sampleTicket]; fetchPending := Some [];
     skipQueryOk := fun _ => true; ticketSendOk := fun _ => true;
     recordExecOk := fun _ => true |}.

(** The sample configuration, as a dry run. *)
Definition dryConfig : Config :=
  {| OpenThreshold := 2 * Hour; PendingThreshold := 24 * Hour;
     CooldownPeriod := 4 * Hour; MaxNotifications := 50; DryRun := true;
     FreeScoutURL := "https://help.example.com" |}.

(** The store refuses the statements that record a decision. *)
Definition recordFailsEnv : Env :=
  {| drainQueryOk := true; flushSendOk := fun _ => true; flushUpdateOk := fun _ => true;
     burstLogOk := true; fetchOpen := Some [sampleTicket]; fetchPending := Some [];
     skipQueryOk := fun _ => true; ticketSendOk := fun _ => true;
     recordExecOk := fun _ => false |}.

(** The row of the sample ticket, queued on Sunday night, once the flush of
    Monday at nine has marked it as sent. *)
Definition flushedRow : Notification :=
  markSent mondayNine (insertedRow sampleConfig sundayNight sampleTicket StatusQueued sampleJSON).

(** A hundred days after that flush, and a hundred days after the sample
    ticket was queued on Sunday night. *)
Definition staleSentWorld : World :=
  setNotifications (emptyWorld (mondayNine + 100 * (24 * Hour))) {[ sampleKey := flushedRow ]}.

Definition staleQueueWorld : World :=
  setNotifications (emptyWorld (sundayNight + 100 * (24 * Hour))) queuedStore.

Definition sampleClient : Client :=
  {| webhookURL := "https://hooks.slack.com/services/T000/B000/XXXX"; retryAttempts := 3 |}.

(** A webhook that answers 502 once and then 200; and one that is down. *)
Definition flakyHttp : Http :=
  {| newRequestOk := true;
     roundTrip := fun i => match i with O => StatusCode 502 | _ => StatusCode 200 end |}.

Definition downHttp : Http :=
  {| newRequestOk := true; roundTrip := fun _ => TransportError |}.

Definition idleWire : Wire := {| posted := []; paused := [] |}.

Definition sampleDSN : string :=
  "scout:s3cret@tcp(db.example.com:3306)/freescout?parseTime=true".

Definition sampleSettings : config.Config :=
  {| config.FreeScout := {| config.DSN := sampleDSN;
                            config.URL := "https://help.example.com" |};
     config.Slack := {| config.WebhookURL := "https://hooks.slack.com/services/T000/B000/XXXX";
                        config.RetryAttempts := 3 |};
     config.OpenThreshold := 2 * Hour;
     config.PendingThreshold := 24 * Hour;
     config.CooldownPeriod := 4 * Hour;
     config.MaxNotifications := 50;
     config.BusinessHours :=
       {| config.Enabled := true; config.StartHour := 9; config.EndHour := 17;
          config.Timezone := "America/Chicago";
          config.WorkDays := config.parseWorkDays "1,2,3,4,5";
          config.NotifyOnOpen := true; config.HolidaysFile := "" |};
     config.RetentionDays := 90;
     config.DryRun := false; config.CheckConnections := false;
     config.InitDB := false; config.StatsOnly := false |}.

(** Business hours whose days are given by name. *)
Definition namedDaysHours : config.BusinessHoursConfig :=
  {| config.Enabled := true; config.StartHour := 9; config.EndHour := 17;
     config.Timezone := "UTC";
     config.WorkDays := config.parseWorkDays "mon,tue,wed,thu,fri";
     config.NotifyOnOpen := true; config.HolidaysFile := "" |}.

(** A host that knows no zone and has no file. *)
Definition bareHost : Host :=
  {| LoadLocation := fun _ => None; ReadFile := fun _ => None;
     UnmarshalHolidays := fun _ => None |}.

(** An open conversation that no user has taken. *)
Definition unassignedRow : Joined :=
  {| c_id := Some 17; c_number := Some 1042; c_subject := Some "Printer on fire";
     c_customer_email := Some "ada@example.com";
     cust_first_name := Some "Ada"; cust_last_name := Some "Lovelace";
     c_user_id := None; u_first_name := None; u_last_name := None;
     c_last_reply_at := Some (1705250000 * Second);
     minutes_since_reply := Some 185; c_mailbox_id := Some 1 |}.

Definition unassignedTicket : Ticket :=
  {| ID := 17; Number := 1042; Subject := "Printer on fire";
     CustomerEmail := "ada@example.com"; CustomerName := "Ada Lovelace";
     AssignedUserID := None; AssignedUserName := " ";
     LastReplyAt := 1705250000 * Second; MinutesSinceReply := 185; MailboxID := 1;
     NotificationType := OpenNoAgentResponse |}.

(** A conversation whose subject is NULL. *)
Definition untitledRow : Joined :=
  {| c_id := Some 18; c_number := Some 1043; c_subject := None;
     c_customer_email := Some "ada@example.com";
     cust_first_name := Some "Ada"; cust_last_name := Some "Lovelace";
     c_user_id := None; u_first_name := None; u_last_name := None;
     c_last_reply_at := Some (1705250000 * Second);
     minutes_since_reply := Some 185; c_mailbox_id := Some 1 |}.

Definition untitledEnv : Env :=
  {| drainQueryOk := true; flushSendOk := fun _ => true; flushUpdateOk := fun _ => true;
     burstLogOk := true;
     fetchOpen := scanTickets (selectRow <$> [unassignedRow; untitledRow]) false
                    OpenNoAgentResponse;
     fetchPending := Some [];
     skipQueryOk := fun _ => true; ticketSendOk := fun _ => true;
     recordExecOk := fun _ => true |}.

(** * Properties *)

(** ** Business hours *)

(** C3: [IsBusinessHours] is true whenever the feature is disabled;
    otherwise it is false on a holiday (local date in the holiday map),
    false when the local weekday is not a work day, and otherwise true
    exactly when the local hour lies in [startHour, endHour): true at the
    start hour (of a non-empty interval) and false at the end hour. *)
Theorem IsBusinessHours_spec (bh : BusinessHours) (t : Time) :
  let loc := timezone bh in
  let hour := Time_Hour loc t in
  let holiday := mapBool (holidays bh) (Time_FormatDate loc t) in
  let workDay := mapBool (workDays bh) (Time_Weekday loc t) in
  (enabled bh = false -> IsBusinessHours bh t = true)
  /\ (enabled bh = true -> holiday = true -> IsBusinessHours bh t = false)
  /\ (enabled bh = true -> workDay = false -> IsBusinessHours bh t = false)
  /\ (enabled bh = true -> holiday = false -> workDay = true ->
      (IsBusinessHours bh t = true <-> startHour bh <= hour < endHour bh))
  /\ (enabled bh = true -> holiday = false -> workDay = true ->
      startHour bh < endHour bh -> hour = startHour bh ->
      IsBusinessHours bh t = true)
  /\ (enabled bh = true -> hour = endHour bh -> IsBusinessHours bh t = false).
Proof.
  cbv zeta. unfold IsBusinessHours.
  repeat split.
  - intros ->. reflexivity.
  - intros -> ->. reflexivity.
  - intros -> ->. simpl. destruct (mapBool (holidays bh) _); reflexivity.
  - rewrite H, H0, H1 in H2. simpl in H2.
    apply andb_prop in H2 as [? _]. lia.
  - rewrite H, H0, H1 in H2. simpl in H2.
    apply andb_prop in H2 as [_ ?]. lia.
  - intros [? ?]. rewrite H, H0, H1. simpl.
    apply andb_true_intro. split; lia.
  - intros -> -> -> Hlt Heq. simpl. rewrite Heq.
    apply andb_true_intro. split; lia.
  - intros -> Heq. simpl. rewrite Heq.
    destruct (mapBool (holidays bh) _); [reflexivity|].
    destruct (mapBool (workDays bh) _); simpl; [|reflexivity].
    apply andb_false_intro2. lia.
Qed.

(** C4: [IsStartOfBusinessDay] is true exactly when business hours are
    enabled, the notify-on-open feature is on, [IsBusinessHours] holds, the
    local hour is the start hour and the local minute is below 5; so it is
    false when either switch is off and false from minute 5 on. *)
Theorem IsStartOfBusinessDay_spec (bh : BusinessHours) (t : Time) :
  let loc := timezone bh in
  (IsStartOfBusinessDay bh t = true <->
     enabled bh = true /\ notifyOnOpen bh = true /\ IsBusinessHours bh t = true
     /\ Time_Hour loc t = startHour bh /\ Time_Minute loc t < 5)
  /\ (enabled bh = false -> IsStartOfBusinessDay bh t = false)
  /\ (notifyOnOpen bh = false -> IsStartOfBusinessDay bh t = false)
  /\ (5 <= Time_Minute loc t -> IsStartOfBusinessDay bh t = false).
Proof.
  cbv zeta. unfold IsStartOfBusinessDay.
  destruct (enabled bh) eqn:He, (notifyOnOpen bh) eqn:Hn; simpl;
    destruct (IsBusinessHours bh t) eqn:Hb; simpl;
    rewrite ?andb_true_iff, ?Z.eqb_eq, ?Z.ltb_lt;
    repeat split; try congruence; try tauto; try lia;
    try (intros; apply andb_false_intro2; lia).
Qed.

(** ** Wait durations *)

(** C9 (what the code does at one minute): the minutes branch always uses
    the plural, as does the minutes part after [1 hour]. *)
Theorem formatDuration_one_minute :
  formatDuration (1 * Minute) = "1 minutes"
  /\ formatDuration (Hour + 1 * Minute) = "1 hour 1 minutes"
  /\ formatDuration (2 * Hour + 1 * Minute) = "2 hours 1 minutes"
  /\ formatDuration (1 * Hour) = "1 hour"
  /\ formatDuration (2 * Hour) = "2 hours".
Proof. repeat split; vm_compute; reflexivity. Qed.

(** ** Eligibility: shouldSkipTicket *)

(** C1: no record for the key: do not skip; a queued record: skip, whatever
    its age; otherwise a record sent at [t0] skips exactly while
    [now < t0 + cooldown] (so throughout [t0, t0 + cooldown) and no longer
    from [t0 + cooldown] on); a record never sent does not skip. *)
Theorem shouldSkipTicket_spec (cfg : Config) (now : Time)
    (db : gmap (Z * string) Notification) (ticket : Ticket) :
  let key := (ID ticket, NotificationType ticket) in
  (db !! key = None -> shouldSkipTicket cfg now db ticket = false)
  /\ (forall row, db !! key = Some row -> notification_status row = StatusQueued ->
        shouldSkipTicket cfg now db ticket = true)
  /\ (forall row t0, db !! key = Some row -> notification_status row <> StatusQueued ->
        sent_at row = Some t0 ->
        (shouldSkipTicket cfg now db ticket = true <-> now < t0 + CooldownPeriod cfg)
        /\ (t0 <= now < t0 + CooldownPeriod cfg -> shouldSkipTicket cfg now db ticket = true)
        /\ (t0 + CooldownPeriod cfg <= now -> shouldSkipTicket cfg now db ticket = false))
  /\ (forall row, db !! key = Some row -> notification_status row <> StatusQueued ->
        sent_at row = None -> shouldSkipTicket cfg now db ticket = false).
Proof.
  cbv zeta. unfold shouldSkipTicket, Time_Before, Time_Add.
  split; [|split; [|split]].
  - intros ->. reflexivity.
  - intros row -> ->. reflexivity.
  - intros row t0 -> Hst ->.
    apply String.eqb_neq in Hst. rewrite Hst.
    destruct (Z.ltb_spec now (t0 + CooldownPeriod cfg)); repeat split;
      intros; try lia; try congruence.
  - intros row -> Hst ->.
    apply String.eqb_neq in Hst. rewrite Hst. reflexivity.
Qed.

(** ** The conditional upsert: recordNotification *)

Lemma secondsInt_whole (d : Duration) :
  d mod Second = 0 -> secondsInt d * Second = d.
Proof.
  unfold secondsInt, Second. intros H.
  assert (Hr : Z.rem d 1000000000 = 0) by (apply Z.rem_mod_eq_0; lia).
  pose proof (Z.quot_rem' d 1000000000). lia.
Qed.

Lemma CURRENT_TIMESTAMP_bounds (now : Time) :
  CURRENT_TIMESTAMP now <= now < CURRENT_TIMESTAMP now + Second
  /\ CURRENT_TIMESTAMP now mod Second = 0.
Proof.
  unfold CURRENT_TIMESTAMP, Second.
  pose proof (Z.mod_pos_bound now 1000000000).
  split; [lia|].
  rewrite Zminus_mod_idemp_r, Z.sub_diag. reflexivity.
Qed.

(** The guard of the conflict update, in terms of instants. *)
Lemma updateGuard_spec (cfg : Config) (now : Time) (old : Notification) :
  updateGuard cfg now old = true <->
  sent_at old = None
  \/ exists s, sent_at old = Some s
       /\ 0 <= secondsInt (CooldownPeriod cfg)
       /\ s < CURRENT_TIMESTAMP now - secondsInt (CooldownPeriod cfg) * Second.
Proof.
  unfold updateGuard, datetimeNowMinus. cbv zeta.
  destruct (sent_at old) as [s|].
  - destruct (secondsInt (CooldownPeriod cfg) <? 0) eqn:E.
    + apply Z.ltb_lt in E. split; [discriminate|].
      intros [H|(s' & _ & Hn & _)]; [discriminate | lia].
    + apply Z.ltb_ge in E. rewrite Z.ltb_lt. split.
      * intros H. right. exists s. auto.
      * intros [H|(s' & [= <-] & _ & H)]; [discriminate | exact H].
  - split; auto.
Qed.

(** With a cooldown of whole seconds, a record still within its cooldown
    (as [shouldSkipTicket] measures it) is protected: the upsert changes
    nothing. *)
Lemma recordNotification_within_cooldown (cfg : Config) (now : Time) (execOk : bool)
    (db : gmap (Z * string) Notification) (ticket : Ticket) (status : string)
    (old : Notification) (s : Time) :
  CooldownPeriod cfg mod Second = 0 ->
  db !! (ID ticket, NotificationType ticket) = Some old ->
  sent_at old = Some s ->
  now < s + CooldownPeriod cfg ->
  forall db', recordNotification cfg now execOk db ticket status = Some db' -> db' = db.
Proof.
  intros Hwhole Hold Hsent Hin db'. unfold recordNotification.
  destruct (Marshal ticket) as [js|]; simpl; [|discriminate].
  destruct execOk; simpl; [|discriminate].
  rewrite Hold.
  destruct (updateGuard cfg now old) eqn:Hg; [|congruence].
  apply updateGuard_spec in Hg as [Hg|(s' & Hs' & _ & Hlt)]; [congruence|].
  rewrite secondsInt_whole in Hlt by exact Hwhole.
  pose proof (CURRENT_TIMESTAMP_bounds now). assert (s' = s) by congruence. lia.
Qed.

(** A record never sent, or sent at least one second longer ago than the
    cooldown, is replaced: status and the denormalized fields are those
    of the new observation. *)
Lemma recordNotification_after_cooldown (cfg : Config) (now : Time)
    (db : gmap (Z * string) Notification) (ticket : Ticket) (status : string)
    (old : Notification) (js : string) :
  0 <= CooldownPeriod cfg ->
  Marshal ticket = Some js ->
  db !! (ID ticket, NotificationType ticket) = Some old ->
  (sent_at old = None
   \/ exists s, sent_at old = Some s /\ s + CooldownPeriod cfg + Second <= now) ->
  recordNotification cfg now true db ticket status
  = Some (<[(ID ticket, NotificationType ticket) := updatedRow now ticket status js old]> db).
Proof.
  intros Hc Hm Hold Hage. unfold recordNotification. rewrite Hm. simpl. rewrite Hold.
  replace (updateGuard cfg now old) with true; [reflexivity|].
  symmetry. apply updateGuard_spec.
  destruct Hage as [?|(s & Hs & Hle)]; [left; assumption|].
  right. exists s. split; [assumption|].
  pose proof (CURRENT_TIMESTAMP_bounds now) as [? _].
  assert (0 <= secondsInt (CooldownPeriod cfg))
    by (unfold secondsInt, Second; apply Z.quot_pos; lia).
  assert (secondsInt (CooldownPeriod cfg) * Second <= CooldownPeriod cfg).
  { unfold secondsInt, Second in *.
    pose proof (Z.quot_rem' (CooldownPeriod cfg) 1000000000).
    pose proof (Z.rem_nonneg (CooldownPeriod cfg) 1000000000). lia. }
  split; [assumption|]. lia.
Qed.

(** ** The start-of-day flush *)

Section Flush.
Variable cfg : Config.
Variable env : Env.

Lemma itemOk_false_sent i item st :
  itemOk cfg env i item = false ->
  fs_sent (flushItem cfg env i item st) = fs_sent st
  /\ notifications (fs_world (flushItem cfg env i item st)) = notifications (fs_world st)
  /\ sleeps (fs_world (flushItem cfg env i item st)) = sleeps (fs_world st)
  /\ clock (fs_world (flushItem cfg env i item st)) = clock (fs_world st).
Proof.
  unfold itemOk, flushItem. intros H.
  destruct (Unmarshal (ticket_data item.2)) as [t|] eqn:Hu; [|auto].
  rewrite bool_decide_eq_true_2 in H by eauto. simpl in H.
  destruct (DryRun cfg), (flushSendOk env i), (flushUpdateOk env i);
    simpl in *; try discriminate; auto.
Qed.

Lemma itemOk_true_step i item st :
  itemOk cfg env i item = true ->
  let st' := flushItem cfg env i item st in
  fs_sent st' = fs_sent st + 1
  /\ notifications (fs_world st')
     = alter (markSent (clock (fs_world st))) item.1 (notifications (fs_world st))
  /\ sleeps (fs_world st')
     = sleeps (fs_world st)
       ++ (if fs_sent st + 1 <? MaxNotifications cfg then [2 * Second] else []).
Proof.
  unfold itemOk, flushItem. intros H.
  apply andb_prop in H as [H Hu]. apply andb_prop in H as [Hp Hs].
  apply bool_decide_eq_true_1 in Hp as [t Ht]. rewrite Ht, Hu. simpl.
  destruct (DryRun cfg); simpl in *.
  - destruct (fs_sent st + 1 <? MaxNotifications cfg); simpl;
      rewrite ?app_nil_r; auto.
  - rewrite Hs. simpl.
    destruct (fs_sent st + 1 <? MaxNotifications cfg); simpl;
      rewrite ?app_nil_r; auto.
Qed.

(** The count returned is the number of items that went through. *)
Lemma flushLoop_sent items : forall i st,
  fs_sent (flushLoop cfg env i items st) = fs_sent st + countOk cfg env i items.
Proof.
  induction items as [|item rest IH]; intros i st; simpl; [lia|].
  rewrite IH. destruct (itemOk cfg env i item) eqn:Hok.
  - destruct (itemOk_true_step i item st Hok) as (-> & _). lia.
  - destruct (itemOk_false_sent i item st Hok) as (-> & _). lia.
Qed.

Lemma countOk_bounds items : forall i,
  0 <= countOk cfg env i items <= Z.of_nat (length items).
Proof.
  induction items as [|item rest IH]; intros i; simpl; [lia|].
  specialize (IH (S i)). destruct (itemOk cfg env i item); lia.
Qed.

Lemma pausesFor_step (s : Z) :
  0 <= s ->
  pausesFor cfg (s + 1)
  = (pausesFor cfg s + (if (s + 1 <? MaxNotifications cfg)%Z then 1 else 0))%nat.
Proof.
  intros Hs. unfold pausesFor.
  destruct (Z.ltb_spec (s + 1) (MaxNotifications cfg)); lia.
Qed.

Lemma flushLoop_sleeps items : forall i st pre,
  0 <= fs_sent st ->
  sleeps (fs_world st) = pre ++ replicate (pausesFor cfg (fs_sent st)) (2 * Second) ->
  sleeps (fs_world (flushLoop cfg env i items st))
  = pre ++ replicate (pausesFor cfg (fs_sent (flushLoop cfg env i items st))) (2 * Second).
Proof.
  induction items as [|item rest IH]; intros i st pre Hs Hinv; simpl; [exact Hinv|].
  destruct (itemOk cfg env i item) eqn:Hok.
  - destruct (itemOk_true_step i item st Hok) as (Hsent & _ & Hsl).
    apply IH; [lia|]. rewrite Hsl, Hsent, Hinv, pausesFor_step by exact Hs.
    rewrite <- app_assoc. f_equal.
    destruct (fs_sent st + 1 <? MaxNotifications cfg).
    + rewrite replicate_add. reflexivity.
    + rewrite Nat.add_0_r, app_nil_r. reflexivity.
  - destruct (itemOk_false_sent i item st Hok) as (Hsent & _ & Hsl & _).
    apply IH; [lia|]. rewrite Hsl, Hsent. exact Hinv.
Qed.

(** What the loop does to the row of a key: nothing, unless an item of
    that key goes through. *)
Lemma flushLoop_untouched (k : Z * string) items : forall i st,
  (forall j item, items !! j = Some item -> item.1 = k ->
     itemOk cfg env (i + j) item = false) ->
  notifications (fs_world (flushLoop cfg env i items st)) !! k
  = notifications (fs_world st) !! k.
Proof.
  induction items as [|item rest IH]; intros i st Hfail; simpl; [reflexivity|].
  rewrite IH.
  - destruct (itemOk cfg env i item) eqn:Hok.
    + destruct (itemOk_true_step i item st Hok) as (_ & -> & _).
      apply lookup_alter_ne. intros Heq.
      specialize (Hfail 0%nat item eq_refl Heq). rewrite Nat.add_0_r in Hfail.
      congruence.
    + destruct (itemOk_false_sent i item st Hok) as (_ & -> & _). reflexivity.
  - intros j item' Hj Hk. replace (S i + j)%nat with (i + S j)%nat by lia.
    apply (Hfail (S j)); assumption.
Qed.

Lemma flushLoop_flushed items : forall i st k,
  option_Forall2 flushed (notifications (fs_world st) !! k)
    (notifications (fs_world (flushLoop cfg env i items st)) !! k).
Proof.
  induction items as [|item rest IH]; intros i st k; simpl.
  - destruct (notifications (fs_world st) !! k); constructor. constructor.
  - specialize (IH (S i) (flushItem cfg env i item st) k).
    destruct (itemOk cfg env i item) eqn:Hok.
    + destruct (itemOk_true_step i item st Hok) as (_ & Hdb & _).
      rewrite Hdb in IH.
      destruct (decide (item.1 = k)) as [<-|Hne].
      * rewrite lookup_alter_eq in IH.
        destruct (notifications (fs_world st) !! item.1) as [row|]; simpl in IH.
        -- inversion IH as [? y Hfl|]; subst. constructor.
           clear -Hfl. remember (markSent (clock (fs_world st)) row) as m eqn:Hm.
           induction Hfl; subst.
           ++ apply flushed_step, flushed_refl.
           ++ apply flushed_step. apply IHHfl. reflexivity.
        -- exact IH.
      * rewrite lookup_alter_ne in IH by exact Hne. exact IH.
    + destruct (itemOk_false_sent i item st Hok) as (_ & Hdb & _).
      rewrite Hdb in IH. exact IH.
Qed.

Lemma flushed_frame row row' :
  flushed row row' ->
  first_eligible_at row' = first_eligible_at row
  /\ queued_at row' = queued_at row
  /\ ticket_subject row' = ticket_subject row
  /\ customer_name row' = customer_name row
  /\ assigned_user row' = assigned_user row
  /\ minutes_waiting row' = minutes_waiting row
  /\ threshold_minutes row' = threshold_minutes row
  /\ ticket_data row' = ticket_data row
  /\ (notification_status row = "sent" -> notification_status row' = "sent")
  /\ (is_Some (sent_at row) -> is_Some (sent_at row')).
Proof.
  induction 1 as [row|row row' now _ IH]; [tauto|].
  simpl. repeat split; try tauto. eauto.
Qed.

(** An item that goes through leaves its row sent, whatever happens to
    the items before and after it. *)
Lemma flushLoop_marks items : forall i st j item row,
  items !! j = Some item ->
  itemOk cfg env (i + j) item = true ->
  notifications (fs_world st) !! item.1 = Some row ->
  exists row',
    notifications (fs_world (flushLoop cfg env i items st)) !! item.1 = Some row'
    /\ notification_status row' = "sent"
    /\ is_Some (sent_at row')
    /\ first_eligible_at row' = first_eligible_at row
    /\ queued_at row' = queued_at row.
Proof.
  induction items as [|it rest IH]; intros i st j item row Hj Hok Hrow; [discriminate|].
  destruct j as [|j]; simpl in *.
  - injection Hj as ->. rewrite Nat.add_0_r in Hok.
    destruct (itemOk_true_step i item st Hok) as (_ & Hdb & _).
    pose proof (flushLoop_flushed rest (S i) (flushItem cfg env i item st) item.1) as Hfl.
    rewrite Hdb, lookup_alter_eq, Hrow in Hfl. simpl in Hfl.
    inversion Hfl as [? row' Hfl' Heq1 Heq2|]; subst.
    exists row'. split; [reflexivity|].
    apply flushed_frame in Hfl' as (Hfe & Hq & _ & _ & _ & _ & _ & _ & Hst & Hsa).
    split; [apply Hst; reflexivity|].
    split; [apply Hsa; simpl; eauto|].
    simpl in *; split; assumption.
  - replace (i + S j)%nat with (S i + j)%nat in Hok by lia.
    pose proof (flushLoop_flushed [it] i st item.1) as Hfl. simpl in Hfl.
    rewrite Hrow in Hfl. inversion Hfl as [? row1 Hfl1 Heq1 Heq2|]; subst.
    symmetry in Heq2.
    destruct (IH (S i) (flushItem cfg env i it st) j item row1 Hj Hok Heq2)
      as (row' & Hl & Hs & Hsa & Hfe & Hq).
    apply flushed_frame in Hfl1 as (Hfe1 & Hq1 & _).
    exists row'. repeat split; try assumption; congruence.
Qed.
(** The loop writes nothing to the burst log. *)
Lemma flushLoop_log items : forall i st,
  business_hours_log (fs_world (flushLoop cfg env i items st))
  = business_hours_log (fs_world st).
Proof.
  induction items as [|it rest IH]; intros i st; simpl; [reflexivity|].
  rewrite IH. unfold flushItem.
  destruct (Unmarshal _); [|reflexivity].
  destruct (negb (DryRun cfg) && negb (flushSendOk env i)); [reflexivity|].
  destruct (DryRun cfg), (flushUpdateOk env i); simpl; try reflexivity;
    destruct (_ <? MaxNotifications cfg); reflexivity.
Qed.
End Flush.

(** *** The drained batch *)

Lemma limitRows_sublist {A} (n : Z) (l : list A) : limitRows n l `sublist_of` l.
Proof. unfold limitRows. destruct (n <? 0); [reflexivity | apply sublist_take]. Qed.


Lemma elem_of_queuedOrdered (db : gmap (Z * string) Notification)
    (k : Z * string) (row : Notification) :
  (k, row) ∈ queuedOrdered db <-> db !! k = Some row /\ notification_status row = "queued".
Proof.
  unfold queuedOrdered. rewrite merge_sort_Permutation, list_elem_of_filter,
    elem_of_map_to_list. unfold isQueued. simpl. tauto.
Qed.

Lemma elem_of_drainQueued (cfg : Config) (db : gmap (Z * string) Notification)
    (k : Z * string) (row : Notification) :
  (k, row) ∈ drainQueued cfg db ->
  db !! k = Some row /\ notification_status row = "queued".
Proof.
  intros H. apply elem_of_queuedOrdered.
  eapply sublist_subseteq; [apply limitRows_sublist | exact H].
Qed.

Lemma NoDup_drainQueued (cfg : Config) (db : gmap (Z * string) Notification) :
  NoDup (drainQueued cfg db).*1.
Proof.
  unfold drainQueued, queuedOrdered.
  eapply sublist_NoDup; [|apply fmap_sublist, limitRows_sublist].
  rewrite merge_sort_Permutation.
  eapply sublist_NoDup; [|apply fmap_sublist, sublist_filter].
  apply NoDup_fst_map_to_list.
Qed.

(** Without a limit in the way, the batch is every queued row. *)
Lemma drainQueued_all (cfg : Config) (db : gmap (Z * string) Notification)
    (k : Z * string) (row : Notification) :
  MaxNotifications cfg < 0 \/ Z.of_nat (length (queuedOrdered db)) <= MaxNotifications cfg ->
  db !! k = Some row -> notification_status row = "queued" ->
  (k, row) ∈ drainQueued cfg db.
Proof.
  intros Hmax Hk Hq. unfold drainQueued, limitRows.
  destruct (Z.ltb_spec (MaxNotifications cfg) 0).
  - apply elem_of_queuedOrdered. auto.
  - rewrite take_ge by lia. apply elem_of_queuedOrdered. auto.
Qed.

Lemma countOk_item_false cfg env items : forall i j item,
  items !! j = Some item -> itemOk cfg env (i + j) item = false ->
  countOk cfg env i items <= Z.of_nat (length items) - 1.
Proof.
  induction items as [|it rest IH]; intros i j item Hj Hok; [discriminate|].
  destruct j as [|j]; simpl in *.
  - injection Hj as ->. rewrite Nat.add_0_r in Hok. rewrite Hok.
    pose proof (countOk_bounds cfg env rest (S i)). lia.
  - replace (i + S j)%nat with (S i + j)%nat in Hok by lia.
    specialize (IH (S i) j item Hj Hok).
    destruct (itemOk cfg env i it); lia.
Qed.

(** In a drained batch, the item of a key is at one position only. *)
Lemma drainQueued_key_position (cfg : Config) (db : gmap (Z * string) Notification)
    (i j : nat) (item item' : Key * Notification) :
  drainQueued cfg db !! i = Some item ->
  drainQueued cfg db !! j = Some item' ->
  item'.1 = item.1 -> j = i.
Proof.
  intros Hi Hj Heq.
  eapply NoDup_lookup; [apply (NoDup_drainQueued cfg db)| |].
  - rewrite list_lookup_fmap, Hj. simpl. rewrite Heq. reflexivity.
  - rewrite list_lookup_fmap, Hi. reflexivity.
Qed.

(** The world after the loop of [sendQueuedNotifications]. *)
Lemma sendQueuedNotifications_ok cfg env w :
  drainQueryOk env = true ->
  let st := flushLoop cfg env 0 (drainQueued cfg (notifications w))
              {| fs_world := w; fs_sent := 0 |} in
  (sendQueuedNotifications cfg env w).2 = Some (fs_sent st)
  /\ notifications (sendQueuedNotifications cfg env w).1 = notifications (fs_world st)
  /\ sleeps (sendQueuedNotifications cfg env w).1 = sleeps (fs_world st).
Proof.
  intros Hq. unfold sendQueuedNotifications. rewrite Hq. simpl.
  destruct ((0 <? _) && burstLogOk env); simpl; auto.
Qed.

(** A failing item leaves its row as it was. *)
Lemma flush_failed_item_row cfg env w i item :
  drainQueryOk env = true ->
  drainQueued cfg (notifications w) !! i = Some item ->
  itemOk cfg env i item = false ->
  notifications (sendQueuedNotifications cfg env w).1 !! item.1 = Some item.2.
Proof.
  intros Hq Hi Hok.
  destruct (sendQueuedNotifications_ok cfg env w Hq) as (_ & -> & _).
  rewrite flushLoop_untouched.
  - simpl. apply (elem_of_drainQueued cfg). destruct item as [k row]; simpl.
    apply list_elem_of_lookup. eauto.
  - intros j item' Hj Hk. simpl.
    assert (j = i) as -> by (eapply drainQueued_key_position; eauto).
    congruence.
Qed.

(** *** Per-item failures of the flush *)

(** C5 (as the code has it): when the drain query succeeds, the flush
    returns no error whatever happens to single items, so the error counter
    of the run is left as it was and the sent counter grows by the number of
    items that went through; an item that fails (its ticket does not parse,
    its send fails, or its update fails) does not stop the batch: every item
    that goes through is left sent, before or after a failing one, and a
    failing item keeps its row. *)
Theorem flush_item_failures (cfg : Config) (bh : BusinessHours) (env : Env)
    (w : World) (stats : RunStats) :
  drainQueryOk env = true ->
  let batch := drainQueued cfg (notifications w) in
  let w' := (sendQueuedNotifications cfg env w).1 in
  (sendQueuedNotifications cfg env w).2 = Some (countOk cfg env 0 batch)
  /\ (IsStartOfBusinessDay bh (clock w) = true ->
      Errors (runFlush cfg bh env w stats).2 = Errors stats
      /\ NotificationsSent (runFlush cfg bh env w stats).2
         = NotificationsSent stats + countOk cfg env 0 batch)
  /\ (forall i item, batch !! i = Some item -> itemOk cfg env i item = true ->
        exists row', notifications w' !! item.1 = Some row'
                     /\ notification_status row' = "sent")
  /\ (forall i item, batch !! i = Some item -> itemOk cfg env i item = false ->
        notifications w' !! item.1 = Some item.2).
Proof.
  intros Hq batch w'.
  destruct (sendQueuedNotifications_ok cfg env w Hq) as (Hr & Hdb & _).
  rewrite flushLoop_sent in Hr. simpl in Hr.
  split; [exact Hr|]. split; [|split].
  - intros Hstart. unfold runFlush. rewrite Hstart.
    destruct (sendQueuedNotifications cfg env w) as [w1 r]. simpl in Hr. subst r.
    simpl. auto.
  - intros i item Hi Hok. subst w'. rewrite Hdb.
    assert (Hrow : notifications w !! item.1 = Some item.2).
    { apply (elem_of_drainQueued cfg). destruct item; simpl.
      apply list_elem_of_lookup. eauto. }
    destruct (flushLoop_marks cfg env batch 0 {| fs_world := w; fs_sent := 0 |}
                i item item.2 Hi Hok Hrow) as (row' & Hl & Hs & _).
    eauto.
  - intros i item Hi Hok. apply (flush_failed_item_row cfg env w i item); assumption.
Qed.

(** C5, at a concrete run: the webhook refuses the one queued message. *)
Lemma flush_item_failures_witness :
  drainQueryOk sendFailsEnv = true
  /\ (let batch := drainQueued sampleConfig (notifications mondayWorld) in
      let w' := (sendQueuedNotifications sampleConfig sendFailsEnv mondayWorld).1 in
      (sendQueuedNotifications sampleConfig sendFailsEnv mondayWorld).2
      = Some (countOk sampleConfig sendFailsEnv 0 batch)
      /\ (IsStartOfBusinessDay sampleHours (clock mondayWorld) = true ->
          Errors (runFlush sampleConfig sampleHours sendFailsEnv mondayWorld zeroStats).2
          = Errors zeroStats
          /\ NotificationsSent
               (runFlush sampleConfig sampleHours sendFailsEnv mondayWorld zeroStats).2
             = NotificationsSent zeroStats + countOk sampleConfig sendFailsEnv 0 batch)
      /\ (forall i item, batch !! i = Some item ->
            itemOk sampleConfig sendFailsEnv i item = true ->
            exists row', notifications w' !! item.1 = Some row'
                         /\ notification_status row' = "sent")
      /\ (forall i item, batch !! i = Some item ->
            itemOk sampleConfig sendFailsEnv i item = false ->
            notifications w' !! item.1 = Some item.2)).
Proof.
  split; [reflexivity|].
  apply (flush_item_failures sampleConfig sampleHours sendFailsEnv mondayWorld zeroStats).
  reflexivity.
Defined.

(** C5, the claim as stated fails: a run at the start of the business day
    drains one queued notification, its send fails, and the run ends with an
    error counter of zero (and no error returned). *)
Lemma flush_send_failure_not_counted :
  IsStartOfBusinessDay sampleHours (clock mondayWorld) = true
  /\ DryRun sampleConfig = false
  /\ length (drainQueued sampleConfig (notifications mondayWorld)) = 1%nat
  /\ flushSendOk sendFailsEnv 0 = false
  /\ Errors (Run sampleConfig sampleHours sendFailsEnv mondayWorld).1.2 = 0
  /\ (Run sampleConfig sampleHours sendFailsEnv mondayWorld).2 = false.
Proof. vm_compute. repeat split; reflexivity. Qed.

(** *** The rate-limit pauses *)



(** *** A send that fails *)

(** C10 (as the code has it): when the send of a drained item fails in a
    flush that is not a dry run, the row of the item is afterwards exactly
    what it was (status queued, the same [queued_at], the same [sent_at]:
    null if the record was never sent, the time of the earlier send if it
    was queued again after a cooldown);
    the item is not among those counted in the returned total, which is also
    the count written to the burst log; and the row still satisfies the
    drain query, so a later flush finds it (it is in that batch whenever the
    limit does not cut it off). *)
Theorem flush_send_failure_keeps_queued (cfg : Config) (env : Env) (w : World)
    (i : nat) (k : Z * string) (row : Notification) :
  DryRun cfg = false ->
  drainQueryOk env = true ->
  drainQueued cfg (notifications w) !! i = Some (k, row) ->
  flushSendOk env i = false ->
  let batch := drainQueued cfg (notifications w) in
  let w' := (sendQueuedNotifications cfg env w).1 in
  let sent := countOk cfg env 0 batch in
  notifications w' !! k = Some row
  /\ notification_status row = "queued"
  /\ (sendQueuedNotifications cfg env w).2 = Some sent
  /\ itemOk cfg env i (k, row) = false
  /\ sent <= Z.of_nat (length batch) - 1
  /\ (forall e, e ∈ business_hours_log w' -> e ∈ business_hours_log w \/ notifications_sent e = sent)
  /\ (k, row) ∈ queuedOrdered (notifications w')
  /\ (forall cfg', MaxNotifications cfg' < 0
                   \/ Z.of_nat (length (queuedOrdered (notifications w'))) <= MaxNotifications cfg' ->
        (k, row) ∈ drainQueued cfg' (notifications w')).
Proof.
  intros Hdry Hq Hi Hsend batch w' sent.
  assert (Hok : itemOk cfg env i (k, row) = false).
  { unfold itemOk. rewrite Hdry, Hsend. simpl. rewrite andb_false_r. reflexivity. }
  assert (Hrow : notifications w' !! k = Some row)
    by (apply (flush_failed_item_row cfg env w i (k, row)); assumption).
  assert (Hst : notification_status row = "queued").
  { apply (elem_of_drainQueued cfg (notifications w) k row).
    apply list_elem_of_lookup. eauto. }
  destruct (sendQueuedNotifications_ok cfg env w Hq) as (Hr & _ & _).
  rewrite flushLoop_sent in Hr. simpl in Hr.
  repeat split; try assumption.
  - eapply (countOk_item_false cfg env batch 0 i); eauto.
  - intros e. subst w'. unfold sendQueuedNotifications. rewrite Hq.
    cbv zeta. rewrite flushLoop_sent. simpl fs_sent. rewrite Z.add_0_l.
    fold batch. fold sent.
    destruct ((0 <? sent) && burstLogOk env); simpl; rewrite flushLoop_log; simpl.
    + rewrite elem_of_app, list_elem_of_singleton. intros [? | ->]; auto.
    + auto.
  - apply elem_of_queuedOrdered. auto.
  - intros cfg' Hmax. apply drainQueued_all; assumption.
Qed.

(** C10, at a concrete flush: the webhook refuses the one queued message. *)
Lemma flush_send_failure_keeps_queued_witness :
  let row := default (insertedRow sampleConfig 0 sampleTicket "" "")
               (queuedStore !! sampleKey) in
  DryRun sampleConfig = false
  /\ drainQueryOk sendFailsEnv = true
  /\ drainQueued sampleConfig (notifications mondayWorld) !! 0%nat = Some (sampleKey, row)
  /\ flushSendOk sendFailsEnv 0 = false
  /\ (let batch := drainQueued sampleConfig (notifications mondayWorld) in
      let w' := (sendQueuedNotifications sampleConfig sendFailsEnv mondayWorld).1 in
      let sent := countOk sampleConfig sendFailsEnv 0 batch in
      notifications w' !! sampleKey = Some row
      /\ notification_status row = "queued"
      /\ (sendQueuedNotifications sampleConfig sendFailsEnv mondayWorld).2 = Some sent
      /\ itemOk sampleConfig sendFailsEnv 0 (sampleKey, row) = false
      /\ sent <= Z.of_nat (length batch) - 1
      /\ (forall e, e ∈ business_hours_log w' ->
            e ∈ business_hours_log mondayWorld \/ notifications_sent e = sent)
      /\ (sampleKey, row) ∈ queuedOrdered (notifications w')
      /\ (forall cfg', MaxNotifications cfg' < 0
                       \/ Z.of_nat (length (queuedOrdered (notifications w')))
                          <= MaxNotifications cfg' ->
            (sampleKey, row) ∈ drainQueued cfg' (notifications w'))).
Proof.
  intros row.
  assert (H0 : drainQueued sampleConfig (notifications mondayWorld) !! 0%nat
               = Some (sampleKey, row)) by (vm_compute; reflexivity).
  split; [reflexivity|]. split; [reflexivity|]. split; [exact H0|].
  split; [reflexivity|].
  apply (flush_send_failure_keeps_queued sampleConfig sendFailsEnv mondayWorld 0
           sampleKey row eq_refl eq_refl H0 eq_refl).
Defined.

Lemma recordNotification_sample_sent (t : Time) :
  recordNotification sampleConfig t true ∅ sampleTicket StatusSent = Some (sentStore t).
Proof.
  assert (Hm : Marshal sampleTicket = Some sampleJSON) by (vm_compute; reflexivity).
  unfold recordNotification. rewrite Hm. simpl.
  change (ID sampleTicket, NotificationType sampleTicket) with sampleKey.
  rewrite lookup_empty. unfold sentStore, sentRow. rewrite insert_empty. reflexivity.
Qed.

(** C10, the claim as stated fails: the sample ticket is notified on Monday
    at ten, and seen again on Thursday night, outside business hours and
    long after its cooldown, so that it is queued; the conflict update keeps
    the [sent_at] of Monday.  On Friday at nine the flush drains the row and
    the webhook refuses the message: the record is still queued, and its
    [sent_at] is not null. *)
Lemma flush_send_failure_sent_at_kept :
  recordNotification sampleConfig mondayTen true ∅ sampleTicket StatusSent
  = Some (sentStore mondayTen)
  /\ IsBusinessHours sampleHours thursdayNight = false
  /\ shouldSkipTicket sampleConfig thursdayNight (sentStore mondayTen) sampleTicket = false
  /\ recordNotification sampleConfig thursdayNight true (sentStore mondayTen)
       sampleTicket StatusQueued = Some requeuedStore
  /\ IsStartOfBusinessDay sampleHours (clock fridayWorld) = true
  /\ DryRun sampleConfig = false
  /\ drainQueued sampleConfig (notifications fridayWorld) !! 0%nat
     = Some (sampleKey, requeuedRow)
  /\ flushSendOk sendFailsEnv 0 = false
  /\ notifications (sendQueuedNotifications sampleConfig sendFailsEnv fridayWorld).1
       !! sampleKey = Some requeuedRow
  /\ notification_status requeuedRow = "queued"
  /\ queued_at requeuedRow = Some thursdayNight
  /\ sent_at requeuedRow = Some mondayTen.
Proof.
  assert (Hm : Marshal sampleTicket = Some sampleJSON) by (vm_compute; reflexivity).
  assert (Hl : forall t, sentStore t !! sampleKey = Some (sentRow t))
    by (intros t; apply lookup_singleton_eq).
  assert (Hd : drainQueued sampleConfig (notifications fridayWorld) !! 0%nat
               = Some (sampleKey, requeuedRow)) by (vm_compute; reflexivity).
  split; [apply recordNotification_sample_sent|].
  split; [vm_compute; reflexivity|].
  split.
  { unfold shouldSkipTicket.
    change (ID sampleTicket, NotificationType sampleTicket) with sampleKey.
    rewrite Hl. vm_compute. reflexivity. }
  split.
  { unfold recordNotification. rewrite Hm. simpl.
    change (ID sampleTicket, NotificationType sampleTicket) with sampleKey.
    rewrite Hl.
    replace (updateGuard sampleConfig thursdayNight (sentRow mondayTen)) with true
      by (vm_compute; reflexivity).
    unfold requeuedStore, requeuedRow, sentStore. rewrite insert_singleton_eq.
    reflexivity. }
  split; [vm_compute; reflexivity|]. split; [reflexivity|].
  split; [exact Hd|]. split; [reflexivity|].
  split.
  { apply (flush_failed_item_row sampleConfig sendFailsEnv fridayWorld 0
             (sampleKey, requeuedRow)); [reflexivity|exact Hd|].
    unfold itemOk. cbn [DryRun sampleConfig flushSendOk sendFailsEnv orb].
    rewrite andb_false_r. reflexivity. }
  split; [reflexivity|]. split; [vm_compute; reflexivity|]. reflexivity.
Qed.

(** ** Timestamps of a record *)

(** C8: the first-eligible timestamp is set when the row is inserted and no
    conflict update and no flush changes it afterwards; a conflict update
    that records [queued] stamps [queued_at] and leaves [sent_at] as it was,
    one that records [sent] stamps [sent_at] and leaves [queued_at] as it
    was (an update dropped by the guard leaves both); rows of other keys are
    not touched; and the flush, which marks rows sent, leaves
    [first_eligible_at] and [queued_at] of every row as they were. *)
Theorem timestamps_frame :
  (forall (cfg : Config) (now : Time) (execOk : bool)
          (db db' : gmap (Z * string) Notification) (ticket : Ticket) (status : string),
      recordNotification cfg now execOk db ticket status = Some db' ->
      let key := (ID ticket, NotificationType ticket) in
      (db !! key = None ->
         exists new, db' !! key = Some new
                     /\ first_eligible_at new = Some (CURRENT_TIMESTAMP now))
      /\ (forall old, db !! key = Some old ->
            exists new, db' !! key = Some new
              /\ first_eligible_at new = first_eligible_at old
              /\ (status = StatusQueued ->
                    sent_at new = sent_at old
                    /\ (updateGuard cfg now old = true ->
                          queued_at new = Some (CURRENT_TIMESTAMP now)))
              /\ (status = StatusSent ->
                    queued_at new = queued_at old
                    /\ (updateGuard cfg now old = true ->
                          sent_at new = Some (CURRENT_TIMESTAMP now))))
      /\ (forall k, k <> key -> db' !! k = db !! k))
  /\ (forall (cfg : Config) (env : Env) (w : World) (k : Z * string) (row : Notification),
        notifications w !! k = Some row ->
        exists row', notifications (sendQueuedNotifications cfg env w).1 !! k = Some row'
                     /\ first_eligible_at row' = first_eligible_at row
                     /\ queued_at row' = queued_at row).
Proof.
  split.
  - intros cfg now execOk db db' ticket status Hrec. cbv zeta.
    unfold recordNotification in Hrec.
    destruct (Marshal ticket) as [js|]; simpl in Hrec; [|discriminate].
    destruct execOk; simpl in Hrec; [|discriminate].
    set (key := (ID ticket, NotificationType ticket)) in *.
    destruct (db !! key) as [old|] eqn:Hold.
    + destruct (updateGuard cfg now old) eqn:Hg; injection Hrec as Hrec; subst db'.
      * split; [discriminate|]. split.
        -- intros old' [= <-]. exists (updatedRow now ticket status js old).
           rewrite lookup_insert_eq. split; [reflexivity|]. split; [reflexivity|].
           split; intros ->; simpl; auto.
        -- intros k Hk. apply lookup_insert_ne. congruence.
      * split; [discriminate|]. split.
        -- intros old' [= <-]. exists old. rewrite Hold.
           repeat split; auto; intros; congruence.
        -- reflexivity.
    + injection Hrec as Hrec; subst db'. split; [|split].
      * intros _. eexists. rewrite lookup_insert_eq. split; reflexivity.
      * discriminate.
      * intros k Hk. apply lookup_insert_ne. congruence.
  - intros cfg env w k row Hrow.
    destruct (drainQueryOk env) eqn:Hq.
    + destruct (sendQueuedNotifications_ok cfg env w Hq) as (_ & -> & _).
      pose proof (flushLoop_flushed cfg env (drainQueued cfg (notifications w)) 0
                    {| fs_world := w; fs_sent := 0 |} k) as Hfl.
      simpl in Hfl. rewrite Hrow in Hfl.
      inversion Hfl as [? row' Hfl' Heq1 Heq2|]; subst.
      exists row'. apply flushed_frame in Hfl' as (? & ? & _). auto.
    + unfold sendQueuedNotifications. rewrite Hq. simpl. eauto.
Qed.

(** ** The guard of the upsert at the end of the cooldown *)

(** C2 (what the code does once the cooldown is over): a record sent at a
    whole second [t0], a cooldown of four hours, and an evaluation half a
    second after [t0 + 4h].  [shouldSkipTicket] finds the cooldown over, so
    the pass notifies again and records the decision; the guard of the
    upsert, which compares to the second and strictly, drops that update:
    the store is what it was.  One second later the update goes through. *)
Theorem recordNotification_cooldown_boundary :
  let t0 := 1705300000 * Second in
  let now := t0 + 4 * Hour + 500000000 in
  let before := sentStore t0 in
  CooldownPeriod sampleConfig = 4 * Hour
  /\ recordNotification sampleConfig t0 true ∅ sampleTicket StatusSent = Some before
  /\ (exists row, before !! sampleKey = Some row /\ sent_at row = Some t0)
  /\ shouldSkipTicket sampleConfig now before sampleTicket = false
  /\ recordNotification sampleConfig now true before sampleTicket StatusSent = Some before
  /\ shouldSkipTicket sampleConfig (t0 + 4 * Hour) before sampleTicket = false
  /\ recordNotification sampleConfig (t0 + 4 * Hour) true before sampleTicket StatusSent
     = Some before
  /\ (exists db' row', recordNotification sampleConfig (now + Second) true before
                         sampleTicket StatusSent = Some db'
                       /\ db' !! sampleKey = Some row'
                       /\ sent_at row' = Some (t0 + 4 * Hour + Second)).
Proof.
  cbv zeta.
  assert (Hm : Marshal sampleTicket = Some sampleJSON) by (vm_compute; reflexivity).
  assert (Hl : forall t, sentStore t !! sampleKey = Some (sentRow t))
    by (intros t; apply lookup_singleton_eq).
  assert (Hrec : forall now t,
            recordNotification sampleConfig now true (sentStore t) sampleTicket StatusSent
            = if updateGuard sampleConfig now (sentRow t)
              then Some (<[sampleKey := updatedRow now sampleTicket StatusSent sampleJSON
                                          (sentRow t)]> (sentStore t))
              else Some (sentStore t)).
  { intros now t. unfold recordNotification. rewrite Hm. simpl.
    change (ID sampleTicket, NotificationType sampleTicket) with sampleKey.
    rewrite Hl. reflexivity. }
  assert (Hskip : forall now t,
            shouldSkipTicket sampleConfig now (sentStore t) sampleTicket
            = (now <? t + 4 * Hour)).
  { intros now t. unfold shouldSkipTicket.
    change (ID sampleTicket, NotificationType sampleTicket) with sampleKey.
    rewrite Hl. simpl. unfold Time_Before, Time_Add. simpl.
    destruct (now <? _); reflexivity. }
  split; [reflexivity|]. split.
  { unfold recordNotification. rewrite Hm. simpl.
    change (ID sampleTicket, NotificationType sampleTicket) with sampleKey.
    rewrite lookup_empty. unfold sentStore, sentRow.
    rewrite insert_empty. reflexivity. }
  split; [eexists; split; [apply Hl | reflexivity]|].
  rewrite !Hskip, !Hrec.
  split; [vm_compute; reflexivity|]. split; [reflexivity|].
  split; [vm_compute; reflexivity|]. split; [reflexivity|].
  eexists. eexists. split; [reflexivity|].
  split; [apply lookup_insert_eq|]. vm_compute. reflexivity.
Qed.

(** ** The ticket snapshot through JSON *)

(** *** Decimal numbers *)

Lemma code_byte_of (n : Z) : 0 <= n < 256 -> code (byte_of n) = n.
Proof.
  intros H. unfold code, byte_of. rewrite N_ascii_embedding; [lia|].
  change 256%N with (Z.to_N 256). lia.
Qed.

Lemma byte_of_code (c : ascii) : byte_of (code c) = c.
Proof. unfold code, byte_of. rewrite N2Z.id. apply ascii_N_embedding. Qed.

Lemma code_range (c : ascii) : 0 <= code c < 256.
Proof.
  unfold code. pose proof (N_ascii_bounded c). lia.
Qed.

Lemma isDigit_digitChar (d : Z) : 0 <= d <= 9 -> isDigit (digitChar d) = true.
Proof.
  intros H. unfold isDigit, digitChar. rewrite code_byte_of by lia.
  apply andb_true_intro. split; lia.
Qed.

Lemma digitVal_digitChar (d : Z) : 0 <= d <= 9 -> digitVal (digitChar d) = d.
Proof.
  intros H. unfold digitVal, digitChar. rewrite code_byte_of by lia. lia.
Qed.

Lemma append_cons (c : ascii) (a b : string) : String c a +:+ b = String c (a +:+ b).
Proof. reflexivity. Qed.

Lemma append_nil_l (b : string) : "" +:+ b = b.
Proof. reflexivity. Qed.

Ltac norm_app := repeat (rewrite append_cons || rewrite append_nil_l).

Lemma append_nil_r (s : string) : s +:+ "" = s.
Proof.
  induction s as [|c s IH]; [reflexivity|]. rewrite append_cons, IH. reflexivity.
Qed.

Lemma append_assoc (a b c : string) : (a +:+ b) +:+ c = a +:+ (b +:+ c).
Proof.
  induction a as [|x a IH]; [reflexivity|]. rewrite !append_cons, IH. reflexivity.
Qed.

Lemma length_append (a b : string) :
  String.length (a +:+ b) = (String.length a + String.length b)%nat.
Proof.
  induction a as [|x a IH]; [reflexivity|]. rewrite append_cons. simpl.
  rewrite IH. reflexivity.
Qed.

Lemma utoa_go_acc (f : nat) : forall n acc,
  utoa_go f n acc = utoa_go f n "" +:+ acc.
Proof.
  induction f as [|f IH]; intros n acc; simpl; [reflexivity|].
  destruct (n <? 10); [reflexivity|].
  rewrite (IH (n / 10) (String (digitChar (n mod 10)) acc)).
  rewrite (IH (n / 10) (String (digitChar (n mod 10)) "")).
  rewrite append_assoc. reflexivity.
Qed.

Lemma utoa_go_step (f : nat) (n : Z) :
  utoa_go (S f) n ""
  = if n <? 10 then String (digitChar (n mod 10)) ""
    else utoa_go f (n / 10) "" +:+ String (digitChar (n mod 10)) "".
Proof. simpl. destruct (n <? 10); [reflexivity | apply utoa_go_acc]. Qed.

Lemma allb_append p (a b : string) : allb p (a +:+ b) = allb p a && allb p b.
Proof.
  induction a as [|x a IH]; [reflexivity|]. rewrite append_cons. simpl.
  rewrite IH, andb_assoc. reflexivity.
Qed.

Lemma allb_impl (p q : ascii -> bool) (s : string) :
  (forall c, p c = true -> q c = true) -> allb p s = true -> allb q s = true.
Proof.
  intros Hpq. induction s as [|c s IH]; simpl; [reflexivity|].
  intros H. apply andb_prop in H as [H1 H2].
  rewrite (Hpq c H1), (IH H2). reflexivity.
Qed.

Lemma utoa_go_digits (f : nat) : forall n, 0 <= n -> allb isDigit (utoa_go f n "") = true.
Proof.
  induction f as [|f IH]; intros n Hn; [reflexivity|].
  rewrite utoa_go_step.
  assert (Hd : isDigit (digitChar (n mod 10)) = true)
    by (apply isDigit_digitChar; pose proof (Z.mod_pos_bound n 10); lia).
  destruct (n <? 10); simpl.
  - rewrite Hd. reflexivity.
  - rewrite allb_append, IH by (apply Z.div_pos; lia). simpl. rewrite Hd. reflexivity.
Qed.

Lemma parseDigits_decVal (s : string) : forall acc,
  allb isDigit s = true ->
  parseDigits s acc = Some (acc * 10 ^ Z.of_nat (String.length s) + decVal s).
Proof.
  induction s as [|c s IH]; intros acc H; simpl in *.
  - f_equal. lia.
  - apply andb_prop in H as [Hc Hs]. rewrite Hc, IH by exact Hs. f_equal.
    rewrite Nat2Z.inj_succ, Z.pow_succ_r by lia. ring.
Qed.

Lemma decVal_snoc (s : string) (c : ascii) :
  decVal (s +:+ String c "") = decVal s * 10 + digitVal c.
Proof.
  induction s as [|x s IH]; [rewrite append_nil_l; simpl; lia|].
  rewrite append_cons. simpl. rewrite IH, length_append. simpl.
  rewrite Nat.add_1_r, Nat2Z.inj_succ, Z.pow_succ_r by lia. ring.
Qed.

Lemma utoa_go_value (f : nat) : forall n,
  0 <= n < 2 ^ Z.of_nat f -> decVal (utoa_go f n "") = n.
Proof.
  induction f as [|f IH]; intros n Hn.
  - simpl in *. lia.
  - rewrite utoa_go_step.
    pose proof (Z.mod_pos_bound n 10 ltac:(lia)) as Hm.
    destruct (Z.ltb_spec n 10).
    + simpl. rewrite digitVal_digitChar by lia. rewrite Z.mod_small by lia. lia.
    + rewrite decVal_snoc, digitVal_digitChar by lia.
      rewrite IH.
      * pose proof (Z.div_mod n 10). lia.
      * rewrite Nat2Z.inj_succ, Z.pow_succ_r in Hn by lia.
        split; [apply Z.div_pos; lia|].
        apply Z.div_lt_upper_bound; lia.
Qed.

Lemma utoa_fuel (n : Z) : 0 <= n -> n < 2 ^ Z.of_nat (S (Z.to_nat (Z.log2 n))).
Proof.
  intros Hn. rewrite Nat2Z.inj_succ, Z2Nat.id by apply Z.log2_nonneg.
  destruct (Z.eq_dec n 0) as [->|Hz]; [reflexivity|].
  apply Z.log2_spec. lia.
Qed.

Lemma utoa_digits (n : Z) : 0 <= n -> allb isDigit (utoa n) = true.
Proof. intros. apply utoa_go_digits. assumption. Qed.

Lemma utoa_value (n : Z) : 0 <= n -> decVal (utoa n) = n.
Proof.
  intros Hn. apply utoa_go_value. split; [assumption | apply utoa_fuel; assumption].
Qed.

(** The first digit of a positive number is not a zero. *)
Lemma utoa_go_head (f : nat) : forall n,
  1 <= n < 2 ^ Z.of_nat f ->
  exists d r, 1 <= d <= 9 /\ utoa_go f n "" = String (digitChar d) r.
Proof.
  induction f as [|f IH]; intros n Hn.
  - simpl in Hn. lia.
  - rewrite utoa_go_step. destruct (Z.ltb_spec n 10).
    + exists n, "". rewrite Z.mod_small by lia. split; [lia | reflexivity].
    + destruct (IH (n / 10)) as (d & r & Hd & Heq).
      * rewrite Nat2Z.inj_succ, Z.pow_succ_r in Hn by lia.
        split; [apply Z.div_le_lower_bound; lia|].
        apply Z.div_lt_upper_bound; lia.
      * rewrite Heq, append_cons. eauto.
Qed.

Lemma utoa_head (n : Z) :
  1 <= n -> exists d r, 1 <= d <= 9 /\ utoa n = String (digitChar d) r.
Proof.
  intros Hn. apply utoa_go_head. split; [assumption | apply utoa_fuel; lia].
Qed.

Lemma utoa_zero : utoa 0 = "0".
Proof. reflexivity. Qed.

Lemma spanDigits_append (s rest : string) :
  allb isDigit s = true ->
  match rest with String c _ => isDigit c = false | "" => True end ->
  spanDigits (s +:+ rest) = (s, rest).
Proof.
  intros Hs Hr. induction s as [|c s IH].
  - rewrite append_nil_l. destruct rest as [|c r]; [reflexivity|].
    simpl. rewrite Hr. reflexivity.
  - rewrite append_cons. simpl in *.
    apply andb_prop in Hs as [Hc Hs]. rewrite Hc, IH by exact Hs. reflexivity.
Qed.

Lemma startsDelim_not_digit (rest : string) :
  startsDelim rest = true ->
  match rest with String c _ => isDigit c = false | "" => True end.
Proof.
  destruct rest as [|c r]; [trivial|]. unfold startsDelim, isDigit. intros H.
  apply orb_prop in H as [H|H]; apply Z.eqb_eq in H; rewrite H; reflexivity.
Qed.

Lemma scanTail_delim (rest : string) :
  startsDelim rest = true ->
  scanFraction rest = Some ("", rest) /\ scanExponent rest = Some ("", rest).
Proof.
  destruct rest as [|c r]; [discriminate|]. unfold startsDelim. intros H.
  unfold scanFraction, scanExponent.
  apply orb_prop in H as [H|H]; apply Z.eqb_eq in H; rewrite H; simpl; auto.
Qed.

Lemma splitSign_digit (c : ascii) (r : string) :
  isDigit c = true -> splitSign (String c r) = (false, String c r).
Proof.
  unfold isDigit, splitSign. intros H. apply andb_prop in H as [H1 H2].
  destruct (Z.eqb_spec (code c) 45); [lia | reflexivity].
Qed.

Lemma utoa_cons (n : Z) :
  0 <= n -> exists c r, utoa n = String c r /\ isDigit c = true
                        /\ (1 <= n -> code c <> 48).
Proof.
  intros Hn. destruct (Z.eq_dec n 0) as [->|Hz].
  - exists "0"%char, "". split; [reflexivity|]. split; [reflexivity | lia].
  - destruct (utoa_head n ltac:(lia)) as (d & r & Hd & Heq).
    exists (digitChar d), r. split; [exact Heq|].
    split; [apply isDigit_digitChar; lia|].
    intros _. unfold digitChar. rewrite code_byte_of by lia. lia.
Qed.

Lemma scanNumber_utoa (neg : bool) (n : Z) (rest : string) :
  0 <= n -> startsDelim rest = true ->
  scanNumber ((if neg then "-" else "") +:+ utoa n +:+ rest)
  = Some ((if neg then "-" else "") +:+ utoa n, rest).
Proof.
  intros Hn Hr.
  destruct (scanTail_delim rest Hr) as (Hfrac & Hexp).
  pose proof (spanDigits_append (utoa n) rest (utoa_digits n Hn)
                (startsDelim_not_digit rest Hr)) as Hspan.
  destruct (utoa_cons n Hn) as (c & r & Heq & Hdig & Hnz).
  assert (Hsplit : splitSign ((if neg then "-" else "") +:+ utoa n +:+ rest)
                   = (neg, utoa n +:+ rest)).
  { destruct neg; [reflexivity|]. rewrite append_nil_l, Heq, append_cons.
    apply splitSign_digit, Hdig. }
  unfold scanNumber. rewrite Hsplit.
  destruct (Z.eq_dec n 0) as [->|Hz].
  - rewrite utoa_zero, append_cons, append_nil_l. simpl.
    rewrite Hfrac. simpl. rewrite Hexp. simpl. rewrite !append_nil_r. reflexivity.
  - rewrite Heq, append_cons in *.
    destruct (Z.eqb_spec (code c) 48) as [H48|_]; [exfalso; apply Hnz; [lia | exact H48]|].
    rewrite Hdig, Hspan. simpl. rewrite Hfrac. simpl. rewrite Hexp. simpl.
    rewrite !append_nil_r. reflexivity.
Qed.

Lemma itoa_sign (z : Z) :
  itoa z = (if z <? 0 then "-" else "") +:+ utoa (Z.abs z).
Proof.
  unfold itoa. destruct (Z.ltb_spec z 0).
  - rewrite Z.abs_neq by lia. reflexivity.
  - rewrite Z.abs_eq by lia. reflexivity.
Qed.

Lemma scanNumber_itoa (z : Z) (rest : string) :
  startsDelim rest = true ->
  scanNumber (itoa z +:+ rest) = Some (itoa z, rest).
Proof.
  intros Hr. rewrite itoa_sign, append_assoc.
  apply scanNumber_utoa; [lia | exact Hr].
Qed.

Lemma parseInt64_itoa (z : Z) : inInt64 z = true -> parseInt64 (itoa z) = Some z.
Proof.
  intros Hin. rewrite itoa_sign. unfold parseInt64.
  destruct (utoa_cons (Z.abs z) ltac:(lia)) as (c & r & Heq & Hdig & _).
  assert (Hsplit : splitSign ((if z <? 0 then "-" else "") +:+ utoa (Z.abs z))
                   = (z <? 0, utoa (Z.abs z))).
  { destruct (z <? 0); [reflexivity|]. rewrite append_nil_l, Heq.
    apply splitSign_digit, Hdig. }
  rewrite Hsplit.
  rewrite parseDigits_decVal by (apply utoa_digits; lia).
  rewrite utoa_value by lia. rewrite Heq at 1. simpl.
  rewrite Z.mul_0_l, Z.add_0_l.
  replace (if z <? 0 then - Z.abs z else Z.abs z) with z
    by (destruct (Z.ltb_spec z 0); lia).
  rewrite Hin. reflexivity.
Qed.

(** *** UTF-8 *)

Lemma byte_eq (c : ascii) (n : Z) : n = code c -> byte_of n = c.
Proof. intros ->. apply byte_of_code. Qed.

Lemma encodeRune_ascii (r : Z) :
  0 <= r <= 127 -> encodeRune r = String (byte_of r) "".
Proof.
  intros H. unfold encodeRune, MaxRune, RuneError. zdecide. reflexivity.
Qed.

Lemma encodeRune_two (r : Z) :
  128 <= r <= 2047 ->
  encodeRune r = String (byte_of (192 + r / 64)) (String (byte_of (128 + r mod 64)) "").
Proof.
  intros H. unfold encodeRune, MaxRune, RuneError. zdecide. simpl. zdecide. reflexivity.
Qed.

Lemma encodeRune_three (r : Z) :
  2048 <= r <= 65535 -> r < 55296 \/ 57343 < r ->
  encodeRune r
  = String (byte_of (224 + r / 4096))
      (String (byte_of (128 + r / 64 mod 64)) (String (byte_of (128 + r mod 64)) "")).
Proof.
  intros H Hs. unfold encodeRune, MaxRune, RuneError.
  destruct Hs; zdecide; simpl; zdecide; reflexivity.
Qed.

Lemma encodeRune_four (r : Z) :
  65536 <= r <= 1114111 ->
  encodeRune r
  = String (byte_of (240 + r / 262144))
      (String (byte_of (128 + r / 4096 mod 64))
         (String (byte_of (128 + r / 64 mod 64)) (String (byte_of (128 + r mod 64)) ""))).
Proof.
  intros H. unfold encodeRune, MaxRune, RuneError. zdecide. simpl. zdecide. reflexivity.
Qed.

Lemma encodeRune_2 (b0 b1 : Z) (c0 c1 : ascii) :
  b0 = code c0 -> b1 = code c1 ->
  194 <= b0 < 224 -> 128 <= b1 <= 191 ->
  encodeRune (b0 mod 32 * 64 + b1 mod 64) = String c0 (String c1 "").
Proof.
  intros H0 H1 R0 R1. rewrite encodeRune_two by divlia.
  f_equal; [|f_equal]; apply byte_eq; divlia.
Qed.

Lemma encodeRune_3 (b0 b1 b2 : Z) (c0 c1 c2 : ascii) :
  b0 = code c0 -> b1 = code c1 -> b2 = code c2 ->
  224 <= b0 < 240 ->
  (if b0 =? 224 then 160 else 128) <= b1 <= (if b0 =? 237 then 159 else 191) ->
  128 <= b2 <= 191 ->
  encodeRune (b0 mod 16 * 4096 + b1 mod 64 * 64 + b2 mod 64)
  = String c0 (String c1 (String c2 "")).
Proof.
  intros H0 H1 H2 R0 R1 R2.
  assert (R1' : 128 <= b1 <= 191 /\ (b0 = 224 -> 160 <= b1) /\ (b0 = 237 -> b1 <= 159)).
  { destruct (Z.eqb_spec b0 224), (Z.eqb_spec b0 237); lia. }
  clear R1. destruct R1' as (R1 & Hlo & Hhi).
  rewrite encodeRune_three by divlia.
  f_equal; [|f_equal; [|f_equal]]; apply byte_eq; divlia.
Qed.

Lemma encodeRune_4 (b0 b1 b2 b3 : Z) (c0 c1 c2 c3 : ascii) :
  b0 = code c0 -> b1 = code c1 -> b2 = code c2 -> b3 = code c3 ->
  240 <= b0 <= 244 ->
  (if b0 =? 240 then 144 else 128) <= b1 <= (if b0 =? 244 then 143 else 191) ->
  128 <= b2 <= 191 -> 128 <= b3 <= 191 ->
  encodeRune (b0 mod 8 * 262144 + b1 mod 64 * 4096 + b2 mod 64 * 64 + b3 mod 64)
  = String c0 (String c1 (String c2 (String c3 ""))).
Proof.
  intros H0 H1 H2 H3 R0 R1 R2 R3.
  assert (R1' : 128 <= b1 <= 191 /\ (b0 = 240 -> 144 <= b1) /\ (b0 = 244 -> b1 <= 143)).
  { destruct (Z.eqb_spec b0 240), (Z.eqb_spec b0 244); lia. }
  clear R1. destruct R1' as (R1 & Hlo & Hhi).
  rewrite encodeRune_four by divlia.
  f_equal; [|f_equal; [|f_equal; [|f_equal]]]; apply byte_eq; divlia.
Qed.

Lemma decodeRune_high (c0 : ascii) (r0 : string) :
  128 <= code c0 ->
  decodeRune (String c0 r0) = (RuneError, 1%nat)
  \/ exists rn size p, decodeRune (String c0 r0) = (rn, size)
                       /\ encodes (String c0 r0) rn size p.
Proof.
  intros Hc0. unfold decodeRune.
  destruct (code c0 <? 128) eqn:E0; [apply Z.ltb_lt in E0; lia|].
  destruct ((code c0 <? 194) || (244 <? code c0)) eqn:E1; [left; reflexivity|].
  destruct r0 as [|c1 r1]; [left; reflexivity|].
  destruct ((code c1 <? (if code c0 =? 224 then 160 else if code c0 =? 240 then 144 else 128))
            || ((if code c0 =? 237 then 159 else if code c0 =? 244 then 143 else 191)
                <? code c1)) eqn:E2; [left; reflexivity|].
  assert (R0 : 194 <= code c0 <= 244).
  { apply orb_false_elim in E1 as [Ea Eb]. apply Z.ltb_ge in Ea, Eb. lia. }
  assert (R1 : 128 <= code c1 <= 191
               /\ (code c0 = 224 -> 160 <= code c1) /\ (code c0 = 240 -> 144 <= code c1)
               /\ (code c0 = 237 -> code c1 <= 159) /\ (code c0 = 244 -> code c1 <= 143)).
  { apply orb_false_elim in E2 as [Ea Eb]. apply Z.ltb_ge in Ea, Eb.
    destruct (Z.eqb_spec (code c0) 224), (Z.eqb_spec (code c0) 240),
      (Z.eqb_spec (code c0) 237), (Z.eqb_spec (code c0) 244); lia. }
  destruct R1 as (R1 & L224 & L240 & H237 & H244).
  destruct (code c0 <? 224) eqn:E3.
  { apply Z.ltb_lt in E3. right.
    exists (code c0 mod 32 * 64 + code c1 mod 64), 2%nat, (String c0 (String c1 "")).
    split; [reflexivity|]. unfold encodes.
    split; [reflexivity|]. split; [reflexivity|].
    split; [apply encodeRune_2; auto; lia|].
    split; [simpl; zdecide; reflexivity|]. split; [lia|].
    intros y. rewrite !append_cons, append_nil_l. unfold decodeRune.
    rewrite E0, E1, E2. zdecide. reflexivity. }
  apply Z.ltb_ge in E3.
  destruct r1 as [|c2 r2]; [left; reflexivity|].
  destruct ((code c2 <? 128) || (191 <? code c2)) eqn:E4; [left; reflexivity|].
  assert (R2 : 128 <= code c2 <= 191).
  { apply orb_false_elim in E4 as [Ea Eb]. apply Z.ltb_ge in Ea, Eb. lia. }
  destruct (code c0 <? 240) eqn:E5.
  { apply Z.ltb_lt in E5. right.
    exists (code c0 mod 16 * 4096 + code c1 mod 64 * 64 + code c2 mod 64), 3%nat,
      (String c0 (String c1 (String c2 ""))).
    split; [reflexivity|]. unfold encodes.
    split; [reflexivity|]. split; [reflexivity|].
    split.
    { apply encodeRune_3; try reflexivity; try lia.
      destruct (Z.eqb_spec (code c0) 224), (Z.eqb_spec (code c0) 237); lia. }
    split; [simpl; zdecide; reflexivity|]. split; [lia|].
    intros y. rewrite !append_cons, append_nil_l. unfold decodeRune.
    rewrite E0, E1, E2, E4. zdecide. reflexivity. }
  apply Z.ltb_ge in E5.
  destruct r2 as [|c3 r3]; [left; reflexivity|].
  destruct ((code c3 <? 128) || (191 <? code c3)) eqn:E6; [left; reflexivity|].
  assert (R3 : 128 <= code c3 <= 191).
  { apply orb_false_elim in E6 as [Ea Eb]. apply Z.ltb_ge in Ea, Eb. lia. }
  right.
  exists (code c0 mod 8 * 262144 + code c1 mod 64 * 4096 + code c2 mod 64 * 64
          + code c3 mod 64), 4%nat,
    (String c0 (String c1 (String c2 (String c3 "")))).
  split; [reflexivity|]. unfold encodes.
  split; [reflexivity|]. split; [reflexivity|].
  split.
  { apply encodeRune_4; try reflexivity; try lia.
    destruct (Z.eqb_spec (code c0) 240), (Z.eqb_spec (code c0) 244); lia. }
  split; [simpl; zdecide; reflexivity|]. split; [lia|].
  intros y. rewrite !append_cons, append_nil_l. unfold decodeRune.
  rewrite E0, E1, E2, E4, E6. zdecide. reflexivity.
Qed.

(** *** String literals *)

Lemma scanString_plain_byte (c : ascii) (x : string) :
  32 <= code c -> code c <> 34 -> code c <> 92 ->
  scanString (String c x) = scanThen (String c "") x.
Proof.
  intros H1 H2 H3. unfold scanThen. simpl. zdecide.
  destruct (scanString x) as [[raw rest]|]; reflexivity.
Qed.

Lemma scanString_escapeByte (c : ascii) (x : string) :
  (code c <? 128) = true -> htmlSafe (code c) = false ->
  scanString (escapeByte c +:+ x) = scanThen (escapeByte c) x.
Proof.
  intros H1 H2. unfold scanThen.
  destruct c as [[] [] [] [] [] [] [] []];
    try (vm_compute in H1; discriminate); try (vm_compute in H2; discriminate);
    match goal with
    | |- context [escapeByte ?c] =>
        let e := eval vm_compute in (escapeByte c) in change (escapeByte c) with e
    end;
    norm_app; simpl scanString;
    destruct (scanString x) as [[raw rest]|]; reflexivity.
Qed.

Lemma scanString_high (p x : string) :
  allb (fun c => 128 <=? code c) p = true ->
  scanString (p +:+ x) = scanThen p x.
Proof.
  induction p as [|c p IH]; intros H.
  - rewrite append_nil_l. unfold scanThen.
    destruct (scanString x) as [[raw rest]|]; reflexivity.
  - simpl in H. apply andb_prop in H as [Hc Hp]. apply Z.leb_le in Hc.
    rewrite append_cons, scanString_plain_byte by lia.
    unfold scanThen. rewrite (IH Hp). unfold scanThen.
    destruct (scanString x) as [[raw rest]|]; reflexivity.
Qed.

Lemma unquote_plain_byte (F : nat) (c : ascii) (x : string) :
  32 <= code c < 128 -> code c <> 34 -> code c <> 92 ->
  unquote_go (S F) (String c x) = unquoteThen F (String c "") x.
Proof.
  intros H1 H2 H3. unfold unquoteThen. simpl. zdecide.
  destruct (unquote_go F x); reflexivity.
Qed.

Lemma unquote_escapeByte (F : nat) (c : ascii) (x : string) :
  (code c <? 128) = true -> htmlSafe (code c) = false ->
  unquote_go (S F) (escapeByte c +:+ x) = unquoteThen F (String c "") x.
Proof.
  intros H1 H2. unfold unquoteThen.
  destruct c as [[] [] [] [] [] [] [] []];
    try (vm_compute in H1; discriminate); try (vm_compute in H2; discriminate);
    match goal with
    | |- context [escapeByte ?c] =>
        let e := eval vm_compute in (escapeByte c) in change (escapeByte c) with e
    end;
    norm_app; simpl unquote_go;
    destruct (unquote_go F x); reflexivity.
Qed.

Lemma skip_append (p x : string) : skip (String.length p) (p +:+ x) = x.
Proof.
  induction p as [|c p IH]; [destruct x; reflexivity|].
  rewrite append_cons. simpl. exact IH.
Qed.

Lemma unquote_high (F : nat) (s : string) (rn : Z) (size : nat) (p x : string) :
  encodes s rn size p ->
  unquote_go (S F) (p +:+ x) = unquoteThen F p x.
Proof.
  intros (Hlen & _ & Henc & Hall & Hsize & Hdec). unfold unquoteThen.
  destruct p as [|c p']; [simpl in Hlen; lia|].
  simpl in Hall. apply andb_prop in Hall as [Hc _]. apply Z.leb_le in Hc.
  specialize (Hdec x).
  pose proof (skip_append (String c p') x) as Hskip. rewrite Hlen in Hskip.
  rewrite append_cons in *. cbn [unquote_go]. zdecide.
  rewrite Hdec, Hskip, Henc. destruct (unquote_go F x); reflexivity.
Qed.

Lemma length_skip (n : nat) (s : string) :
  (String.length (skip n s) <= String.length s)%nat.
Proof.
  revert s. induction n as [|n IH]; intros s; [destruct s; simpl; lia|].
  destruct s as [|c r]; simpl; [lia|]. specialize (IH r). lia.
Qed.

Lemma unquote_go_nil (F : nat) : unquote_go F "" = Some "".
Proof. destruct F; reflexivity. Qed.

(** The text between the quotes is scanned up to the closing quote, and
    unquoting it gives the coerced string. *)
Lemma escape_scan_unquote (f : nat) : forall s,
  (String.length s <= f)%nat ->
  (forall rest, scanString (escape_go f s +:+ String DQ rest) = Some (escape_go f s, rest))
  /\ (forall F, (String.length (escape_go f s) <= F)%nat ->
        unquote_go F (escape_go f s) = Some (toValidUTF8_go f s)).
Proof.
  induction f as [|f IH]; intros s Hlen.
  - destruct s; [|simpl in Hlen; lia]. simpl. split; [reflexivity|].
    intros F _. apply unquote_go_nil.
  - destruct s as [|c r].
    { simpl. split; [reflexivity|]. intros F _. apply unquote_go_nil. }
    simpl in Hlen.
    assert (Hstep : forall pre out tail,
              (String.length tail <= f)%nat -> (1 <= String.length pre)%nat ->
              (forall x, scanString (pre +:+ x) = scanThen pre x) ->
              (forall F x, unquote_go (S F) (pre +:+ x) = unquoteThen F out x) ->
              (forall rest, scanString ((pre +:+ escape_go f tail) +:+ String DQ rest)
                            = Some (pre +:+ escape_go f tail, rest))
              /\ (forall F, (String.length (pre +:+ escape_go f tail) <= F)%nat ->
                    unquote_go F (pre +:+ escape_go f tail)
                    = Some (out +:+ toValidUTF8_go f tail))).
    { intros pre out tail Htail Hpre Hscan Hunq.
      destruct (IH tail Htail) as (IHs & IHu). split.
      - intros rest. rewrite append_assoc, Hscan. unfold scanThen.
        rewrite IHs. reflexivity.
      - intros F HF. rewrite length_append in HF.
        destruct F as [|F]; [lia|]. rewrite Hunq. unfold unquoteThen.
        rewrite IHu by lia. reflexivity. }
    cbn [escape_go toValidUTF8_go].
    destruct (code c <? 128) eqn:Hascii.
    + destruct (htmlSafe (code c)) eqn:Hsafe.
      * assert (Hc : 32 <= code c < 128 /\ code c <> 34 /\ code c <> 92).
        { unfold htmlSafe in Hsafe. apply Z.ltb_lt in Hascii.
          apply andb_prop in Hsafe as [Hsafe Hneg]. apply andb_prop in Hsafe as [H32 _].
          apply Z.leb_le in H32. apply negb_true_iff in Hneg.
          repeat (apply orb_false_elim in Hneg as [Hneg ?]).
          repeat match goal with H : (_ =? _) = false |- _ => apply Z.eqb_neq in H end.
          lia. }
        destruct Hc as (H1 & H2 & H3).
        apply (Hstep (String c "") (String c "") r); [lia | simpl; lia | |].
        -- intros x. apply scanString_plain_byte; lia.
        -- intros F x. apply unquote_plain_byte; lia.
      * apply (Hstep (escapeByte c) (String c "") r); [lia | | |].
        -- unfold escapeByte. repeat match goal with
             | |- context [if ?b then _ else _] => destruct b
             end; simpl; lia.
        -- intros x. apply scanString_escapeByte; assumption.
        -- intros F x. apply unquote_escapeByte; assumption.
    + apply Z.ltb_ge in Hascii.
      destruct (decodeRune_high c r Hascii) as [Herr|(rn & size & p & Hdec & Henc)].
      * rewrite Herr. cbn [andb]. rewrite Z.eqb_refl, Nat.eqb_refl. cbn [andb skip].
        apply (Hstep (String BSL "ufffd") (encodeRune RuneError) r);
          [lia | simpl; lia | |].
        -- intros x. unfold scanThen. rewrite !append_cons, append_nil_l.
           simpl scanString. destruct (scanString x) as [[raw rest]|]; reflexivity.
        -- intros F x. unfold unquoteThen. rewrite !append_cons, append_nil_l.
           simpl unquote_go. destruct (unquote_go F x); reflexivity.
      * rewrite Hdec.
        pose proof Henc as (Hplen & Hsplit & Hencode & Hall & Hsize & _).
        assert (Htail : (String.length (skip size (String c r)) <= f)%nat).
        { destruct size as [|size]; [lia|]. simpl.
          pose proof (length_skip size r). lia. }
        replace ((rn =? RuneError) && (size =? 1)%nat) with false
          by (symmetry; apply andb_false_intro2; apply Nat.eqb_neq; lia).
        assert (Htake : take size (String c r) = p).
        { unfold take. rewrite Hsplit at 1. rewrite <- Hplen.
          clear. generalize (skip (String.length p) (String c r)) as y.
          induction p as [|a p IHp]; intros y.
          - destruct y; reflexivity.
          - rewrite append_cons. simpl. rewrite IHp. reflexivity. }
        destruct ((rn =? 8232) || (rn =? 8233)) eqn:Hsep.
        -- assert (Hrn : rn = 8232 \/ rn = 8233).
           { apply orb_prop in Hsep as [H|H]; apply Z.eqb_eq in H; auto. }
           rewrite <- append_assoc.
           apply (Hstep _ (encodeRune rn) _ Htail).
           ++ destruct Hrn as [-> | ->]; simpl; lia.
           ++ intros x. unfold scanThen.
              destruct Hrn as [-> | ->];
                match goal with
                | |- context [hexDigit ?n] =>
                    let e := eval vm_compute in (hexDigit n) in change (hexDigit n) with e
                end;
                norm_app; simpl scanString;
                destruct (scanString x) as [[raw rest]|]; reflexivity.
           ++ intros F x. unfold unquoteThen.
              destruct Hrn as [-> | ->];
                match goal with
                | |- context [hexDigit ?n] =>
                    let e := eval vm_compute in (hexDigit n) in change (hexDigit n) with e
                end;
                norm_app; simpl unquote_go;
                destruct (unquote_go F x); reflexivity.
        -- rewrite Htake, Hencode.
           apply (Hstep p p _ Htail); [lia | |].
           ++ intros x. apply scanString_high, Hall.
           ++ intros F x. eapply unquote_high, Henc.
Qed.

Lemma decodeRune_ascii (c : ascii) (r : string) :
  code c < 128 -> decodeRune (String c r) = (code c, 1%nat).
Proof. intros H. unfold decodeRune. zdecide. reflexivity. Qed.

Lemma validUTF8_go_coerce (f : nat) : forall s,
  validUTF8_go f s = true -> (String.length s <= f)%nat -> toValidUTF8_go f s = s.
Proof.
  induction f as [|f IH]; intros s Hv Hlen.
  - destruct s; [reflexivity | simpl in Hlen; lia].
  - destruct s as [|c r]; [reflexivity|]. simpl in Hlen.
    cbn [validUTF8_go toValidUTF8_go] in *.
    destruct (Z.ltb_spec (code c) 128) as [Hlt|Hge].
    + rewrite decodeRune_ascii in Hv by exact Hlt.
      replace ((code c =? RuneError) && (1 =? 1)%nat) with false in Hv
        by (symmetry; apply andb_false_intro1; apply Z.eqb_neq; unfold RuneError; lia).
      simpl in Hv. rewrite (IH r Hv) by lia. reflexivity.
    + destruct (decodeRune_high c r Hge) as [Herr|(rn & size & p & Hdec & Henc)].
      * rewrite Herr in Hv. simpl in Hv. discriminate.
      * rewrite Hdec in *. destruct Henc as (Hplen & Hsplit & Hencode & _ & Hsize & _).
        replace ((rn =? RuneError) && (size =? 1)%nat) with false in Hv
          by (symmetry; apply andb_false_intro2; apply Nat.eqb_neq; lia).
        rewrite IH; [rewrite Hencode; symmetry; exact Hsplit | exact Hv |].
        destruct size as [|size]; [lia|]. simpl.
        pose proof (length_skip size r). lia.
Qed.

Lemma validUTF8_toValidUTF8 (s : string) : validUTF8 s = true -> toValidUTF8 s = s.
Proof. intros H. apply validUTF8_go_coerce; [exact H | lia]. Qed.

Lemma quote_escape (s : string) : quote s = String DQ (escape s +:+ String DQ "").
Proof. reflexivity. Qed.

Lemma scanString_escape (s rest : string) :
  scanString (escape s +:+ String DQ rest) = Some (escape s, rest).
Proof. apply (escape_scan_unquote (String.length s) s). lia. Qed.

Lemma unquote_escape (s : string) : unquote (escape s) = Some (toValidUTF8 s).
Proof.
  unfold unquote. apply (escape_scan_unquote (String.length s) s); [lia|].
  unfold escape. lia.
Qed.

Lemma plainByte_spec (c : ascii) :
  plainByte c = true -> 32 <= code c < 128 /\ code c <> 34 /\ code c <> 92.
Proof.
  unfold plainByte. intros H.
  apply andb_prop in H as [H H92]. apply andb_prop in H as [H H34].
  apply andb_prop in H as [H32 H128].
  apply negb_true_iff, Z.eqb_neq in H92, H34. apply Z.leb_le in H32.
  apply Z.ltb_lt in H128. lia.
Qed.

Lemma scanString_plain (k rest : string) :
  allb plainByte k = true ->
  scanString (k +:+ String DQ rest) = Some (k, rest).
Proof.
  induction k as [|c k IH]; intros H; [reflexivity|].
  simpl in H. apply andb_prop in H as [Hc Hk].
  apply plainByte_spec in Hc as (H1 & H2 & H3).
  rewrite append_cons, scanString_plain_byte by lia.
  unfold scanThen. rewrite (IH Hk). reflexivity.
Qed.

(** *** RFC 3339 text of an instant *)

Lemma allFrom_spec (p : Z -> bool) (n : nat) : forall i,
  allFrom p n i = true -> forall j, i <= j < i + Z.of_nat n -> p j = true.
Proof.
  induction n as [|n IH]; intros i H j Hj; [lia|].
  simpl in H. apply andb_prop in H as [Hi Hrest].
  destruct (Z.eq_dec j i) as [->|Hne]; [exact Hi|].
  apply (IH (i + 1) Hrest). lia.
Qed.

Lemma civilOk_year : allFrom civilOk (Z.to_nat 366) 0 = true.
Proof. vm_compute. reflexivity. Qed.

Lemma isLeap_period (y k : Z) : isLeap (y + k * 400) = isLeap y.
Proof.
  unfold isLeap.
  replace ((y + k * 400) mod 4) with (y mod 4)
    by (replace (k * 400) with (k * 100 * 4) by ring; rewrite Z.mod_add by lia; reflexivity).
  replace ((y + k * 400) mod 100) with (y mod 100)
    by (replace (k * 400) with (k * 4 * 100) by ring; rewrite Z.mod_add by lia; reflexivity).
  rewrite Z.mod_add by lia. reflexivity.
Qed.

Lemma daysIn_period (m y k : Z) : daysIn m (y + k * 400) = daysIn m y.
Proof. unfold daysIn. rewrite isLeap_period. reflexivity. Qed.

(** The year of a day of the 400-year cycle, and the day in that year;
    only a year before a leap February has a 366th day. *)
Lemma yearOfEra_bounds (doe : Z) :
  0 <= doe < 146097 ->
  let yoe := (doe - doe / 1460 + doe / 36524 - doe / 146096) / 365 in
  let doy := doe - (365 * yoe + yoe / 4 - yoe / 100) in
  0 <= doy <= 365 /\ (doy = 365 -> isLeap (yoe + 1) = true).
Proof.
  intros H yoe doy.
  assert (Hb : 0 <= doy <= 365
    /\ (doy = 365 -> (yoe + 1) mod 4 = 0
        /\ ((yoe + 1) mod 100 <> 0 \/ (yoe + 1) mod 400 = 0))).
  { subst yoe doy. Z.div_mod_to_equations. lia. }
  destruct Hb as [Hdoy Hleap]. split; [exact Hdoy|].
  intros H365. destruct (Hleap H365) as [H4 H100]. unfold isLeap.
  apply andb_true_intro. split; [apply Z.eqb_eq; exact H4|].
  apply orb_true_iff. destruct H100 as [Hn|H400].
  - left. apply negb_true_iff, Z.eqb_neq. exact Hn.
  - right. apply Z.eqb_eq. exact H400.
Qed.

Lemma daysIn_common (m y : Z) : daysIn m 1 <= daysIn m y.
Proof.
  unfold daysIn. destruct (m =? 2); [|lia].
  change (isLeap 1) with false. destruct (isLeap y); lia.
Qed.

Lemma civilFromDays_valid (days : Z) :
  let '(y, m, d) := civilFromDays days in
  1 <= m <= 12 /\ 1 <= d <= daysIn m y.
Proof.
  unfold civilFromDays.
  set (z := days + 719468). set (era := z / 146097).
  set (doe := z - era * 146097).
  assert (Hdoe : 0 <= doe < 146097).
  { subst doe era.
    pose proof (Z.div_mod z 146097 ltac:(lia)).
    pose proof (Z.mod_pos_bound z 146097 ltac:(lia)). lia. }
  destruct (yearOfEra_bounds doe Hdoe) as [Hdoy Hleap]. 
  set (yoe := (doe - doe / 1460 + doe / 36524 - doe / 146096) / 365) in *.
  set (doy := doe - (365 * yoe + yoe / 4 - yoe / 100)) in *.
  assert (Hok : civilOk doy = true).
  { apply (allFrom_spec civilOk _ 0 civilOk_year doy). rewrite Z2Nat.id; lia. }
  unfold civilOk in Hok. cbv zeta in Hok.
  set (mp := (5 * doy + 2) / 153) in *.
  set (d := doy - (153 * mp + 2) / 5 + 1) in *.
  set (m := if mp <? 10 then mp + 3 else mp - 9) in *.
  replace (yoe + era * 400 + (if m <=? 2 then 1 else 0))
    with (yoe + (if m <=? 2 then 1 else 0) + era * 400) by ring.
  rewrite daysIn_period.
  apply andb_prop in Hok as [Hok H4]. apply andb_prop in Hok as [Hok H3].
  apply andb_prop in Hok as [H1 H2].
  apply Z.leb_le in H1, H2, H3.
  split; [lia|]. split; [lia|].
  destruct (doy =? 365) eqn:E.
  - apply Z.eqb_eq in E. apply andb_prop in H4 as [Hm Hd].
    apply Z.eqb_eq in Hm, Hd. rewrite Hm, Hd. cbn [Z.leb Z.compare Pos.compare Pos.compare_cont].
    unfold daysIn. cbn [Z.eqb Pos.eqb]. rewrite (Hleap E). lia.
  - apply Z.leb_le in H4. pose proof (daysIn_common m (yoe + (if m <=? 2 then 1 else 0))). lia.
Qed.

Lemma padInt_2_check :
  allFrom (fun n => String.eqb (padInt n 2) (digits2 n)) (Z.to_nat 100) 0 = true.
Proof. vm_compute. reflexivity. Qed.

Lemma padInt_4_check :
  allFrom (fun n => String.eqb (padInt n 4) (digits4 n)) (Z.to_nat 10000) 0 = true.
Proof. vm_compute. reflexivity. Qed.

Lemma padInt_2 (n : Z) : 0 <= n <= 99 -> padInt n 2 = digits2 n.
Proof.
  intros H. apply String.eqb_eq.
  apply (allFrom_spec _ _ 0 padInt_2_check n). rewrite Z2Nat.id; lia.
Qed.

Lemma padInt_4 (n : Z) : 0 <= n <= 9999 -> padInt n 4 = digits4 n.
Proof.
  intros H. apply String.eqb_eq.
  apply (allFrom_spec _ _ 0 padInt_4_check n). rewrite Z2Nat.id; lia.
Qed.

Lemma parseUintIn_digits2 (n lo hi : Z) :
  0 <= n <= 99 -> lo <= n <= hi -> parseUintIn (digits2 n) lo hi = Some n.
Proof.
  intros Hn Hr. unfold parseUintIn, digits2. simpl.
  rewrite !isDigit_digitChar, !digitVal_digitChar by divlia.
  replace (10 * (10 * 0 + n / 10) + n mod 10) with n by divlia.
  simpl. zdecide. reflexivity.
Qed.

Lemma parseUintIn_digits4 (n lo hi : Z) :
  0 <= n <= 9999 -> lo <= n <= hi -> parseUintIn (digits4 n) lo hi = Some n.
Proof.
  intros Hn Hr. unfold parseUintIn, digits4. simpl.
  rewrite !isDigit_digitChar, !digitVal_digitChar by divlia.
  replace (10 * (10 * (10 * (10 * 0 + n / 1000) + n / 100 mod 10) + n / 10 mod 10)
           + n mod 10) with n by divlia.
  simpl. zdecide. reflexivity.
Qed.

Lemma zeros_digits (k : nat) : allb isDigit (zeros k) = true.
Proof. induction k as [|k IH]; [reflexivity | simpl; exact IH]. Qed.

Lemma padInt_digits (x : Z) (w : nat) : 0 <= x -> allb isDigit (padInt x w) = true.
Proof.
  intros Hx. unfold padInt. zdecide.
  rewrite allb_append, zeros_digits, utoa_digits by exact Hx. reflexivity.
Qed.

Lemma trimZeros_digits (s : string) :
  allb isDigit s = true -> allb isDigit (trimZeros s) = true.
Proof.
  induction s as [|c s IH]; intros H; [reflexivity|].
  simpl in *. apply andb_prop in H as [Hc Hs].
  destruct ((code c =? 48) && _); [reflexivity|].
  simpl. rewrite Hc, (IH Hs). reflexivity.
Qed.

Lemma trimZeros_append_nonzero (a : string) (c : ascii) (r : string) :
  code c <> 48 -> exists c' r', trimZeros (a +:+ String c r) = String c' r'.
Proof.
  intros Hc. induction a as [|x a IH].
  - rewrite append_nil_l. simpl.
    replace (code c =? 48) with false by (symmetry; apply Z.eqb_neq; exact Hc).
    simpl. eauto.
  - rewrite append_cons. simpl. destruct IH as (c' & r' & ->).
    simpl. rewrite andb_false_r. eauto.
Qed.

Lemma trimZeros_padInt_nonempty (x : Z) (w : nat) :
  1 <= x -> exists c r, trimZeros (padInt x w) = String c r.
Proof.
  intros Hx. unfold padInt. zdecide.
  destruct (utoa_cons x ltac:(lia)) as (c & r & Heq & _ & Hnz).
  rewrite Heq. apply trimZeros_append_nonzero. apply Hnz. exact Hx.
Qed.

Lemma isDigit_plain (c : ascii) : isDigit c = true -> plainByte c = true.
Proof.
  unfold isDigit, plainByte. intros H. apply andb_prop in H as [H1 H2].
  apply Z.leb_le in H1, H2. zdecide. reflexivity.
Qed.

Lemma digits_plain (s : string) : allb isDigit s = true -> allb plainByte s = true.
Proof. apply allb_impl, isDigit_plain. Qed.

Lemma digits2_digits (n : Z) : 0 <= n <= 99 -> allb isDigit (digits2 n) = true.
Proof.
  intros H. unfold digits2. simpl. rewrite !isDigit_digitChar by divlia. reflexivity.
Qed.

Lemma digits4_digits (n : Z) : 0 <= n <= 9999 -> allb isDigit (digits4 n) = true.
Proof.
  intros H. unfold digits4. simpl. rewrite !isDigit_digitChar by divlia. reflexivity.
Qed.

Lemma substring_zero (s : string) : substring 0 0 s = "".
Proof. destruct s; reflexivity. Qed.

Lemma parseRFC3339_format (t : Time) (js : string) :
  Time_MarshalJSON t = Some js ->
  js = String DQ (formatRFC3339 t +:+ String DQ "")
  /\ allb plainByte (formatRFC3339 t) = true
  /\ exists t', parseRFC3339 (formatRFC3339 t) = Some t'.
Proof.
  unfold Time_MarshalJSON, formatRFC3339.
  set (sec := t / Second). set (nsec := t mod Second).
  pose proof (civilFromDays_valid (sec / 86400)) as Hvalid.
  destruct (civilFromDays (sec / 86400)) as [[y m] d].
  destruct Hvalid as (Hm & Hd).
  destruct ((y <? 0) || (9999 <? y)) eqn:Hy; [discriminate|].
  apply orb_false_elim in Hy as [Hy1 Hy2]. apply Z.ltb_ge in Hy1, Hy2.
  intros [= <-]. split; [reflexivity|].
  set (sod := sec mod 86400).
  assert (Hsod : 0 <= sod < 86400) by (apply Z.mod_pos_bound; lia).
  assert (Hd31 : d <= 31).
  { unfold daysIn in Hd. destruct (m =? 2); [destruct (isLeap y); lia|].
    destruct ((m =? 4) || (m =? 6) || (m =? 9) || (m =? 11)); lia. }
  rewrite (padInt_4 y), (padInt_2 m), (padInt_2 d), (padInt_2 (sod / 3600)),
    (padInt_2 (sod mod 3600 / 60)), (padInt_2 (sod mod 60)) by divlia.
  set (tail := (if nsec =? 0 then "" else String "." (trimZeros (padInt nsec 9))) +:+ "Z").
  assert (Hnsec : 0 <= nsec < 1000000000) by (apply Z.mod_pos_bound; unfold Second; lia).
  assert (Htail : allb plainByte tail = true
                  /\ exists n, (let '(nsec, s2) :=
                                  match tail with
                                  | String "." (String c r) =>
                                      if isDigit c then
                                        let '(ds, rest) := spanDigits (String c r) in
                                        (parseNanos ds, rest)
                                      else (0, tail)
                                  | _ => (0, tail)
                                  end in (nsec, String.eqb s2 "Z")) = (n, true)).
  { subst tail. destruct (Z.eqb_spec nsec 0) as [Hz|Hnz].
    - rewrite append_nil_l. split; [reflexivity|]. exists 0. reflexivity.
    - destruct (trimZeros_padInt_nonempty nsec 9 ltac:(lia)) as (c & r & Heq).
      pose proof (trimZeros_digits _ (padInt_digits nsec 9 ltac:(lia))) as Hdig.
      split.
      + rewrite append_cons. simpl. rewrite allb_append.
        rewrite (digits_plain _ Hdig). reflexivity.
      + pose proof (spanDigits_append (trimZeros (padInt nsec 9)) "Z" Hdig eq_refl) as Hspan.
        rewrite Heq in *. rewrite !append_cons in *.
        simpl in Hdig. apply andb_prop in Hdig as [Hc _]. rewrite Hc.
        rewrite Hspan. eexists. reflexivity. }
  destruct Htail as (Hplain & n & Hparse).
  split.
  - rewrite !allb_append.
    rewrite (digits_plain _ (digits4_digits y ltac:(lia))).
    rewrite (digits_plain _ (digits2_digits m ltac:(lia))).
    rewrite (digits_plain _ (digits2_digits d ltac:(lia))).
    rewrite (digits_plain _ (digits2_digits (sod / 3600) ltac:(divlia))).
    rewrite (digits_plain _ (digits2_digits (sod mod 3600 / 60) ltac:(divlia))).
    rewrite (digits_plain _ (digits2_digits (sod mod 60) ltac:(divlia))).
    rewrite Hplain. reflexivity.
  - clearbody tail. unfold digits4, digits2. norm_app.
    unfold parseRFC3339.
    cbn [String.length Nat.ltb Nat.leb substring skip]. rewrite !substring_zero.
    fold (digits4 y). fold (digits2 m). fold (digits2 d). fold (digits2 (sod / 3600)).
    fold (digits2 (sod mod 3600 / 60)). fold (digits2 (sod mod 60)).
    rewrite (parseUintIn_digits4 y 0 9999) by lia. cbn [mbind option_bind].
    rewrite (parseUintIn_digits2 m 1 12) by lia. cbn [mbind option_bind].
    rewrite (parseUintIn_digits2 d 1 (daysIn m y)) by lia. cbn [mbind option_bind].
    rewrite (parseUintIn_digits2 (sod / 3600) 0 23) by divlia. cbn [mbind option_bind].
    rewrite (parseUintIn_digits2 (sod mod 3600 / 60) 0 59) by divlia.
    cbn [mbind option_bind].
    rewrite (parseUintIn_digits2 (sod mod 60) 0 59) by divlia. cbn [mbind option_bind].
    change (negb (("-" =? "-")%string && ("-" =? "-")%string && ("T" =? "T")%string
                  && (":" =? ":")%string && (":" =? ":")%string)) with false.
    cbv iota.
    destruct (match tail with
              | String "." (String c r) =>
                  if isDigit c then
                    let '(ds, rest) := spanDigits (String c r) in (parseNanos ds, rest)
                  else (0, tail)
              | _ => (0, tail)
              end) as [n0 s2].
    injection Hparse as _ Hz. rewrite Hz. eexists. reflexivity.
Qed.

(** *** The object *)

Lemma skipWS_nonspace (c : ascii) (r : string) :
  isSpace c = false -> skipWS (String c r) = String c r.
Proof. intros H. simpl. rewrite H. reflexivity. Qed.

Lemma itoa_head (z : Z) :
  exists c r, itoa z = String c r /\ (code c = 45 \/ 48 <= code c <= 57).
Proof.
  rewrite itoa_sign. destruct (z <? 0).
  - rewrite append_cons, append_nil_l. eexists. eexists. split; [reflexivity|].
    left. reflexivity.
  - rewrite append_nil_l.
    destruct (utoa_cons (Z.abs z) ltac:(lia)) as (c & r & Heq & Hdig & _).
    exists c, r. split; [exact Heq|]. right.
    unfold isDigit in Hdig. apply andb_prop in Hdig as [H1 H2]. lia.
Qed.

Lemma parseValue_number (f : nat) (z : Z) (y : string) :
  startsDelim y = true ->
  parseValue (S f) (itoa z +:+ y) = Some (JNumber (itoa z), y).
Proof.
  intros Hy. pose proof (scanNumber_itoa z y Hy) as Hscan.
  destruct (itoa_head z) as (c & r & Heq & Hc).
  rewrite Heq in *. rewrite append_cons in *.
  cbn [parseValue]. rewrite skipWS_nonspace by (unfold isSpace; zdecide; reflexivity).
  zdecide. rewrite Hscan. reflexivity.
Qed.

Lemma parseValue_render (f : nat) (v : FieldVal) (y : string) :
  wfVal v -> startsDelim y = true ->
  parseValue (S f) (renderVal v +:+ y) = Some (jsonOf v, y).
Proof.
  intros Hwf Hy. destruct v as [z|[z|]|s|raw]; simpl renderVal; simpl jsonOf.
  - apply parseValue_number, Hy.
  - apply parseValue_number, Hy.
  - unfold marshalOptInt. norm_app. reflexivity.
  - rewrite quote_escape. norm_app. rewrite append_assoc. norm_app.
    cbn [parseValue]. rewrite skipWS_nonspace by reflexivity.
    change (code DQ =? 123) with false. change (code DQ =? 91) with false.
    change (code DQ =? 34) with true. cbv iota.
    rewrite scanString_escape. reflexivity.
  - norm_app. rewrite append_assoc. norm_app.
    cbn [parseValue]. rewrite skipWS_nonspace by reflexivity.
    change (code DQ =? 123) with false. change (code DQ =? 91) with false.
    change (code DQ =? 34) with true. cbv iota.
    rewrite scanString_plain by exact Hwf. reflexivity.
Qed.

Lemma parseMembers_unfold (f : nat) (s : string) :
  parseMembers (S f) s
  = match skipWS s with
    | String c r =>
        if code c =? 34 then
          '(k, r1) ← scanString r;
          match skipWS r1 with
          | String ":" r2 =>
              '(v, r3) ← parseValue f r2;
              match skipWS r3 with
              | String "," r4 =>
                  '(ms, r5) ← parseMembers f r4; Some ((k, v) :: ms, r5)
              | String "}" r4 => Some ([(k, v)], r4)
              | _ => None
              end
          | _ => None
          end
        else None
    | "" => None
    end.
Proof. reflexivity. Qed.

Lemma parseMembers_render (ms : list (string * FieldVal)) :
  forall (k : string) (v : FieldVal) (fuel : nat) (tail : string),
    (2 + length ms <= fuel)%nat ->
    allb plainByte k = true -> wfVal v ->
    Forall (fun kv => allb plainByte kv.1 = true /\ wfVal kv.2) ms ->
    parseMembers fuel (renderMembers k v ms tail)
    = Some ((k, jsonOf v) :: map (fun kv => (kv.1, jsonOf kv.2)) ms, tail).
Proof.
  induction ms as [|[k' v'] rest IH]; intros k v fuel tail Hfuel Hk Hv Hms;
    (destruct fuel as [|f]; [simpl in Hfuel; lia|]);
    (destruct f as [|f]; [simpl in Hfuel; lia|]);
    cbn [renderMembers]; unfold jkey; norm_app; rewrite append_assoc; norm_app;
    rewrite parseMembers_unfold; rewrite skipWS_nonspace by reflexivity;
    change (code DQ =? 34) with true; cbv iota;
    rewrite scanString_plain by exact Hk; cbn [mbind option_bind];
    rewrite skipWS_nonspace by reflexivity.
  - rewrite parseValue_render by (auto; reflexivity). cbn [mbind option_bind].
    norm_app. rewrite skipWS_nonspace by reflexivity. reflexivity.
  - rewrite parseValue_render by (auto; reflexivity). cbn [mbind option_bind].
    norm_app. rewrite skipWS_nonspace by reflexivity.
    inversion Hms as [|? ? [Hk' Hv'] Hrest]; subst. simpl in Hk', Hv'.
    rewrite (IH k' v' (S f) tail); [reflexivity | simpl in *; lia | assumption..].
Qed.

Lemma unquote_go_plain (k : string) : forall F,
  allb plainByte k = true -> (String.length k <= F)%nat -> unquote_go F k = Some k.
Proof.
  induction k as [|c k IH]; intros F H HF; [apply unquote_go_nil|].
  simpl in H, HF. apply andb_prop in H as [Hc Hk].
  apply plainByte_spec in Hc as (H1 & H2 & H3).
  destruct F as [|F]; [lia|].
  rewrite unquote_plain_byte by lia. unfold unquoteThen.
  rewrite IH by (auto; lia). reflexivity.
Qed.

Lemma unquote_plain (k : string) : allb plainByte k = true -> unquote k = Some k.
Proof. intros H. apply unquote_go_plain; [exact H | lia]. Qed.

Lemma renderMembers_head (k : string) (v : FieldVal) (ms : list (string * FieldVal))
    (tail : string) :
  exists r, renderMembers k v ms tail = String DQ r.
Proof.
  destruct ms as [|[k' v'] rest]; cbn [renderMembers]; unfold jkey; norm_app; eauto.
Qed.

Lemma length_renderMembers (k : string) (v : FieldVal) (ms : list (string * FieldVal))
    (tail : string) :
  (3 * length ms <= String.length (renderMembers k v ms tail))%nat.
Proof.
  revert k v. induction ms as [|[k' v'] rest IH]; intros k v; [simpl; lia|].
  cbn [renderMembers]. unfold jkey. norm_app.
  repeat (progress cbn [String.length] || rewrite length_append).
  specialize (IH k' v'). cbn [length]. lia.
Qed.

Lemma Marshal_render (t : Ticket) (js : string) :
  Marshal t = Some js ->
  js = String "{" (renderMembers "ID" (FInt (ID t))
                     (ticketMembers t (formatRFC3339 (LastReplyAt t))) "")
  /\ allb plainByte (formatRFC3339 (LastReplyAt t)) = true
  /\ exists t', parseRFC3339 (formatRFC3339 (LastReplyAt t)) = Some t'.
Proof.
  unfold Marshal. destruct (Time_MarshalJSON (LastReplyAt t)) as [ts|] eqn:Hts;
    [|discriminate].
  apply parseRFC3339_format in Hts as (-> & Hplain & Hparse).
  intros [= <-]. split; [reflexivity | auto].
Qed.

Lemma parseJSON_Marshal (t : Ticket) (js : string) :
  Marshal t = Some js ->
  parseJSON js
  = Some (JObject (("ID", JNumber (itoa (ID t)))
                   :: map (fun kv => (kv.1, jsonOf kv.2))
                        (ticketMembers t (formatRFC3339 (LastReplyAt t))))).
Proof.
  intros Hm. apply Marshal_render in Hm as (-> & Hplain & _).
  set (ms := ticketMembers t (formatRFC3339 (LastReplyAt t))).
  unfold parseJSON.
  pose proof (length_renderMembers "ID" (FInt (ID t)) ms "") as Hlen.
  destruct (renderMembers_head "ID" (FInt (ID t)) ms "") as (r & Hr).
  cbn [String.length].
  remember (String.length (renderMembers "ID" (FInt (ID t)) ms "")) as F eqn:HF.
  change (length ms) with 10%nat in Hlen.
  destruct F as [|F]; [lia|].
  cbn [parseValue]. rewrite skipWS_nonspace by reflexivity.
  change (code "{" =? 123) with true. cbv iota.
  rewrite Hr. rewrite skipWS_nonspace by reflexivity.
  unfold DQ at 1. cbv iota.
  change (Ascii false true false false false true false false) with DQ.
  rewrite <- Hr.
  rewrite (parseMembers_render ms "ID" (FInt (ID t)) (S (S F)) "").
  - reflexivity.
  - change (length ms) with 10%nat. lia.
  - reflexivity.
  - exact I.
  - subst ms. unfold ticketMembers.
    repeat (apply Forall_cons; split; [split; [reflexivity | try exact I; exact Hplain]|]).
    apply Forall_nil. exact I.
Qed.

Lemma setFields_members (t : Ticket) (raw : string) (t' : Time) :
  ticketInts t = true ->
  parseRFC3339 raw = Some t' ->
  setFields zeroTicket
    (("ID", JNumber (itoa (ID t)))
     :: map (fun kv => (kv.1, jsonOf kv.2)) (ticketMembers t raw))
  = Some (decodedTicket t t').
Proof.
  unfold ticketInts. intros Hints Htime.
  apply andb_prop in Hints as [Hints Hu]. apply andb_prop in Hints as [Hints Hmb].
  apply andb_prop in Hints as [Hints Hmin]. apply andb_prop in Hints as [Hid Hnum].
  unfold decodedTicket, ticketMembers.
  destruct (AssignedUserID t) as [u|];
    cbn [map jsonOf fst snd setFields];
    repeat (rewrite unquote_plain by reflexivity; cbn [mbind option_bind];
            unfold setField at 1;
            repeat match goal with
              | |- context [keyIs ?a ?b] =>
                  let r := eval vm_compute in (keyIs a b) in change (keyIs a b) with r
              end;
            cbv iota;
            cbn [decodeInt decodeString decodeIntPtr decodeTime];
            rewrite ?parseInt64_itoa by assumption;
            rewrite ?unquote_escape; rewrite ?Htime;
            cbn [mbind option_bind ID Number Subject CustomerEmail CustomerName
                   AssignedUserID AssignedUserName LastReplyAt MinutesSinceReply
                   MailboxID NotificationType zeroTicket]);
    reflexivity.
Qed.

Lemma Unmarshal_Marshal (t : Ticket) (js : string) :
  ticketInts t = true -> Marshal t = Some js ->
  exists t', Unmarshal js = Some (decodedTicket t t').
Proof.
  intros Hints Hm. unfold Unmarshal. rewrite (parseJSON_Marshal t js Hm).
  apply Marshal_render in Hm as (_ & _ & t' & Htime).
  exists t'. cbn [mbind option_bind]. apply setFields_members; assumption.
Qed.

(** C7 (for text that is valid UTF-8): when [recordNotification] writes the
    row of a ticket (a new key, or a conflict update that the guard lets
    through), the [ticket_data] it stores is parsed back by
    [json.Unmarshal], as the flush does, into a ticket with the same
    subject, customer name, assigned agent name and minutes waited, which are
    also the denormalized columns of the row. *)
Theorem ticket_snapshot_roundtrip (cfg : Config) (now : Time) (execOk : bool)
    (db db' : gmap (Z * string) Notification) (t : Ticket) (status : string) :
  ticketInts t = true ->
  validUTF8 (Subject t) = true ->
  validUTF8 (CustomerName t) = true ->
  validUTF8 (AssignedUserName t) = true ->
  recordNotification cfg now execOk db t status = Some db' ->
  match db !! (ID t, NotificationType t) with
  | None => True
  | Some old => updateGuard cfg now old = true
  end ->
  exists row t',
    db' !! (ID t, NotificationType t) = Some row
    /\ Some (ticket_data row) = Marshal t
    /\ Unmarshal (ticket_data row) = Some t'
    /\ Subject t' = Subject t
    /\ CustomerName t' = CustomerName t
    /\ AssignedUserName t' = AssignedUserName t
    /\ MinutesSinceReply t' = MinutesSinceReply t
    /\ ticket_subject row = Subject t'
    /\ customer_name row = CustomerName t'
    /\ assigned_user row = AssignedUserName t'
    /\ minutes_waiting row = MinutesSinceReply t'.
Proof.
  intros Hints Hs Hc Ha Hrec Hwritten.
  unfold recordNotification in Hrec.
  destruct (Marshal t) as [js|] eqn:Hm; simpl in Hrec; [|discriminate].
  destruct execOk; simpl in Hrec; [|discriminate].
  destruct (Unmarshal_Marshal t js Hints Hm) as (t' & Hun).
  assert (Hfields : Subject (decodedTicket t t') = Subject t
                    /\ CustomerName (decodedTicket t t') = CustomerName t
                    /\ AssignedUserName (decodedTicket t t') = AssignedUserName t
                    /\ MinutesSinceReply (decodedTicket t t') = MinutesSinceReply t).
  { simpl. rewrite !validUTF8_toValidUTF8 by assumption. auto. }
  destruct Hfields as (F1 & F2 & F3 & F4).
  destruct (db !! (ID t, NotificationType t)) as [old|].
  - rewrite Hwritten in Hrec. injection Hrec as Hrec. subst db'.
    exists (updatedRow now t status js old), (decodedTicket t t').
    rewrite lookup_insert_eq. simpl ticket_data. rewrite F1, F2, F3, F4.
    repeat split; try reflexivity; assumption.
  - injection Hrec as Hrec. subst db'.
    exists (insertedRow cfg now t status js), (decodedTicket t t').
    rewrite lookup_insert_eq. simpl ticket_data. rewrite F1, F2, F3, F4.
    repeat split; try reflexivity; assumption.
Qed.

(** C7, at the sample ticket queued on Sunday night. *)
Lemma ticket_snapshot_roundtrip_witness :
  ticketInts sampleTicket = true
  /\ validUTF8 (Subject sampleTicket) = true
  /\ validUTF8 (CustomerName sampleTicket) = true
  /\ validUTF8 (AssignedUserName sampleTicket) = true
  /\ recordNotification sampleConfig sundayNight true ∅ sampleTicket StatusQueued
     = Some {[ sampleKey := insertedRow sampleConfig sundayNight sampleTicket
                              StatusQueued sampleJSON ]}
  /\ exists row t',
       ({[ sampleKey := insertedRow sampleConfig sundayNight sampleTicket
                          StatusQueued sampleJSON ]} : gmap (Z * string) Notification)
         !! (ID sampleTicket, NotificationType sampleTicket) = Some row
       /\ Some (ticket_data row) = Marshal sampleTicket
       /\ Unmarshal (ticket_data row) = Some t'
       /\ Subject t' = Subject sampleTicket
       /\ CustomerName t' = CustomerName sampleTicket
       /\ AssignedUserName t' = AssignedUserName sampleTicket
       /\ MinutesSinceReply t' = MinutesSinceReply sampleTicket
       /\ ticket_subject row = Subject t'
       /\ customer_name row = CustomerName t'
       /\ assigned_user row = AssignedUserName t'
       /\ minutes_waiting row = MinutesSinceReply t'.
Proof.
  assert (Hm : Marshal sampleTicket = Some sampleJSON) by (vm_compute; reflexivity).
  assert (Hrec : recordNotification sampleConfig sundayNight true ∅ sampleTicket StatusQueued
                 = Some {[ sampleKey := insertedRow sampleConfig sundayNight sampleTicket
                                          StatusQueued sampleJSON ]}).
  { unfold recordNotification. rewrite Hm. simpl.
    change (ID sampleTicket, NotificationType sampleTicket) with sampleKey.
    rewrite lookup_empty, insert_empty. reflexivity. }
  assert (H1 : ticketInts sampleTicket = true) by (vm_compute; reflexivity).
  assert (H2 : validUTF8 (Subject sampleTicket) = true) by (vm_compute; reflexivity).
  assert (H3 : validUTF8 (CustomerName sampleTicket) = true) by (vm_compute; reflexivity).
  assert (H4 : validUTF8 (AssignedUserName sampleTicket) = true)
    by (vm_compute; reflexivity).
  repeat (split; [assumption|]).
  apply (ticket_snapshot_roundtrip sampleConfig sundayNight true ∅ _ sampleTicket
           StatusQueued H1 H2 H3 H4 Hrec).
  change (ID sampleTicket, NotificationType sampleTicket) with sampleKey.
  rewrite lookup_empty. exact I.
Defined.

(** C7, the claim as stated fails: a subject that is not valid UTF-8 comes
    back from the stored snapshot as U+FFFD. *)
Lemma ticket_snapshot_invalid_utf8 :
  exists js t',
    Marshal badTicket = Some js
    /\ Unmarshal js = Some t'
    /\ Subject badTicket = String (byte_of 255) ""
    /\ Subject t' = String (byte_of 239) (String (byte_of 191) (String (byte_of 189) ""))
    /\ String.eqb (Subject t') (Subject badTicket) = false.
Proof.
  eexists. eexists. split; [vm_compute; reflexivity|].
  split; [vm_compute; reflexivity|]. repeat split.
Qed.

(** * Further properties *)

(** ** A run, ticket by ticket *)

(** *** The messages of a flush *)

Lemma IsStartOfBusinessDay_business (bh : BusinessHours) (t : Time) :
  IsStartOfBusinessDay bh t = true -> IsBusinessHours bh t = true.
Proof.
  unfold IsStartOfBusinessDay.
  destruct (negb (enabled bh) || negb (notifyOnOpen bh)); [discriminate|].
  destruct (IsBusinessHours bh t); [reflexivity|discriminate].
Qed.

Lemma flushItem_outbox (cfg : Config) (env : Env) (i : nat)
    (item : Key * Notification) (st : FlushState) :
  outbox (fs_world (flushItem cfg env i item st))
  = outbox (fs_world st) ++ flushMessages cfg env i [item].
Proof.
  unfold flushItem. cbn [flushMessages].
  destruct (Unmarshal (ticket_data item.2)) as [ticket|]; [|by rewrite app_nil_r].
  destruct (DryRun cfg), (flushSendOk env i); cbn [negb andb];
    try by rewrite app_nil_r.
  - destruct (flushUpdateOk env i); cbn [negb fs_world]; [|by rewrite app_nil_r].
    destruct (_ <? _); cbn; by rewrite app_nil_r.
  - destruct (flushUpdateOk env i); cbn [negb fs_world]; [|by rewrite app_nil_r].
    destruct (_ <? _); cbn; by rewrite app_nil_r.
  - destruct (flushUpdateOk env i); cbn [negb fs_world]; [|reflexivity].
    destruct (_ <? _); reflexivity.
Qed.

Lemma flushMessages_cons (cfg : Config) (env : Env) (i : nat)
    (item : Key * Notification) (rest : list (Key * Notification)) :
  flushMessages cfg env i (item :: rest)
  = flushMessages cfg env i [item] ++ flushMessages cfg env (S i) rest.
Proof.
  cbn [flushMessages]. destruct (Unmarshal _); [|reflexivity].
  destruct (negb (DryRun cfg) && flushSendOk env i); reflexivity.
Qed.

Lemma flushLoop_outbox (cfg : Config) (env : Env) items : forall i st,
  outbox (fs_world (flushLoop cfg env i items st))
  = outbox (fs_world st) ++ flushMessages cfg env i items.
Proof.
  induction items as [|item rest IH]; intros i st.
  - cbn. by rewrite app_nil_r.
  - cbn [flushLoop]. rewrite IH, flushItem_outbox, (flushMessages_cons _ _ _ item rest).
    by rewrite app_assoc.
Qed.

Lemma flushMessages_dry (cfg : Config) (env : Env) items : forall i,
  DryRun cfg = true -> flushMessages cfg env i items = [].
Proof.
  induction items as [|item rest IH]; intros i Hdry; [reflexivity|].
  cbn [flushMessages]. rewrite Hdry. cbn [negb andb].
  destruct (Unmarshal _); apply IH; exact Hdry.
Qed.

Lemma flushMessages_countOk (cfg : Config) (env : Env) items : forall i,
  DryRun cfg = false ->
  countOk cfg env i items <= Z.of_nat (length (flushMessages cfg env i items)).
Proof.
  induction items as [|item rest IH]; intros i Hdry; [cbn; lia|].
  cbn [flushMessages countOk]. specialize (IH (S i) Hdry).
  unfold itemOk. rewrite Hdry. cbn [negb andb orb].
  destruct (Unmarshal (ticket_data item.2)) as [ticket|].
  - rewrite bool_decide_eq_true_2 by eauto. cbn [andb].
    destruct (flushSendOk env i); cbn [andb length].
    + destruct (flushUpdateOk env i); lia.
    + lia.
  - rewrite bool_decide_eq_false_2 by (intros [? ?]; discriminate). cbn [andb]. lia.
Qed.

Lemma sendQueuedNotifications_outbox (cfg : Config) (env : Env) (w : World) :
  outbox (sendQueuedNotifications cfg env w).1
  = outbox w ++ (if drainQueryOk env
                 then flushMessages cfg env 0 (drainQueued cfg (notifications w))
                 else []).
Proof.
  unfold sendQueuedNotifications. destruct (drainQueryOk env); cbn [negb fst].
  - destruct (_ && _); cbn [appendBurstLog outbox]; apply flushLoop_outbox.
  - by rewrite app_nil_r.
Qed.

(** *** processTicket, one ticket at a time *)

Lemma processTicket_world (cfg : Config) (env : Env) (j : nat) (ticket : Ticket)
    (b : bool) (w : World) (stats : RunStats) :
  let r := processTicket cfg env j ticket b w stats in
  clock r.1.1 = clock w /\ sleeps r.1.1 = sleeps w
  /\ business_hours_log r.1.1 = business_hours_log w
  /\ (b = false -> outbox r.1.1 = outbox w)
  /\ (DryRun cfg = true -> outbox r.1.1 = outbox w)
  /\ (exists l, outbox r.1.1 = outbox w ++ l /\ (length l <= 1)%nat
        /\ (DryRun cfg = false ->
            NotificationsSent r.1.2 - NotificationsSent stats <= Z.of_nat (length l))).
Proof.
  unfold processTicket.
  destruct (skipQueryOk env j); cbn [negb].
  2:{ cbn. repeat split; try reflexivity. exists []. rewrite app_nil_r. cbn. repeat split; lia. }
  destruct (shouldSkipTicket _ _ _ _).
  { cbn. repeat split; try reflexivity. exists []. rewrite app_nil_r. cbn. repeat split; lia. }
  destruct b.
  - destruct (DryRun cfg) eqn:Hdry; cbn [negb andb].
    + destruct (recordNotification _ _ _ _ _ _); cbn;
        (repeat split; try reflexivity; try discriminate;
         exists []; rewrite app_nil_r; cbn; repeat split; try lia; discriminate).
    + destruct (ticketSendOk env j); cbn [negb].
      * destruct (recordNotification _ _ _ _ _ _); cbn;
          (repeat split; try reflexivity; try discriminate;
           eexists [_]; cbn; repeat split; try reflexivity; lia).
      * cbn. repeat split; try reflexivity. exists []. rewrite app_nil_r. cbn. repeat split; lia.
  - destruct (recordNotification _ _ _ _ _ _); cbn;
      (repeat split; try reflexivity;
       exists []; rewrite app_nil_r; cbn; repeat split; lia).
Qed.

Lemma processTicket_stats (cfg : Config) (env : Env) (j : nat) (ticket : Ticket)
    (b : bool) (w : World) (stats : RunStats) :
  let r := processTicket cfg env j ticket b w stats in
  let stats' := if r.2 then addError r.1.2 else r.1.2 in
  TicketsChecked stats' = TicketsChecked stats
  /\ NotificationsSent stats <= NotificationsSent stats'
  /\ NotificationsQueued stats <= NotificationsQueued stats'
  /\ Errors stats <= Errors stats'
  /\ (NotificationsSent stats' - NotificationsSent stats)
     + (NotificationsQueued stats' - NotificationsQueued stats)
     + (Errors stats' - Errors stats) <= 1
  /\ (b = true -> NotificationsQueued stats' = NotificationsQueued stats)
  /\ (b = false -> NotificationsSent stats' = NotificationsSent stats)
  /\ NotificationsSent stats' = NotificationsSent r.1.2.
Proof.
  unfold processTicket.
  destruct (skipQueryOk env j); cbn [negb]; [|cbn; lia].
  destruct (shouldSkipTicket _ _ _ _); [cbn; lia|].
  destruct b.
  - destruct (negb (DryRun cfg) && negb (ticketSendOk env j)); [cbn; lia|].
    destruct (recordNotification _ _ _ _ _ _); cbn; lia.
  - destruct (recordNotification _ _ _ _ _ _); cbn; lia.
Qed.

Lemma processAll_cons (cfg : Config) (env : Env) (j : nat) (ticket : Ticket)
    (rest : list Ticket) (b : bool) (w : World) (stats : RunStats) :
  processAll cfg env j (ticket :: rest) b w stats
  = let r := processTicket cfg env j ticket b w stats in
    processAll cfg env (S j) rest b r.1.1 (if r.2 then addError r.1.2 else r.1.2).
Proof.
  cbn [processAll]. destruct (processTicket _ _ _ _ _ _ _) as [[w1 s1] e]. reflexivity.
Qed.

Lemma processAll_world (cfg : Config) (env : Env) (tickets : list Ticket) (b : bool) :
  forall j w stats,
  let r := processAll cfg env j tickets b w stats in
  clock r.1 = clock w /\ sleeps r.1 = sleeps w
  /\ business_hours_log r.1 = business_hours_log w
  /\ (b = false -> outbox r.1 = outbox w)
  /\ (DryRun cfg = true -> outbox r.1 = outbox w)
  /\ (DryRun cfg = false ->
      NotificationsSent r.2 - NotificationsSent stats
      <= Z.of_nat (length (outbox r.1)) - Z.of_nat (length (outbox w))).
Proof.
  induction tickets as [|ticket rest IH]; intros j w stats.
  - cbn. repeat split; try reflexivity. lia.
  - rewrite processAll_cons. cbv zeta.
    pose proof (processTicket_world cfg env j ticket b w stats) as Hw.
    pose proof (processTicket_stats cfg env j ticket b w stats) as Hs.
    cbv zeta in Hw, Hs.
    set (r := processTicket cfg env j ticket b w stats) in *.
    destruct Hw as (Hc & Hsl & Hl & Hb & Hd & l & Hl1 & Hl2 & Hl3).
    destruct Hs as (_ & _ & _ & _ & _ & _ & _ & Hsent).
    specialize (IH (S j) r.1.1 (if r.2 then addError r.1.2 else r.1.2)).
    cbv zeta in IH. destruct IH as (Ic & Isl & Il & Ib & Id & Ictr).
    repeat split.
    + congruence.
    + congruence.
    + congruence.
    + intros Hf. rewrite Ib, Hb by exact Hf. reflexivity.
    + intros Hf. rewrite Id, Hd by exact Hf. reflexivity.
    + intros Hf. specialize (Ictr Hf). specialize (Hl3 Hf).
      rewrite Hl1, length_app in Ictr. rewrite Hsent in Ictr. lia.
Qed.

Lemma processAll_stats (cfg : Config) (env : Env) (tickets : list Ticket) (b : bool) :
  forall j w stats,
  let stats' := (processAll cfg env j tickets b w stats).2 in
  TicketsChecked stats' = TicketsChecked stats
  /\ NotificationsSent stats <= NotificationsSent stats'
  /\ NotificationsQueued stats <= NotificationsQueued stats'
  /\ Errors stats <= Errors stats'
  /\ (NotificationsSent stats' - NotificationsSent stats)
     + (NotificationsQueued stats' - NotificationsQueued stats)
     + (Errors stats' - Errors stats) <= Z.of_nat (length tickets)
  /\ (b = true -> NotificationsQueued stats' = NotificationsQueued stats)
  /\ (b = false -> NotificationsSent stats' = NotificationsSent stats).
Proof.
  induction tickets as [|ticket rest IH]; intros j w stats.
  - cbn. lia.
  - rewrite processAll_cons. cbv zeta.
    pose proof (processTicket_stats cfg env j ticket b w stats) as Hs.
    cbv zeta in Hs.
    set (r := processTicket cfg env j ticket b w stats) in *.
    specialize (IH (S j) r.1.1 (if r.2 then addError r.1.2 else r.1.2)).
    cbv zeta in IH.
    destruct Hs as (H1 & H2 & H3 & H4 & H5 & H6 & H7 & _).
    destruct IH as (I1 & I2 & I3 & I4 & I5 & I6 & I7).
    cbn [length]. repeat split; try lia.
    + intros Hb. rewrite I6, H6 by exact Hb. reflexivity.
    + intros Hb. rewrite I7, H7 by exact Hb. reflexivity.
Qed.

(** *** Run *)

Lemma Run_unfold (cfg : Config) (bh : BusinessHours) (env : Env) (w : World) :
  Run cfg bh env w
  = let f := runFlush cfg bh env w zeroStats in
    match fetchOpen env with
    | None => (f.1, f.2, true)
    | Some openTickets =>
        let stats2 := addChecked f.2 (Z.of_nat (length openTickets)) in
        match fetchPending env with
        | None => (f.1, stats2, true)
        | Some pendingTickets =>
            let stats3 := addChecked stats2 (Z.of_nat (length pendingTickets)) in
            let p := processAll cfg env 0 (openTickets ++ pendingTickets)
                       (IsBusinessHours bh (clock w)) f.1 stats3 in
            (p.1, p.2, false)
        end
    end.
Proof.
  unfold Run. destruct (runFlush cfg bh env w zeroStats) as [w1 s1]. cbn [fst snd].
  destruct (fetchOpen env); [|reflexivity].
  destruct (fetchPending env); [|reflexivity].
  destruct (processAll _ _ _ _ _ _ _). reflexivity.
Qed.

Lemma runFlush_off (cfg : Config) (bh : BusinessHours) (env : Env) (w : World)
    (stats : RunStats) :
  IsStartOfBusinessDay bh (clock w) = false -> runFlush cfg bh env w stats = (w, stats).
Proof. intros H. unfold runFlush. rewrite H. reflexivity. Qed.

Lemma runFlush_stats (cfg : Config) (bh : BusinessHours) (env : Env) (w : World)
    (stats : RunStats) :
  let f := runFlush cfg bh env w stats in
  TicketsChecked f.2 = TicketsChecked stats
  /\ NotificationsQueued f.2 = NotificationsQueued stats
  /\ NotificationsSent stats <= NotificationsSent f.2
  /\ Errors stats <= Errors f.2
  /\ (DryRun cfg = true -> outbox f.1 = outbox w)
  /\ (DryRun cfg = false ->
      NotificationsSent f.2 - NotificationsSent stats
      <= Z.of_nat (length (outbox f.1)) - Z.of_nat (length (outbox w))).
Proof.
  unfold runFlush. destruct (IsStartOfBusinessDay bh (clock w)).
  2:{ cbn. repeat split; try reflexivity; lia. }
  pose proof (sendQueuedNotifications_outbox cfg env w) as Hout.
  unfold sendQueuedNotifications in *.
  destruct (drainQueryOk env); cbn [negb fst snd] in *.
  - set (items := drainQueued cfg (notifications w)) in *.
    set (st := flushLoop cfg env 0 items _) in *.
    pose proof (flushLoop_sent cfg env items 0 {| fs_world := w; fs_sent := 0 |}) as Hsent.
    fold st in Hsent. cbn [fs_sent] in Hsent.
    pose proof (countOk_bounds cfg env items 0) as Hb.
    cbn [TicketsChecked NotificationsQueued NotificationsSent Errors addSent].
    repeat split; try reflexivity; try lia.
    + intros Hdry. rewrite Hout, flushMessages_dry by exact Hdry. by rewrite app_nil_r.
    + intros Hdry. rewrite Hout, length_app.
      pose proof (flushMessages_countOk cfg env items 0 Hdry). lia.
  - cbn. repeat split; try reflexivity; lia.
Qed.

Lemma IsStartOfBusinessDay_outside (bh : BusinessHours) (t : Time) :
  IsBusinessHours bh t = false -> IsStartOfBusinessDay bh t = false.
Proof.
  intros Hb. destruct (IsStartOfBusinessDay bh t) eqn:E; [|reflexivity].
  apply IsStartOfBusinessDay_business in E. congruence.
Qed.

Lemma Run_quiet (cfg : Config) (bh : BusinessHours) (env : Env) (w : World) :
  IsBusinessHours bh (clock w) = false ->
  outbox (Run cfg bh env w).1.1 = outbox w
  /\ NotificationsSent (Run cfg bh env w).1.2 = 0.
Proof.
  intros Hb. rewrite Run_unfold.
  rewrite runFlush_off by (apply IsStartOfBusinessDay_outside; exact Hb).
  rewrite Hb. cbv zeta. cbn [fst snd].
  destruct (fetchOpen env) as [o|]; [|split; reflexivity].
  destruct (fetchPending env) as [p|]; [|split; reflexivity].
  cbn [fst snd].
  match goal with |- context [processAll ?c ?e ?j ?l ?b ?w0 ?s] =>
    pose proof (processAll_world c e l b j w0 s) as Hw;
    pose proof (processAll_stats c e l b j w0 s) as Hst end.
  cbv zeta in Hw, Hst.
  destruct Hw as (_ & _ & _ & Ho & _). destruct Hst as (_ & _ & _ & _ & _ & _ & H7).
  split; [exact (Ho eq_refl)|]. rewrite (H7 eq_refl). reflexivity.
Qed.

(** X1: outside business hours a run posts nothing and does not pause: it only
    queues. *)
Theorem Run_outside_business_hours (cfg : Config) (bh : BusinessHours) (env : Env)
    (w : World) :
  IsBusinessHours bh (clock w) = false ->
  let w' := (Run cfg bh env w).1.1 in
  let stats := (Run cfg bh env w).1.2 in
  outbox w' = outbox w /\ sleeps w' = sleeps w /\ clock w' = clock w
  /\ business_hours_log w' = business_hours_log w
  /\ NotificationsSent stats = 0
  /\ NotificationsQueued stats + Errors stats <= TicketsChecked stats.
Proof.
  intros Hb. cbv zeta. rewrite Run_unfold.
  assert (Hs : IsStartOfBusinessDay bh (clock w) = false).
  { destruct (IsStartOfBusinessDay bh (clock w)) eqn:E; [|reflexivity].
    apply IsStartOfBusinessDay_business in E. congruence. }
  rewrite runFlush_off by exact Hs. rewrite Hb. cbv zeta. cbn [fst snd].
  destruct (fetchOpen env) as [o|]; [|cbn; repeat split; try reflexivity; lia].
  destruct (fetchPending env) as [p|].
  2:{ cbn. repeat split; try reflexivity; lia. }
  cbn [fst snd].
  set (s3 := addChecked _ _).
  pose proof (processAll_world cfg env (o ++ p) false 0 w s3) as Hw.
  pose proof (processAll_stats cfg env (o ++ p) false 0 w s3) as Hst.
  cbv zeta in Hw, Hst.
  destruct Hw as (Hc & Hsl & Hl & Ho & _).
  destruct Hst as (H1 & H2 & H3 & H4 & H5 & _ & H7).
  rewrite (H7 eq_refl) in *. rewrite H1.
  repeat split; auto.
  subst s3. cbn in *. rewrite length_app in H5. lia.
Qed.

(** X1, at the sample data. *)
Lemma Run_outside_business_hours_witness :
  IsBusinessHours sampleHours (clock (emptyWorld sundayNight)) = false
  /\ (let w' := (Run sampleConfig sampleHours ticketEnv (emptyWorld sundayNight)).1.1 in
      let stats := (Run sampleConfig sampleHours ticketEnv (emptyWorld sundayNight)).1.2 in
      outbox w' = outbox (emptyWorld sundayNight)
      /\ sleeps w' = sleeps (emptyWorld sundayNight)
      /\ clock w' = clock (emptyWorld sundayNight)
      /\ business_hours_log w' = business_hours_log (emptyWorld sundayNight)
      /\ NotificationsSent stats = 0
      /\ NotificationsQueued stats + Errors stats <= TicketsChecked stats).
Proof.
  split; [vm_compute; reflexivity|].
  apply (Run_outside_business_hours sampleConfig sampleHours ticketEnv
           (emptyWorld sundayNight)).
  vm_compute; reflexivity.
Defined.

(** *** A flush item whose update fails *)

Lemma flushMessages_elem (cfg : Config) (env : Env) items : forall i j item ticket,
  items !! j = Some item ->
  Unmarshal (ticket_data item.2) = Some ticket ->
  DryRun cfg = false ->
  flushSendOk env (i + j) = true ->
  formatSlackMessage cfg ticket ∈ flushMessages cfg env i items.
Proof.
  induction items as [|it rest IH]; intros i j item ticket Hj Hp Hdry Hs; [discriminate|].
  rewrite flushMessages_cons. apply elem_of_app.
  destruct j as [|j]; cbn in Hj.
  - injection Hj as ->. left. rewrite Nat.add_0_r in Hs.
    cbn [flushMessages]. rewrite Hp, Hdry, Hs. cbn [negb andb]. apply list_elem_of_here.
  - right. apply (IH (S i) j item ticket Hj Hp Hdry).
    replace (S i + j)%nat with (i + S j)%nat by lia. exact Hs.
Qed.

(** X9: when the message of a drained item is posted and the update of its row
    then fails, the message is among those of the flush, the row is left as
    it was, still queued, and the item is not counted; a later flush whose
    limit does not cut the row off, and whose sends go through, posts the
    message of the same ticket again. *)
Theorem flush_update_failure_reposts (cfg : Config) (env : Env) (w : World)
    (i : nat) (k : Z * string) (row : Notification) (ticket : Ticket) :
  DryRun cfg = false ->
  drainQueryOk env = true ->
  drainQueued cfg (notifications w) !! i = Some (k, row) ->
  Unmarshal (ticket_data row) = Some ticket ->
  flushSendOk env i = true ->
  flushUpdateOk env i = false ->
  let batch := drainQueued cfg (notifications w) in
  let w' := (sendQueuedNotifications cfg env w).1 in
  outbox w' = outbox w ++ flushMessages cfg env 0 batch
  /\ formatSlackMessage cfg ticket ∈ flushMessages cfg env 0 batch
  /\ notifications w' !! k = Some row
  /\ notification_status row = "queued"
  /\ (sendQueuedNotifications cfg env w).2 = Some (countOk cfg env 0 batch)
  /\ countOk cfg env 0 batch <= Z.of_nat (length batch) - 1
  /\ (forall cfg' env' w2,
        notifications w2 = notifications w' ->
        DryRun cfg' = false ->
        drainQueryOk env' = true ->
        (forall j, flushSendOk env' j = true) ->
        MaxNotifications cfg' < 0
        \/ Z.of_nat (length (queuedOrdered (notifications w2))) <= MaxNotifications cfg' ->
        exists again,
          outbox (sendQueuedNotifications cfg' env' w2).1 = outbox w2 ++ again
          /\ formatSlackMessage cfg' ticket ∈ again).
Proof.
  intros Hdry Hq Hi Hp Hs Hu batch w'.
  assert (Hok : itemOk cfg env i (k, row) = false).
  { unfold itemOk. rewrite Hu. apply andb_false_r. }
  assert (Hrow : notifications w' !! k = Some row)
    by (apply (flush_failed_item_row cfg env w i (k, row)); assumption).
  assert (Hst : notification_status row = "queued").
  { apply (elem_of_drainQueued cfg (notifications w) k row).
    apply list_elem_of_lookup. eauto. }
  destruct (sendQueuedNotifications_ok cfg env w Hq) as (Hr & _ & _).
  rewrite flushLoop_sent in Hr. simpl in Hr.
  split.
  { subst w'. rewrite sendQueuedNotifications_outbox, Hq. reflexivity. }
  split.
  { apply (flushMessages_elem cfg env batch 0 i (k, row) ticket); assumption. }
  split; [exact Hrow|]. split; [exact Hst|]. split; [exact Hr|].
  split.
  { apply (countOk_item_false cfg env batch 0 i (k, row)); assumption. }
  intros cfg' env' w2 Hdb Hdry' Hq' Hs' Hmax.
  exists (flushMessages cfg' env' 0 (drainQueued cfg' (notifications w2))).
  split.
  { rewrite sendQueuedNotifications_outbox, Hq'. reflexivity. }
  assert (Hin : (k, row) ∈ drainQueued cfg' (notifications w2)).
  { apply drainQueued_all; [exact Hmax| |exact Hst]. rewrite Hdb. exact Hrow. }
  apply list_elem_of_lookup in Hin as [j Hj].
  apply (flushMessages_elem cfg' env' _ 0 j (k, row) ticket); auto.
Qed.

(** X9, at the sample data. *)
Lemma flush_update_failure_reposts_witness :
  let row := default (insertedRow sampleConfig 0 sampleTicket "" "")
               (queuedStore !! sampleKey) in
  let ticket := default sampleTicket (Unmarshal (ticket_data row)) in
  DryRun sampleConfig = false
  /\ drainQueryOk updateFailsEnv = true
  /\ drainQueued sampleConfig (notifications mondayWorld) !! 0%nat = Some (sampleKey, row)
  /\ Unmarshal (ticket_data row) = Some ticket
  /\ flushSendOk updateFailsEnv 0 = true
  /\ flushUpdateOk updateFailsEnv 0 = false
  /\ (let batch := drainQueued sampleConfig (notifications mondayWorld) in
      let w' := (sendQueuedNotifications sampleConfig updateFailsEnv mondayWorld).1 in
      outbox w' = outbox mondayWorld ++ flushMessages sampleConfig updateFailsEnv 0 batch
      /\ formatSlackMessage sampleConfig ticket
         ∈ flushMessages sampleConfig updateFailsEnv 0 batch
      /\ notifications w' !! sampleKey = Some row
      /\ notification_status row = "queued"
      /\ (sendQueuedNotifications sampleConfig updateFailsEnv mondayWorld).2
         = Some (countOk sampleConfig updateFailsEnv 0 batch)
      /\ countOk sampleConfig updateFailsEnv 0 batch <= Z.of_nat (length batch) - 1
      /\ (forall cfg' env' w2,
            notifications w2 = notifications w' ->
            DryRun cfg' = false ->
            drainQueryOk env' = true ->
            (forall j, flushSendOk env' j = true) ->
            MaxNotifications cfg' < 0
            \/ Z.of_nat (length (queuedOrdered (notifications w2))) <= MaxNotifications cfg' ->
            exists again,
              outbox (sendQueuedNotifications cfg' env' w2).1 = outbox w2 ++ again
              /\ formatSlackMessage cfg' ticket ∈ again)).
Proof.
  cbv zeta.
  assert (H3 : drainQueued sampleConfig (notifications mondayWorld) !! 0%nat
               = Some (sampleKey, default (insertedRow sampleConfig 0 sampleTicket "" "")
                                    (queuedStore !! sampleKey)))
    by (vm_compute; reflexivity).
  assert (H4 : Unmarshal (ticket_data
                 (default (insertedRow sampleConfig 0 sampleTicket "" "")
                    (queuedStore !! sampleKey)))
               = Some (default sampleTicket
                         (Unmarshal (ticket_data
                            (default (insertedRow sampleConfig 0 sampleTicket "" "")
                               (queuedStore !! sampleKey))))))
    by (vm_compute; reflexivity).
  split; [reflexivity|]. split; [reflexivity|]. split; [exact H3|].
  split; [exact H4|]. split; [reflexivity|]. split; [reflexivity|].
  exact (flush_update_failure_reposts sampleConfig updateFailsEnv mondayWorld 0 _ _ _
           eq_refl eq_refl H3 H4 eq_refl eq_refl).
Defined.

(** *** Dry runs *)

(** X2: a dry run posts nothing, neither in the flush nor for the fetched
    tickets. *)
Theorem Run_dry_run (cfg : Config) (bh : BusinessHours) (env : Env) (w : World) :
  DryRun cfg = true ->
  outbox (Run cfg bh env w).1.1 = outbox w.
Proof.
  intros Hdry. rewrite Run_unfold. cbv zeta.
  pose proof (runFlush_stats cfg bh env w zeroStats) as Hf. cbv zeta in Hf.
  destruct Hf as (_ & _ & _ & _ & Hout & _). specialize (Hout Hdry).
  destruct (fetchOpen env) as [o|]; [|exact Hout].
  destruct (fetchPending env) as [p|]; [|exact Hout].
  cbn [fst snd].
  match goal with |- outbox (processAll ?c ?e ?j ?l ?b ?w0 ?s).1 = _ =>
    pose proof (processAll_world c e l b j w0 s) as Hw end.
  cbv zeta in Hw. destruct Hw as (_ & _ & _ & _ & Hd & _).
  rewrite (Hd Hdry). exact Hout.
Qed.

(** X2, at the sample data. *)
Lemma Run_dry_run_witness :
  DryRun dryConfig = true
  /\ outbox (Run dryConfig sampleHours ticketEnv mondayWorld).1.1 = outbox mondayWorld.
Proof.
  split; [reflexivity|].
  apply (Run_dry_run dryConfig sampleHours ticketEnv mondayWorld). reflexivity.
Defined.

(** X3: the flush of a dry run posts nothing, and still marks as sent every
    drained row whose ticket parses and whose update is accepted. *)
Theorem flush_dry_run_marks_sent (cfg : Config) (env : Env) (w : World)
    (i : nat) (item : Key * Notification) :
  DryRun cfg = true ->
  drainQueryOk env = true ->
  drainQueued cfg (notifications w) !! i = Some item ->
  is_Some (Unmarshal (ticket_data item.2)) ->
  flushUpdateOk env i = true ->
  let w' := (sendQueuedNotifications cfg env w).1 in
  outbox w' = outbox w
  /\ notification_status item.2 = "queued"
  /\ exists row', notifications w' !! item.1 = Some row'
       /\ notification_status row' = "sent" /\ is_Some (sent_at row').
Proof.
  intros Hdry Hq Hi Hparse Hupd. cbv zeta.
  split.
  { rewrite sendQueuedNotifications_outbox, Hq, flushMessages_dry by exact Hdry.
    by rewrite app_nil_r. }
  assert (Hrow : notifications w !! item.1 = Some item.2
                 /\ notification_status item.2 = "queued").
  { apply (elem_of_drainQueued cfg). destruct item; cbn.
    apply list_elem_of_lookup. eauto. }
  destruct Hrow as [Hrow Hst]. split; [exact Hst|].
  destruct (sendQueuedNotifications_ok cfg env w Hq) as (_ & Hdb & _).
  rewrite Hdb.
  assert (Hok : itemOk cfg env (0 + i) item = true).
  { unfold itemOk. cbn [Nat.add].
    rewrite Hdry, Hupd, bool_decide_eq_true_2 by exact Hparse. reflexivity. }
  destruct (flushLoop_marks cfg env _ 0 {| fs_world := w; fs_sent := 0 |}
              i item item.2 Hi Hok Hrow) as (row' & Hl & Hs & Hsent & _).
  eauto.
Qed.

(** X3, at the sample data. *)
Lemma flush_dry_run_marks_sent_witness :
  let row := default (insertedRow sampleConfig 0 sampleTicket "" "")
               (queuedStore !! sampleKey) in
  DryRun dryConfig = true
  /\ drainQueryOk okEnv = true
  /\ drainQueued dryConfig (notifications mondayWorld) !! 0%nat = Some (sampleKey, row)
  /\ is_Some (Unmarshal (ticket_data row))
  /\ flushUpdateOk okEnv 0 = true
  /\ (let w' := (sendQueuedNotifications dryConfig okEnv mondayWorld).1 in
      outbox w' = outbox mondayWorld
      /\ notification_status row = "queued"
      /\ exists row', notifications w' !! sampleKey = Some row'
           /\ notification_status row' = "sent" /\ is_Some (sent_at row')).
Proof.
  cbv zeta.
  assert (H3 : drainQueued dryConfig (notifications mondayWorld) !! 0%nat
               = Some (sampleKey, default (insertedRow sampleConfig 0 sampleTicket "" "")
                                    (queuedStore !! sampleKey)))
    by (vm_compute; reflexivity).
  assert (H4 : is_Some (Unmarshal (ticket_data
                 (default (insertedRow sampleConfig 0 sampleTicket "" "")
                    (queuedStore !! sampleKey)))))
    by (vm_compute; eexists; reflexivity).
  split; [reflexivity|]. split; [reflexivity|]. split; [exact H3|].
  split; [exact H4|]. split; [reflexivity|].
  exact (flush_dry_run_marks_sent dryConfig okEnv mondayWorld 0 _ eq_refl eq_refl H3 H4 eq_refl).
Defined.

(** *** Counters *)

(** X4: the counters of a run that fetched its tickets: every fetched ticket is
    counted as checked, and adds at most one to the sent, queued and error
    counters taken together. *)
Theorem Run_counters (cfg : Config) (bh : BusinessHours) (env : Env) (w : World)
    (openTickets pendingTickets : list Ticket) :
  fetchOpen env = Some openTickets ->
  fetchPending env = Some pendingTickets ->
  let stats := (Run cfg bh env w).1.2 in
  let flush := (runFlush cfg bh env w zeroStats).2 in
  (Run cfg bh env w).2 = false
  /\ TicketsChecked stats = Z.of_nat (length openTickets) + Z.of_nat (length pendingTickets)
  /\ NotificationsSent flush <= NotificationsSent stats
  /\ 0 <= NotificationsQueued stats
  /\ Errors flush <= Errors stats
  /\ (NotificationsSent stats - NotificationsSent flush)
     + NotificationsQueued stats + (Errors stats - Errors flush)
     <= TicketsChecked stats
  /\ (IsBusinessHours bh (clock w) = true -> NotificationsQueued stats = 0)
  /\ (IsBusinessHours bh (clock w) = false -> NotificationsSent stats = 0).
Proof.
  intros Ho Hp. cbv zeta. rewrite Run_unfold. cbv zeta. rewrite Ho, Hp. cbn [fst snd].
  pose proof (runFlush_stats cfg bh env w zeroStats) as Hf. cbv zeta in Hf.
  destruct Hf as (F1 & F2 & F3 & F4 & _).
  set (f := runFlush cfg bh env w zeroStats) in *.
  set (s3 := addChecked _ _).
  pose proof (processAll_stats cfg env (openTickets ++ pendingTickets)
                (IsBusinessHours bh (clock w)) 0 f.1 s3) as Hst.
  cbv zeta in Hst. destruct Hst as (H1 & H2 & H3 & H4 & H5 & H6 & H7).
  rewrite length_app in H5.
  assert (Hs3 : TicketsChecked s3
                = Z.of_nat (length openTickets) + Z.of_nat (length pendingTickets)
                /\ NotificationsSent s3 = NotificationsSent f.2
                /\ NotificationsQueued s3 = 0 /\ Errors s3 = Errors f.2).
  { subst s3. cbn. cbn in F1, F2. lia. }
  destruct Hs3 as (S1 & S2 & S3 & S4).
  split; [reflexivity|]. repeat split; try lia.
  - intros Hb. rewrite (H6 Hb). exact S3.
  - intros Hb. rewrite (H7 Hb), S2.
    assert (Hs : IsStartOfBusinessDay bh (clock w) = false).
    { destruct (IsStartOfBusinessDay bh (clock w)) eqn:E; [|reflexivity].
      apply IsStartOfBusinessDay_business in E. congruence. }
    subst f. rewrite runFlush_off by exact Hs. reflexivity.
Qed.

(** X4, at the sample data. *)
Lemma Run_counters_witness :
  fetchOpen ticketEnv = Some [sampleTicket]
  /\ fetchPending ticketEnv = Some []
  /\ (let stats := (Run sampleConfig sampleHours ticketEnv mondayWorld).1.2 in
      let flush := (runFlush sampleConfig sampleHours ticketEnv mondayWorld zeroStats).2 in
      (Run sampleConfig sampleHours ticketEnv mondayWorld).2 = false
      /\ TicketsChecked stats
         = Z.of_nat (length [sampleTicket]) + Z.of_nat (length (@nil Ticket))
      /\ NotificationsSent flush <= NotificationsSent stats
      /\ 0 <= NotificationsQueued stats
      /\ Errors flush <= Errors stats
      /\ (NotificationsSent stats - NotificationsSent flush)
         + NotificationsQueued stats + (Errors stats - Errors flush)
         <= TicketsChecked stats
      /\ (IsBusinessHours sampleHours (clock mondayWorld) = true ->
          NotificationsQueued stats = 0)
      /\ (IsBusinessHours sampleHours (clock mondayWorld) = false ->
          NotificationsSent stats = 0)).
Proof.
  split; [reflexivity|]. split; [reflexivity|].
  apply (Run_counters sampleConfig sampleHours ticketEnv mondayWorld); reflexivity.
Defined.

(** X5: outside a dry run every notification counted as sent was accepted by the
    webhook. *)
Theorem Run_sent_were_posted (cfg : Config) (bh : BusinessHours) (env : Env) (w : World) :
  DryRun cfg = false ->
  let w' := (Run cfg bh env w).1.1 in
  let stats := (Run cfg bh env w).1.2 in
  NotificationsSent stats <= Z.of_nat (length (outbox w')) - Z.of_nat (length (outbox w)).
Proof.
  intros Hdry. cbv zeta. rewrite Run_unfold. cbv zeta.
  pose proof (runFlush_stats cfg bh env w zeroStats) as Hf. cbv zeta in Hf.
  destruct Hf as (_ & _ & _ & _ & _ & Hout). specialize (Hout Hdry).
  cbn [NotificationsSent zeroStats] in Hout.
  destruct (fetchOpen env) as [o|]; [|cbn [fst snd]; lia].
  destruct (fetchPending env) as [p|]; [|cbn [fst snd addChecked NotificationsSent]; lia].
  cbn [fst snd].
  match goal with |- context [processAll ?c ?e ?j ?l ?b ?w0 ?s] =>
    pose proof (processAll_world c e l b j w0 s) as Hw end.
  cbv zeta in Hw. destruct Hw as (_ & _ & _ & _ & _ & Hd). specialize (Hd Hdry).
  cbn [addChecked NotificationsSent] in Hd. lia.
Qed.

(** X5, at the sample data. *)
Lemma Run_sent_were_posted_witness :
  DryRun sampleConfig = false
  /\ (let w' := (Run sampleConfig sampleHours ticketEnv mondayWorld).1.1 in
      let stats := (Run sampleConfig sampleHours ticketEnv mondayWorld).1.2 in
      NotificationsSent stats
      <= Z.of_nat (length (outbox w')) - Z.of_nat (length (outbox mondayWorld))).
Proof.
  split; [reflexivity|].
  apply (Run_sent_were_posted sampleConfig sampleHours ticketEnv mondayWorld). reflexivity.
Defined.

(** *** Which rows a run touches *)

Lemma recordNotification_frame (cfg : Config) (now : Time) (execOk : bool)
    (db db' : gmap (Z * string) Notification) (ticket : Ticket) (status : string)
    (k : Z * string) :
  recordNotification cfg now execOk db ticket status = Some db' ->
  k <> ticketKey ticket -> db' !! k = db !! k.
Proof.
  unfold recordNotification, ticketKey. intros Hrec Hk.
  destruct (Marshal ticket) as [js|]; [|discriminate]. cbn in Hrec.
  destruct execOk; [|discriminate]. cbn in Hrec.
  destruct (db !! (ID ticket, NotificationType ticket)) as [old|].
  - destruct (updateGuard cfg now old); injection Hrec as <-;
      [rewrite lookup_insert_ne by congruence|]; reflexivity.
  - injection Hrec as <-. rewrite lookup_insert_ne by congruence. reflexivity.
Qed.

Lemma processTicket_frame (cfg : Config) (env : Env) (j : nat) (ticket : Ticket)
    (b : bool) (w : World) (stats : RunStats) (k : Z * string) :
  k <> ticketKey ticket ->
  notifications (processTicket cfg env j ticket b w stats).1.1 !! k = notifications w !! k.
Proof.
  intros Hk. unfold processTicket.
  destruct (skipQueryOk env j); [|reflexivity]. cbn [negb].
  destruct (shouldSkipTicket _ _ _ _); [reflexivity|].
  destruct b.
  - destruct (negb (DryRun cfg) && negb (ticketSendOk env j)); [reflexivity|].
    destruct (recordNotification _ _ _ _ _ _) as [db'|] eqn:Hrec.
    + cbn. rewrite (recordNotification_frame _ _ _ _ _ _ _ _ Hrec Hk).
      destruct (DryRun cfg); reflexivity.
    + cbn. destruct (DryRun cfg); reflexivity.
  - destruct (recordNotification _ _ _ _ _ _) as [db'|] eqn:Hrec; [|reflexivity].
    cbn. apply (recordNotification_frame _ _ _ _ _ _ _ _ Hrec Hk).
Qed.

Lemma processAll_frame (cfg : Config) (env : Env) (tickets : list Ticket) (b : bool)
    (k : Z * string) : forall j w stats,
  (forall t, t ∈ tickets -> ticketKey t <> k) ->
  notifications (processAll cfg env j tickets b w stats).1 !! k = notifications w !! k.
Proof.
  induction tickets as [|ticket rest IH]; intros j w stats Hk; [reflexivity|].
  rewrite processAll_cons. cbv zeta. rewrite IH.
  - apply processTicket_frame. intros ->. by apply (Hk ticket); [left|].
  - intros t Ht. apply Hk. by right.
Qed.

Lemma sendQueuedNotifications_frame (cfg : Config) (env : Env) (w : World)
    (k : Z * string) :
  (forall row, notifications w !! k = Some row -> notification_status row <> "queued") ->
  notifications (sendQueuedNotifications cfg env w).1 !! k = notifications w !! k.
Proof.
  intros Hk. destruct (drainQueryOk env) eqn:Hq.
  - destruct (sendQueuedNotifications_ok cfg env w Hq) as (_ & Hdb & _).
    rewrite Hdb. apply flushLoop_untouched.
    intros j item Hj Hitem. exfalso.
    assert (Hin : (item.1, item.2) ∈ drainQueued cfg (notifications w)).
    { destruct item. apply list_elem_of_lookup. eauto. }
    apply elem_of_drainQueued in Hin as [Hrow Hst]. cbn [fs_world] in Hk.
    rewrite Hitem in Hrow. exact (Hk _ Hrow Hst).
  - unfold sendQueuedNotifications. rewrite Hq. reflexivity.
Qed.

(** X6: a run changes no row but those of the queued notifications and of the
    fetched tickets. *)
Theorem Run_frame (cfg : Config) (bh : BusinessHours) (env : Env) (w : World)
    (k : Z * string) :
  (forall row, notifications w !! k = Some row -> notification_status row <> "queued") ->
  (forall t, t ∈ default [] (fetchOpen env) ++ default [] (fetchPending env) ->
     ticketKey t <> k) ->
  notifications (Run cfg bh env w).1.1 !! k = notifications w !! k.
Proof.
  intros Hq Hk. rewrite Run_unfold. cbv zeta.
  assert (Hf : notifications (runFlush cfg bh env w zeroStats).1 !! k = notifications w !! k).
  { unfold runFlush. destruct (IsStartOfBusinessDay bh (clock w)); [|reflexivity].
    pose proof (sendQueuedNotifications_frame cfg env w k Hq) as H.
    destruct (sendQueuedNotifications cfg env w) as [w1 [n|]]; exact H. }
  destruct (fetchOpen env) as [o|]; [|exact Hf].
  destruct (fetchPending env) as [p|]; [|exact Hf].
  cbn [fst snd]. rewrite processAll_frame; [exact Hf|exact Hk].
Qed.

(** X6, at the sample data. *)
Lemma Run_frame_witness :
  let k : Z * string := (99, OpenNoAgentResponse) in
  (forall row, notifications mondayWorld !! k = Some row ->
     notification_status row <> "queued")
  /\ (forall t, t ∈ default [] (fetchOpen ticketEnv) ++ default [] (fetchPending ticketEnv) ->
        ticketKey t <> k)
  /\ notifications (Run sampleConfig sampleHours ticketEnv mondayWorld).1.1 !! k
     = notifications mondayWorld !! k.
Proof.
  cbv zeta.
  assert (H1 : forall row, notifications mondayWorld !! (99, OpenNoAgentResponse) = Some row ->
                 notification_status row <> "queued").
  { intros row Hrow. exfalso. revert Hrow.
    replace (notifications mondayWorld !! (99, OpenNoAgentResponse)) with (@None Notification)
      by (vm_compute; reflexivity).
    discriminate. }
  assert (H2 : forall t,
             t ∈ default [] (fetchOpen ticketEnv) ++ default [] (fetchPending ticketEnv) ->
             ticketKey t <> (99, OpenNoAgentResponse)).
  { intros t Ht. cbn in Ht. apply list_elem_of_singleton in Ht as ->. discriminate. }
  split; [exact H1|]. split; [exact H2|].
  exact (Run_frame sampleConfig sampleHours ticketEnv mondayWorld _ H1 H2).
Defined.

(** *** A recorded ticket is skipped *)

(** X7: once a decision is recorded the ticket is skipped: always while it is
    queued, and until the cooldown is over once it is sent. *)
Theorem recordNotification_then_skip (cfg : Config) (now : Time) (execOk : bool)
    (db db' : gmap (Z * string) Notification) (ticket : Ticket) (status : string) :
  recordNotification cfg now execOk db ticket status = Some db' ->
  (db !! ticketKey ticket = None
   \/ exists old, db !! ticketKey ticket = Some old /\ updateGuard cfg now old = true) ->
  (status = StatusQueued ->
     forall (cfg' : Config) (now' : Time), shouldSkipTicket cfg' now' db' ticket = true)
  /\ (status = StatusSent ->
      (forall now' : Time, now' < CURRENT_TIMESTAMP now + CooldownPeriod cfg ->
         shouldSkipTicket cfg now' db' ticket = true)
      /\ (forall now' : Time, now + CooldownPeriod cfg <= now' ->
         shouldSkipTicket cfg now' db' ticket = false)).
Proof.
  unfold recordNotification, ticketKey. intros Hrec Hold.
  destruct (Marshal ticket) as [js|]; [|discriminate]. cbn in Hrec.
  destruct execOk; [|discriminate]. cbn in Hrec.
  pose proof (CURRENT_TIMESTAMP_bounds now) as [Hct _].
  assert (Hrow : exists row, db' = <[(ID ticket, NotificationType ticket) := row]> db
            /\ notification_status row = status
            /\ (status = StatusSent ->
                exists s, sent_at row = Some s /\ CURRENT_TIMESTAMP now <= s <= now)).
  { destruct Hold as [Hnone|(old & Hsome & Hg)].
    - rewrite Hnone in Hrec. injection Hrec as <-. eexists. split; [reflexivity|].
      split; [reflexivity|]. intros ->. cbn. exists now. split; [reflexivity|lia].
    - rewrite Hsome, Hg in Hrec. injection Hrec as <-. eexists. split; [reflexivity|].
      split; [reflexivity|]. intros ->. cbn. eexists. split; [reflexivity|lia]. }
  destruct Hrow as (row & -> & Hst & Hsent).
  split.
  - intros -> cfg' now'. unfold shouldSkipTicket. rewrite lookup_insert_eq, Hst.
    reflexivity.
  - intros ->. destruct (Hsent eq_refl) as (s & Hs & Hb). split.
    + intros now' Hn. unfold shouldSkipTicket. rewrite lookup_insert_eq, Hst, Hs.
      cbn. unfold Time_Before, Time_Add.
      destruct (now' <? s + CooldownPeriod cfg) eqn:E; [reflexivity|].
      apply Z.ltb_ge in E. lia.
    + intros now' Hn. unfold shouldSkipTicket. rewrite lookup_insert_eq, Hst, Hs.
      cbn. unfold Time_Before, Time_Add.
      destruct (now' <? s + CooldownPeriod cfg) eqn:E; [|reflexivity].
      apply Z.ltb_lt in E. lia.
Qed.

(** X7, at the sample data. *)
Lemma recordNotification_then_skip_witness :
  recordNotification sampleConfig mondayTen true ∅ sampleTicket StatusSent
  = Some (sentStore mondayTen)
  /\ ((∅ : gmap (Z * string) Notification) !! ticketKey sampleTicket = None
      \/ exists old, (∅ : gmap (Z * string) Notification) !! ticketKey sampleTicket = Some old
           /\ updateGuard sampleConfig mondayTen old = true)
  /\ (StatusSent = StatusQueued ->
        forall (cfg' : Config) (now' : Time),
          shouldSkipTicket cfg' now' (sentStore mondayTen) sampleTicket = true)
  /\ (StatusSent = StatusSent ->
      (forall now' : Time,
         now' < CURRENT_TIMESTAMP mondayTen + CooldownPeriod sampleConfig ->
         shouldSkipTicket sampleConfig now' (sentStore mondayTen) sampleTicket = true)
      /\ (forall now' : Time, mondayTen + CooldownPeriod sampleConfig <= now' ->
         shouldSkipTicket sampleConfig now' (sentStore mondayTen) sampleTicket = false)).
Proof.
  assert (H2 : (∅ : gmap (Z * string) Notification) !! ticketKey sampleTicket = None
      \/ exists old, (∅ : gmap (Z * string) Notification) !! ticketKey sampleTicket = Some old
           /\ updateGuard sampleConfig mondayTen old = true)
    by (left; apply lookup_empty).
  split; [apply recordNotification_sample_sent|]. split; [exact H2|].
  exact (recordNotification_then_skip sampleConfig mondayTen true ∅ (sentStore mondayTen)
           sampleTicket StatusSent (recordNotification_sample_sent mondayTen) H2).
Defined.

(** *** The tickets of a run are not capped *)

Lemma processTicket_new (cfg : Config) (env : Env) (j : nat) (ticket : Ticket)
    (w : World) (stats : RunStats) (js : string) :
  DryRun cfg = false ->
  notifications w !! ticketKey ticket = None ->
  Marshal ticket = Some js ->
  skipQueryOk env j = true -> ticketSendOk env j = true -> recordExecOk env j = true ->
  processTicket cfg env j ticket true w stats
  = (setNotifications (deliver w (formatSlackMessage cfg ticket))
       (<[ticketKey ticket := insertedRow cfg (clock w) ticket StatusSent js]>
          (notifications w)),
     addSent stats 1, false).
Proof.
  intros Hdry Hnone Hjs H1 H2 H3. unfold processTicket, ticketKey in *.
  rewrite H1. cbn [negb]. unfold shouldSkipTicket. rewrite Hnone.
  rewrite Hdry, H2. cbn [negb andb]. unfold recordNotification.
  rewrite Hjs, H3. cbn. rewrite Hnone. reflexivity.
Qed.

(** X8: during business hours every new ticket of the run is posted and counted,
    however many there are: [MaxNotifications] plays no part. *)
Theorem processAll_sends_all (cfg : Config) (env : Env) (tickets : list Ticket) :
  forall (j : nat) (w : World) (stats : RunStats),
  DryRun cfg = false ->
  NoDup (ticketKey <$> tickets) ->
  (forall t, t ∈ tickets ->
     notifications w !! ticketKey t = None /\ is_Some (Marshal t)) ->
  (forall i, skipQueryOk env i = true /\ ticketSendOk env i = true
             /\ recordExecOk env i = true) ->
  let r := processAll cfg env j tickets true w stats in
  outbox r.1 = outbox w ++ (formatSlackMessage cfg <$> tickets)
  /\ NotificationsSent r.2 = NotificationsSent stats + Z.of_nat (length tickets)
  /\ Errors r.2 = Errors stats
  /\ (forall t, t ∈ tickets ->
        exists row, notifications r.1 !! ticketKey t = Some row
          /\ notification_status row = "sent" /\ sent_at row = Some (clock w)).
Proof.
  induction tickets as [|ticket rest IH]; intros j w stats Hdry Hnd Hnew Henv.
  - cbn. rewrite app_nil_r. repeat split; try lia. intros t Ht. inversion Ht.
  - rewrite processAll_cons. cbv zeta.
    destruct (Hnew ticket ltac:(left)) as [Hnone [js Hjs]].
    destruct (Henv j) as (E1 & E2 & E3).
    rewrite (processTicket_new cfg env j ticket w stats js) by assumption.
    cbn [fst snd]. rewrite fmap_cons in Hnd. apply NoDup_cons in Hnd as [Hnotin Hnd].
    set (w1 := setNotifications _ _).
    assert (Hnew1 : forall t, t ∈ rest ->
              notifications w1 !! ticketKey t = None /\ is_Some (Marshal t)).
    { intros t Ht. destruct (Hnew t ltac:(by right)) as [Hn Hm]. split; [|exact Hm].
      subst w1. cbn. rewrite lookup_insert_ne; [exact Hn|].
      intros Heq. apply Hnotin. rewrite Heq. apply list_elem_of_fmap. eauto. }
    specialize (IH (S j) w1 (addSent stats 1) Hdry Hnd Hnew1 Henv). cbv zeta in IH.
    destruct IH as (Iout & Isent & Ierr & Irows).
    repeat split.
    + rewrite Iout. subst w1. cbn. rewrite <- app_assoc. reflexivity.
    + rewrite Isent. cbn. lia.
    + rewrite Ierr. reflexivity.
    + intros t Ht. apply elem_of_cons in Ht as [->|Ht].
      * rewrite processAll_frame.
        -- subst w1. cbn. rewrite lookup_insert_eq. eexists. split; [reflexivity|].
           split; reflexivity.
        -- intros t Ht Heq. apply Hnotin. rewrite <- Heq. apply list_elem_of_fmap. eauto.
      * destruct (Irows t Ht) as (row & Hr & Hs & Ht'). exists row.
        split; [exact Hr|]. split; [exact Hs|]. rewrite Ht'. reflexivity.
Qed.

(** X8, at the sample data. *)
Lemma processAll_sends_all_witness :
  DryRun sampleConfig = false
  /\ NoDup (ticketKey <$> [sampleTicket])
  /\ (forall t, t ∈ [sampleTicket] ->
        notifications (emptyWorld mondayTen) !! ticketKey t = None /\ is_Some (Marshal t))
  /\ (forall i, skipQueryOk okEnv i = true /\ ticketSendOk okEnv i = true
                /\ recordExecOk okEnv i = true)
  /\ (let r := processAll sampleConfig okEnv 0 [sampleTicket] true
                 (emptyWorld mondayTen) zeroStats in
      outbox r.1 = outbox (emptyWorld mondayTen)
                   ++ (formatSlackMessage sampleConfig <$> [sampleTicket])
      /\ NotificationsSent r.2
         = NotificationsSent zeroStats + Z.of_nat (length [sampleTicket])
      /\ Errors r.2 = Errors zeroStats
      /\ (forall t, t ∈ [sampleTicket] ->
            exists row, notifications r.1 !! ticketKey t = Some row
              /\ notification_status row = "sent"
              /\ sent_at row = Some (clock (emptyWorld mondayTen)))).
Proof.
  assert (H2 : NoDup (ticketKey <$> [sampleTicket])).
  { cbn. apply NoDup_singleton. }
  assert (H3 : forall t, t ∈ [sampleTicket] ->
            notifications (emptyWorld mondayTen) !! ticketKey t = None
            /\ is_Some (Marshal t)).
  { intros t Ht. apply list_elem_of_singleton in Ht as ->. split; [apply lookup_empty|].
    exists sampleJSON. vm_compute. reflexivity. }
  assert (H4 : forall i : nat, skipQueryOk okEnv i = true /\ ticketSendOk okEnv i = true
                /\ recordExecOk okEnv i = true) by (intros i; repeat split).
  split; [reflexivity|]. split; [exact H2|]. split; [exact H3|]. split; [exact H4|].
  exact (processAll_sends_all sampleConfig okEnv [sampleTicket] 0 (emptyWorld mondayTen)
           zeroStats eq_refl H2 H3 H4).
Defined.

(** *** The limit of the flush at and below zero *)

(** X10: with [MaxNotifications] zero the flush drains nothing and leaves the
    queue as it is; with a negative value it drains the whole queue and
    never pauses. *)
Theorem flush_limit_edge (cfg : Config) (env : Env) (w : World) :
  (MaxNotifications cfg = 0 ->
     sendQueuedNotifications cfg env w = (w, if drainQueryOk env then Some 0 else None))
  /\ (MaxNotifications cfg < 0 ->
      drainQueued cfg (notifications w) = queuedOrdered (notifications w)
      /\ sleeps (sendQueuedNotifications cfg env w).1 = sleeps w).
Proof.
  split.
  - intros H0. unfold sendQueuedNotifications, drainQueued, limitRows. rewrite H0.
    destruct (drainQueryOk env); reflexivity.
  - intros Hneg. split.
    + unfold drainQueued, limitRows.
      destruct (MaxNotifications cfg <? 0) eqn:E; [reflexivity|].
      apply Z.ltb_ge in E. lia.
    + destruct (drainQueryOk env) eqn:Hq.
      * destruct (sendQueuedNotifications_ok cfg env w Hq) as (_ & _ & Hsl).
        rewrite Hsl.
        rewrite (flushLoop_sleeps cfg env _ 0 {| fs_world := w; fs_sent := 0 |} (sleeps w)).
        -- unfold pausesFor.
           replace (Z.to_nat _) with 0%nat by lia. cbn. by rewrite app_nil_r.
        -- cbn. lia.
        -- cbn. unfold pausesFor.
           replace (Z.to_nat _) with 0%nat by lia. cbn. by rewrite app_nil_r.
      * unfold sendQueuedNotifications. rewrite Hq. reflexivity.
Qed.

(** *** Queued rows wait for the flush *)

Lemma processTicket_queued (cfg : Config) (env : Env) (j : nat) (ticket : Ticket)
    (b : bool) (w : World) (stats : RunStats) (k : Z * string) (row : Notification) :
  notifications w !! k = Some row ->
  notification_status row = "queued" ->
  notifications (processTicket cfg env j ticket b w stats).1.1 !! k = Some row.
Proof.
  intros Hrow Hst. destruct (decide (k = ticketKey ticket)) as [->|Hne].
  - unfold processTicket. destruct (skipQueryOk env j); [|exact Hrow]. cbn [negb].
    unfold shouldSkipTicket. unfold ticketKey in Hrow. rewrite Hrow, Hst. exact Hrow.
  - rewrite processTicket_frame by exact Hne. exact Hrow.
Qed.

Lemma processAll_queued (cfg : Config) (env : Env) (tickets : list Ticket) (b : bool)
    (k : Z * string) (row : Notification) : forall j w stats,
  notifications w !! k = Some row ->
  notification_status row = "queued" ->
  notifications (processAll cfg env j tickets b w stats).1 !! k = Some row.
Proof.
  induction tickets as [|ticket rest IH]; intros j w stats Hrow Hst; [exact Hrow|].
  rewrite processAll_cons. cbv zeta. apply IH; [|exact Hst].
  apply processTicket_queued; assumption.
Qed.

(** X11: a queued notification is left alone by every run that is not at the
    start of the business day, business hours or not, whether or not its
    ticket is fetched again: only the flush sends it. *)
Theorem queued_waits_for_flush (cfg : Config) (bh : BusinessHours) (env : Env)
    (w : World) (k : Z * string) (row : Notification) :
  IsStartOfBusinessDay bh (clock w) = false ->
  notifications w !! k = Some row ->
  notification_status row = "queued" ->
  notifications (Run cfg bh env w).1.1 !! k = Some row
  /\ (forall (j : nat) (ticket : Ticket) (b : bool) (stats : RunStats),
        ticketKey ticket = k -> skipQueryOk env j = true ->
        processTicket cfg env j ticket b w stats = (w, stats, false)).
Proof.
  intros Hs Hrow Hst. split.
  - rewrite Run_unfold. cbv zeta. rewrite runFlush_off by exact Hs. cbn [fst snd].
    destruct (fetchOpen env) as [o|]; [|exact Hrow].
    destruct (fetchPending env) as [p|]; [|exact Hrow].
    cbn [fst snd]. apply processAll_queued; assumption.
  - intros j ticket b stats Hk Hq. unfold processTicket. rewrite Hq. cbn [negb].
    unfold shouldSkipTicket. unfold ticketKey in Hk. rewrite Hk, Hrow, Hst. reflexivity.
Qed.

(** X11, at the sample data. *)
Lemma queued_waits_for_flush_witness :
  let row := default (insertedRow sampleConfig 0 sampleTicket "" "")
               (queuedStore !! sampleKey) in
  let w := setNotifications (emptyWorld mondayTen) queuedStore in
  IsStartOfBusinessDay sampleHours (clock w) = false
  /\ notifications w !! sampleKey = Some row
  /\ notification_status row = "queued"
  /\ notifications (Run sampleConfig sampleHours ticketEnv w).1.1 !! sampleKey = Some row
  /\ (forall (j : nat) (ticket : Ticket) (b : bool) (stats : RunStats),
        ticketKey ticket = sampleKey -> skipQueryOk ticketEnv j = true ->
        processTicket sampleConfig ticketEnv j ticket b w stats = (w, stats, false)).
Proof.
  cbv zeta.
  assert (H1 : IsStartOfBusinessDay sampleHours
                 (clock (setNotifications (emptyWorld mondayTen) queuedStore)) = false)
    by (vm_compute; reflexivity).
  assert (H2 : notifications (setNotifications (emptyWorld mondayTen) queuedStore) !! sampleKey
               = Some (default (insertedRow sampleConfig 0 sampleTicket "" "")
                         (queuedStore !! sampleKey))) by (vm_compute; reflexivity).
  assert (H3 : notification_status (default (insertedRow sampleConfig 0 sampleTicket "" "")
                         (queuedStore !! sampleKey)) = "queued") by (vm_compute; reflexivity).
  split; [exact H1|]. split; [exact H2|]. split; [exact H3|].
  exact (queued_waits_for_flush sampleConfig sampleHours ticketEnv _ sampleKey _ H1 H2 H3).
Defined.

(** *** A send that is not recorded *)

(** X12: when the message of a ticket is posted and the record of it then fails
    (the store refuses the statement, or the ticket does not serialize), the
    run counts an error and not a notification, and the store is as before:
    the next run finds the ticket as it was and posts it again. *)
Theorem send_without_record (cfg : Config) (env : Env) (j : nat) (ticket : Ticket)
    (w : World) (stats : RunStats) :
  DryRun cfg = false ->
  skipQueryOk env j = true ->
  shouldSkipTicket cfg (clock w) (notifications w) ticket = false ->
  ticketSendOk env j = true ->
  recordExecOk env j = false \/ Marshal ticket = None ->
  let r := processTicket cfg env j ticket true w stats in
  r = (deliver w (formatSlackMessage cfg ticket), stats, true)
  /\ outbox r.1.1 = outbox w ++ [formatSlackMessage cfg ticket]
  /\ notifications r.1.1 = notifications w
  /\ shouldSkipTicket cfg (clock r.1.1) (notifications r.1.1) ticket = false
  /\ (processAll cfg env j [ticket] true w stats).2 = addError stats.
Proof.
  intros Hdry Hq Hskip Hsend Hrec. cbv zeta.
  assert (Hr : processTicket cfg env j ticket true w stats
               = (deliver w (formatSlackMessage cfg ticket), stats, true)).
  { unfold processTicket. rewrite Hq. cbn [negb]. rewrite Hskip, Hdry, Hsend.
    cbn [negb andb]. unfold recordNotification.
    destruct Hrec as [Hex|Hm].
    - rewrite Hex. destruct (Marshal ticket); reflexivity.
    - rewrite Hm. reflexivity. }
  split; [exact Hr|]. rewrite processAll_cons. cbv zeta. rewrite Hr. cbn [fst snd].
  repeat split; try reflexivity. exact Hskip.
Qed.

(** X12, at the sample data. *)
Lemma send_without_record_witness :
  let w := emptyWorld mondayTen in
  DryRun sampleConfig = false
  /\ skipQueryOk recordFailsEnv 0 = true
  /\ shouldSkipTicket sampleConfig (clock w) (notifications w) sampleTicket = false
  /\ ticketSendOk recordFailsEnv 0 = true
  /\ (recordExecOk recordFailsEnv 0 = false \/ Marshal sampleTicket = None)
  /\ (let r := processTicket sampleConfig recordFailsEnv 0 sampleTicket true w zeroStats in
      r = (deliver w (formatSlackMessage sampleConfig sampleTicket), zeroStats, true)
      /\ outbox r.1.1 = outbox w ++ [formatSlackMessage sampleConfig sampleTicket]
      /\ notifications r.1.1 = notifications w
      /\ shouldSkipTicket sampleConfig (clock r.1.1) (notifications r.1.1) sampleTicket
         = false
      /\ (processAll sampleConfig recordFailsEnv 0 [sampleTicket] true w zeroStats).2
         = addError zeroStats).
Proof.
  cbv zeta.
  assert (H3 : shouldSkipTicket sampleConfig (clock (emptyWorld mondayTen))
                 (notifications (emptyWorld mondayTen)) sampleTicket = false)
    by reflexivity.
  assert (H5 : recordExecOk recordFailsEnv 0 = false \/ Marshal sampleTicket = None)
    by (left; reflexivity).
  split; [reflexivity|]. split; [reflexivity|]. split; [exact H3|].
  split; [reflexivity|]. split; [exact H5|].
  exact (send_without_record sampleConfig recordFailsEnv 0 sampleTicket
           (emptyWorld mondayTen) zeroStats eq_refl eq_refl H3 eq_refl H5).
Defined.

(** ** Cleanup *)

Lemma stampedAt_agedBy (row : Notification) (t : Time) :
  stampedAt row t -> agedBy row = Some t.
Proof.
  induction 1 as [row t Hs Hf| | |now ticket js old t [s Hs] _ IH].
  - unfold agedBy. rewrite Hs. exact Hf.
  - reflexivity.
  - reflexivity.
  - unfold agedBy in *. cbn. rewrite Hs in *. exact IH.
Qed.

Lemma expired_agedBy (cutoff : Time) (row : Notification) :
  expired cutoff row = isBefore (agedBy row) cutoff.
Proof.
  unfold expired, agedBy. destruct (sent_at row) as [s|].
  - rewrite bool_decide_eq_true_2 by eauto.
    rewrite (bool_decide_eq_false_2 (Some s = None)) by discriminate.
    cbn. by rewrite orb_false_r.
  - rewrite bool_decide_eq_false_2 by (intros [? ?]; discriminate).
    rewrite bool_decide_eq_true_2 by reflexivity. reflexivity.
Qed.

Lemma Cleanup_notifications (rowsExecOk logExecOk : bool) (w : World)
    (retentionDays : Z) (k : Z * string) :
  rowsExecOk = true ->
  notifications (CleanupOldNotifications rowsExecOk logExecOk w retentionDays).1 !! k
  = row ← notifications w !! k;
    if isBefore (agedBy row) (CURRENT_TIMESTAMP (clock w) - retention retentionDays)
    then None else Some row.
Proof.
  intros ->. unfold CleanupOldNotifications, retention, datetimeNowMinusDays. cbn [negb].
  set (days := if retentionDays <=? 0 then 90 else retentionDays).
  set (db := filter _ (notifications w)).
  replace (notifications _) with db by (destruct logExecOk; reflexivity).
  subst db. rewrite map_lookup_filter.
  destruct (notifications w !! k) as [row|]; [|reflexivity]. cbn.
  rewrite <- expired_agedBy.
  destruct (expired _ row) eqn:E.
  - rewrite option_guard_False by (cbn; congruence). reflexivity.
  - rewrite option_guard_True by (cbn; congruence). reflexivity.
Qed.

(** X13: cleanup ages a row by the time it was sent or, when never sent, first
    seen, and keeps or deletes it by the retention period; 90 days stand for
    a period that is zero or negative.  For a row whose ageing timestamp was
    written by the store itself (a row never sent, or marked as sent by a
    flush or by a conflict update): stamped within the period, it is kept as
    it is; stamped more than a second before it, it is deleted, queued or
    not. *)
Theorem Cleanup_retention (logExecOk : bool) (w : World) (retentionDays : Z)
    (k : Z * string) (row : Notification) (t : Time) :
  notifications w !! k = Some row ->
  stampedAt row t ->
  let w' := (CleanupOldNotifications true logExecOk w retentionDays).1 in
  (clock w - retention retentionDays <= t -> notifications w' !! k = Some row)
  /\ (t + retention retentionDays + Second <= clock w -> notifications w' !! k = None)
  /\ (notifications w' !! k = Some row \/ notifications w' !! k = None)
  /\ (retentionDays <= 0 -> retention retentionDays = 90 * (24 * Hour))
  /\ (0 < retentionDays -> retention retentionDays = retentionDays * (24 * Hour)).
Proof.
  intros Hrow Hst. cbv zeta. apply stampedAt_agedBy in Hst as Hage.
  rewrite (Cleanup_notifications true logExecOk w retentionDays k eq_refl), Hrow. cbn.
  rewrite Hage. cbn [isBefore].
  pose proof (CURRENT_TIMESTAMP_bounds (clock w)) as [[Hlo Hhi] _].
  repeat split.
  - intros Ht. destruct (t <? _) eqn:E; [|reflexivity]. apply Z.ltb_lt in E. lia.
  - intros Ht. destruct (t <? _) eqn:E; [reflexivity|]. apply Z.ltb_ge in E. lia.
  - destruct (t <? _); auto.
  - intros Hd. unfold retention. destruct (retentionDays <=? 0) eqn:E; [reflexivity|].
    apply Z.leb_gt in E. lia.
  - intros Hd. unfold retention. destruct (retentionDays <=? 0) eqn:E; [|reflexivity].
    apply Z.leb_le in E. lia.
Qed.

(** X13, at the sample data. *)
Lemma Cleanup_retention_witness :
  notifications (sendQueuedNotifications sampleConfig okEnv mondayWorld).1 !! sampleKey
  = Some flushedRow
  /\ notifications staleSentWorld !! sampleKey = Some flushedRow
  /\ stampedAt flushedRow mondayNine
  /\ mondayNine + retention 0 + Second <= clock staleSentWorld
  /\ (let w' := (CleanupOldNotifications true true staleSentWorld 0).1 in
      (clock staleSentWorld - retention 0 <= mondayNine ->
         notifications w' !! sampleKey = Some flushedRow)
      /\ (mondayNine + retention 0 + Second <= clock staleSentWorld ->
         notifications w' !! sampleKey = None)
      /\ (notifications w' !! sampleKey = Some flushedRow
          \/ notifications w' !! sampleKey = None)
      /\ (0 <= 0 -> retention 0 = 90 * (24 * Hour))
      /\ (0 < 0 -> retention 0 = 0 * (24 * Hour))).
Proof.
  assert (H0 : notifications (sendQueuedNotifications sampleConfig okEnv mondayWorld).1
               !! sampleKey = Some flushedRow) by (vm_compute; reflexivity).
  assert (H1 : notifications staleSentWorld !! sampleKey = Some flushedRow)
    by apply lookup_singleton_eq.
  assert (H2 : stampedAt flushedRow mondayNine).
  { exact (stamped_flush mondayNine
             (insertedRow sampleConfig sundayNight sampleTicket StatusQueued sampleJSON)). }
  split; [exact H0|]. split; [exact H1|]. split; [exact H2|].
  split; [vm_compute; discriminate|].
  exact (Cleanup_retention true staleSentWorld 0 sampleKey flushedRow mondayNine H1 H2).
Defined.

(** X14: a queued notification that was first seen longer ago than the retention
    period is deleted by cleanup: no later flush drains it. *)
Theorem Cleanup_drops_stale_queue (logExecOk : bool) (w : World) (retentionDays : Z)
    (k : Z * string) (row : Notification) (t : Time) (cfg : Config) :
  notifications w !! k = Some row ->
  notification_status row = "queued" ->
  sent_at row = None ->
  first_eligible_at row = Some t ->
  t + retention retentionDays + Second <= clock w ->
  let w' := (CleanupOldNotifications true logExecOk w retentionDays).1 in
  (k, row) ∈ queuedOrdered (notifications w)
  /\ notifications w' !! k = None
  /\ (forall row', (k, row') ∉ drainQueued cfg (notifications w')).
Proof.
  intros Hrow Hst Hsent Hfirst Hold. cbv zeta.
  assert (Hnone : notifications (CleanupOldNotifications true logExecOk w retentionDays).1
                  !! k = None).
  { rewrite (Cleanup_notifications true logExecOk w retentionDays k eq_refl), Hrow. cbn.
    unfold agedBy. rewrite Hsent, Hfirst. cbn [isBefore].
    pose proof (CURRENT_TIMESTAMP_bounds (clock w)) as [[Hlo Hhi] _].
    destruct (t <? _) eqn:E; [reflexivity|]. apply Z.ltb_ge in E. lia. }
  split; [apply elem_of_queuedOrdered; auto|]. split; [exact Hnone|].
  intros row' Hin. apply elem_of_drainQueued in Hin as [Hin _]. congruence.
Qed.

(** X14, at the sample data. *)
Lemma Cleanup_drops_stale_queue_witness :
  let row := default (insertedRow sampleConfig 0 sampleTicket "" "")
               (queuedStore !! sampleKey) in
  notifications staleQueueWorld !! sampleKey = Some row
  /\ notification_status row = "queued"
  /\ sent_at row = None
  /\ first_eligible_at row = Some sundayNight
  /\ sundayNight + retention 30 + Second <= clock staleQueueWorld
  /\ (let w' := (CleanupOldNotifications true true staleQueueWorld 30).1 in
      (sampleKey, row) ∈ queuedOrdered (notifications staleQueueWorld)
      /\ notifications w' !! sampleKey = None
      /\ (forall row', (sampleKey, row') ∉ drainQueued sampleConfig (notifications w'))).
Proof.
  cbv zeta.
  assert (H1 : notifications staleQueueWorld !! sampleKey
               = Some (default (insertedRow sampleConfig 0 sampleTicket "" "")
                         (queuedStore !! sampleKey))) by (vm_compute; reflexivity).
  assert (H2 : notification_status (default (insertedRow sampleConfig 0 sampleTicket "" "")
                         (queuedStore !! sampleKey)) = "queued") by (vm_compute; reflexivity).
  assert (H3 : sent_at (default (insertedRow sampleConfig 0 sampleTicket "" "")
                         (queuedStore !! sampleKey)) = None) by (vm_compute; reflexivity).
  assert (H4 : first_eligible_at (default (insertedRow sampleConfig 0 sampleTicket "" "")
                         (queuedStore !! sampleKey)) = Some sundayNight)
    by (vm_compute; reflexivity).
  assert (H5 : sundayNight + retention 30 + Second <= clock staleQueueWorld)
    by (vm_compute; discriminate).
  split; [exact H1|]. split; [exact H2|]. split; [exact H3|]. split; [exact H4|].
  split; [exact H5|].
  exact (Cleanup_drops_stale_queue true staleQueueWorld 30 sampleKey _ sundayNight
           sampleConfig H1 H2 H3 H4 H5).
Defined.

Lemma filter_idemp_log (cutoff : Time) (log : list BurstLog) :
  filter (fun e => isBefore (event_time e) cutoff = false)
    (filter (fun e => isBefore (event_time e) cutoff = false) log)
  = filter (fun e => isBefore (event_time e) cutoff = false) log.
Proof.
  induction log as [|e log IH]; [reflexivity|].
  rewrite (filter_cons _ e log). destruct (decide _) as [He|He].
  - rewrite filter_cons. rewrite decide_True by exact He. by rewrite IH.
  - exact IH.
Qed.

(** X15: cleanup only deletes: the rows and log entries left are rows and entries
    that were there, unchanged and in order; nothing is posted and no time
    passes; and a second cleanup at the same instant changes nothing more. *)
Theorem Cleanup_only_deletes (rowsExecOk logExecOk : bool) (w : World) (retentionDays : Z) :
  let r := CleanupOldNotifications rowsExecOk logExecOk w retentionDays in
  notifications r.1 ⊆ notifications w
  /\ business_hours_log r.1 `sublist_of` business_hours_log w
  /\ outbox r.1 = outbox w /\ sleeps r.1 = sleeps w /\ clock r.1 = clock w
  /\ (rowsExecOk = false -> r = (w, true))
  /\ (r.2 = false <-> rowsExecOk = true /\ logExecOk = true)
  /\ (r.2 = false ->
      CleanupOldNotifications rowsExecOk logExecOk r.1 retentionDays = r).
Proof.
  cbv zeta. unfold CleanupOldNotifications.
  set (days := if retentionDays <=? 0 then 90 else retentionDays).
  destruct rowsExecOk; cbn [negb].
  2:{ cbn. split_and!; try done. split; [discriminate|intros [? ?]; discriminate]. }
  destruct logExecOk; cbn [negb fst snd].
  - cbn [setBusinessHoursLog setNotifications notifications business_hours_log
         outbox sleeps clock].
    split; [apply map_filter_subseteq|]. split; [apply sublist_filter|].
    split_and!; try done.
    intros _. f_equal. unfold setBusinessHoursLog, setNotifications. cbn.
    f_equal.
    + apply map_filter_id. intros i x Hx. apply map_lookup_filter_Some in Hx as [_ Hx].
      exact Hx.
    + apply filter_idemp_log.
  - cbn [setNotifications notifications business_hours_log outbox sleeps clock].
    split; [apply map_filter_subseteq|]. split; [reflexivity|].
    split_and!; try done. split; [discriminate|intros [? ?]; discriminate].
Qed.

(** ** The Slack client *)

Lemma wrap64_small (z : Z) : - 2 ^ 63 <= z < 2 ^ 63 -> wrap64 z = z.
Proof.
  intros H. unfold wrap64. rewrite Z.mod_small; lia.
Qed.

Lemma backoff_snoc (k : nat) : forall a,
  backoff (S k) a = backoff k a ++ [(a + Z.of_nat k) * (a + Z.of_nat k) * Second].
Proof.
  induction k as [|k IH]; intros a.
  - cbn. by rewrite Z.add_0_r.
  - change (backoff (S (S k)) a) with (a * a * Second :: backoff (S k) (a + 1)).
    rewrite IH. cbn [backoff app]. do 4 f_equal; lia.
Qed.

Lemma sumZ_app (l1 l2 : list Z) : sumZ (l1 ++ l2) = sumZ l1 + sumZ l2.
Proof. induction l1 as [|x l1 IH]; cbn; [reflexivity|]. unfold sumZ in *. cbn. lia. Qed.

Lemma backoff_total (k : nat) :
  6 * sumZ (backoff k 1)
  = Z.of_nat k * (Z.of_nat k + 1) * (2 * Z.of_nat k + 1) * Second.
Proof.
  induction k as [|k IH]; [reflexivity|].
  rewrite backoff_snoc, sumZ_app. cbn [sumZ foldr]. fold (sumZ (backoff k 1)).
  rewrite Nat2Z.inj_succ. unfold Second in *. lia.
Qed.

(** The loop, for attempts that are all refused. *)
Lemma sendAttempts_refused (c : Client) (http : Http) (payload : string) (fuel : nat) :
  forall (attempt : Z) (lastErr : option Response) (wire : Wire),
  newRequestOk http = true ->
  0 <= attempt -> attempt + Z.of_nat fuel <= 96000 ->
  (forall i, (Z.to_nat attempt <= i < Z.to_nat attempt + fuel)%nat ->
     accepted (roundTrip http i) = false) ->
  sendAttempts c http payload fuel attempt lastErr wire
  = ({| posted := posted wire ++ replicate fuel payload;
        paused := paused wire
                  ++ (if 0 <? attempt then backoff fuel attempt
                      else backoff (fuel - 1) 1) |},
     FailedAfter (retryAttempts c)
       (match fuel with
        | O => lastErr
        | S f => Some (roundTrip http (Z.to_nat attempt + f))
        end)).
Proof.
  induction fuel as [|fuel IH]; intros attempt lastErr wire Hreq Ha Hb Hall.
  - cbn. rewrite !app_nil_r. destruct (0 <? attempt); cbn; rewrite app_nil_r;
      destruct wire; reflexivity.
  - cbn [sendAttempts]. rewrite Hreq. cbn [negb].
    assert (Hw : wrap64 (wrap64 (attempt * attempt) * Second) = attempt * attempt * Second).
    { assert (attempt * attempt <= 96000 * 96000) by nia.
      rewrite (wrap64_small (attempt * attempt)) by lia.
      apply wrap64_small. unfold Second. lia. }
    rewrite Hw.
    assert (Hstep : forall e wire2,
      sendAttempts c http payload fuel (attempt + 1) e wire2
      = ({| posted := posted wire2 ++ replicate fuel payload;
            paused := paused wire2 ++ backoff fuel (attempt + 1) |},
         FailedAfter (retryAttempts c)
           (match fuel with
            | O => e
            | S f => Some (roundTrip http (Z.to_nat (attempt + 1) + f))
            end))).
    { intros e wire2. rewrite IH; try lia; try assumption.
      - replace (0 <? attempt + 1) with true by (symmetry; apply Z.ltb_lt; lia).
        reflexivity.
      - intros i Hi. apply Hall. lia. }
    pose proof (Hall (Z.to_nat attempt) ltac:(lia)) as Hrefused.
    assert (Hlast : forall e,
      match fuel with
      | O => Some e
      | S f => Some (roundTrip http (Z.to_nat (attempt + 1) + f))
      end = Some (match fuel with O => e | S f => roundTrip http (Z.to_nat attempt + S f) end)).
    { intros e. destruct fuel as [|f]; [reflexivity|]. do 2 f_equal. lia. }
    assert (Hpaused : forall pre,
      (if 0 <? attempt then pre ++ [attempt * attempt * Second] else pre)
        ++ backoff fuel (attempt + 1)
      = pre ++ (if 0 <? attempt then backoff (S fuel) attempt
                else backoff (S fuel - 1) 1)).
    { intros pre. destruct (0 <? attempt) eqn:E.
      - cbn [backoff]. by rewrite <- app_assoc.
      - apply Z.ltb_ge in E. assert (attempt = 0) as -> by lia.
        cbn [Nat.sub]. rewrite Nat.sub_0_r. reflexivity. }
    destruct (roundTrip http (Z.to_nat attempt)) as [|code] eqn:Hr.
    + rewrite Hstep. cbn [posted paused]. f_equal.
      * f_equal.
        -- destruct (0 <? attempt); cbn [posted]; rewrite <- app_assoc; reflexivity.
        -- rewrite <- Hpaused. destruct (0 <? attempt); reflexivity.
      * f_equal. rewrite Hlast. do 1 f_equal.
        destruct fuel; [rewrite Nat.add_0_r; symmetry; exact Hr|reflexivity].
    + cbn [accepted] in Hrefused. rewrite Hrefused.
      rewrite Hstep. cbn [posted paused]. f_equal.
      * f_equal.
        -- destruct (0 <? attempt); cbn [posted]; rewrite <- app_assoc; reflexivity.
        -- rewrite <- Hpaused. destruct (0 <? attempt); reflexivity.
      * f_equal. rewrite Hlast. do 1 f_equal.
        destruct fuel; [rewrite Nat.add_0_r; symmetry; exact Hr|reflexivity].
Qed.

(** The loop, up to the first attempt that is accepted. *)
Lemma sendAttempts_accepted (c : Client) (http : Http) (payload : string) (fuel : nat) :
  forall (m : nat) (attempt : Z) (lastErr : option Response) (wire : Wire),
  newRequestOk http = true ->
  0 <= attempt -> attempt + Z.of_nat fuel <= 96000 ->
  (m < fuel)%nat ->
  (forall i, (Z.to_nat attempt <= i < Z.to_nat attempt + m)%nat ->
     accepted (roundTrip http i) = false) ->
  accepted (roundTrip http (Z.to_nat attempt + m)) = true ->
  sendAttempts c http payload fuel attempt lastErr wire
  = ({| posted := posted wire ++ replicate (S m) payload;
        paused := paused wire
                  ++ (if 0 <? attempt then backoff (S m) attempt else backoff m 1) |},
     SendOk).
Proof.
  induction fuel as [|fuel IH]; intros m attempt lastErr wire Hreq Ha Hb Hm Hall Hacc;
    [lia|].
  cbn [sendAttempts]. rewrite Hreq. cbn [negb].
  assert (Hw : wrap64 (wrap64 (attempt * attempt) * Second) = attempt * attempt * Second).
  { assert (attempt * attempt <= 96000 * 96000) by nia.
    rewrite (wrap64_small (attempt * attempt)) by lia.
    apply wrap64_small. unfold Second. lia. }
  rewrite Hw.
  destruct m as [|m].
  - rewrite Nat.add_0_r in Hacc.
    destruct (roundTrip http (Z.to_nat attempt)) as [|code]; [discriminate|].
    cbn [accepted] in Hacc. rewrite Hacc. f_equal.
    destruct (0 <? attempt); cbn; rewrite ?app_nil_r; reflexivity.
  - assert (Hstep : forall e wire2,
      sendAttempts c http payload fuel (attempt + 1) e wire2
      = ({| posted := posted wire2 ++ replicate (S m) payload;
            paused := paused wire2 ++ backoff (S m) (attempt + 1) |}, SendOk)).
    { intros e wire2. rewrite (IH m); try lia; try assumption.
      - replace (0 <? attempt + 1) with true by (symmetry; apply Z.ltb_lt; lia).
        reflexivity.
      - intros i Hi. apply Hall. lia.
      - replace (Z.to_nat (attempt + 1) + m)%nat with (Z.to_nat attempt + S m)%nat by lia.
        exact Hacc. }
    pose proof (Hall (Z.to_nat attempt) ltac:(lia)) as Hrefused.
    assert (Hpaused : forall pre,
      (if 0 <? attempt then pre ++ [attempt * attempt * Second] else pre)
        ++ backoff (S m) (attempt + 1)
      = pre ++ (if 0 <? attempt then backoff (S (S m)) attempt else backoff (S m) 1)).
    { intros pre. destruct (0 <? attempt) eqn:E.
      - cbn [backoff]. by rewrite <- app_assoc.
      - apply Z.ltb_ge in E. assert (attempt = 0) as -> by lia. reflexivity. }
    destruct (roundTrip http (Z.to_nat attempt)) as [|code] eqn:Hr.
    + rewrite Hstep. cbn [posted paused]. do 2 f_equal.
      * destruct (0 <? attempt); cbn [posted]; rewrite <- app_assoc; reflexivity.
      * rewrite <- Hpaused. destruct (0 <? attempt); reflexivity.
    + cbn [accepted] in Hrefused. rewrite Hrefused.
      rewrite Hstep. cbn [posted paused]. do 2 f_equal.
      * destruct (0 <? attempt); cbn [posted]; rewrite <- app_assoc; reflexivity.
      * rewrite <- Hpaused. destruct (0 <? attempt); reflexivity.
Qed.

(** X16: [SendMessage] stops at the first answer with status 200: it has then
    posted the same body once per attempt and paused 1, 4, 9, ... seconds
    between the attempts. *)
Theorem SendMessage_first_accepted (c : Client) (http : Http) (text : string)
    (wire : Wire) (k : nat) :
  newRequestOk http = true ->
  retryAttempts c <= 96000 ->
  Z.of_nat k < retryAttempts c ->
  (forall i, (i < k)%nat -> accepted (roundTrip http i) = false) ->
  accepted (roundTrip http k) = true ->
  SendMessage c http text wire
  = ({| posted := posted wire ++ replicate (S k) (marshalMessage text);
        paused := paused wire ++ backoff k 1 |}, SendOk).
Proof.
  intros Hreq Hn Hk Hall Hacc. unfold SendMessage.
  rewrite (sendAttempts_accepted c http _ _ k); try assumption; try lia.
  - reflexivity.
  - intros i Hi. apply Hall. cbn in Hi. lia.
Qed.

(** X16, at the sample data. *)
Lemma SendMessage_first_accepted_witness :
  newRequestOk flakyHttp = true
  /\ retryAttempts sampleClient <= 96000
  /\ Z.of_nat 1 < retryAttempts sampleClient
  /\ (forall i, (i < 1)%nat -> accepted (roundTrip flakyHttp i) = false)
  /\ accepted (roundTrip flakyHttp 1) = true
  /\ SendMessage sampleClient flakyHttp "hello" idleWire
     = ({| posted := posted idleWire ++ replicate 2 (marshalMessage "hello");
           paused := paused idleWire ++ backoff 1 1 |}, SendOk).
Proof.
  assert (H4 : forall i, (i < 1)%nat -> accepted (roundTrip flakyHttp i) = false).
  { intros i Hi. assert (i = 0%nat) as -> by lia. reflexivity. }
  split; [reflexivity|]. split; [vm_compute; discriminate|].
  split; [vm_compute; reflexivity|]. split; [exact H4|]. split; [reflexivity|].
  apply (SendMessage_first_accepted sampleClient flakyHttp "hello" idleWire 1);
    [reflexivity|vm_compute; discriminate|vm_compute; reflexivity|exact H4|reflexivity].
Defined.

(** X17: when every attempt is refused [SendMessage] gives up after
    [retryAttempts] requests, reporting the last refusal; the pauses it took
    add up to (n-1)n(2n-1)/6 seconds. *)
Theorem SendMessage_exhausted (c : Client) (http : Http) (text : string) (wire : Wire) :
  newRequestOk http = true ->
  0 < retryAttempts c <= 96000 ->
  (forall i, Z.of_nat i < retryAttempts c -> accepted (roundTrip http i) = false) ->
  let n := Z.to_nat (retryAttempts c) in
  SendMessage c http text wire
  = ({| posted := posted wire ++ replicate n (marshalMessage text);
        paused := paused wire ++ backoff (n - 1) 1 |},
     FailedAfter (retryAttempts c) (Some (roundTrip http (n - 1))))
  /\ 6 * sumZ (backoff (n - 1) 1)
     = (retryAttempts c - 1) * retryAttempts c * (2 * retryAttempts c - 1) * Second.
Proof.
  intros Hreq Hn Hall. cbv zeta. split.
  - unfold SendMessage.
    rewrite sendAttempts_refused; try assumption; try lia.
    + cbn [Z.ltb Z.compare]. do 2 f_equal.
      destruct (Z.to_nat (retryAttempts c)) as [|f] eqn:E; [lia|].
      cbn. by rewrite Nat.sub_0_r.
    + intros i Hi. apply Hall. lia.
  - rewrite backoff_total.
    replace (Z.of_nat (Z.to_nat (retryAttempts c) - 1)) with (retryAttempts c - 1) by lia.
    ring.
Qed.

(** X17, at the sample data. *)
Lemma SendMessage_exhausted_witness :
  newRequestOk downHttp = true
  /\ 0 < retryAttempts sampleClient <= 96000
  /\ (forall i, Z.of_nat i < retryAttempts sampleClient ->
        accepted (roundTrip downHttp i) = false)
  /\ (let n := Z.to_nat (retryAttempts sampleClient) in
      SendMessage sampleClient downHttp "hello" idleWire
      = ({| posted := posted idleWire ++ replicate n (marshalMessage "hello");
            paused := paused idleWire ++ backoff (n - 1) 1 |},
         FailedAfter (retryAttempts sampleClient) (Some (roundTrip downHttp (n - 1))))
      /\ 6 * sumZ (backoff (n - 1) 1)
         = (retryAttempts sampleClient - 1) * retryAttempts sampleClient
           * (2 * retryAttempts sampleClient - 1) * Second).
Proof.
  assert (H2 : 0 < retryAttempts sampleClient <= 96000) by (cbn; lia).
  assert (H3 : forall i, Z.of_nat i < retryAttempts sampleClient ->
                 accepted (roundTrip downHttp i) = false) by reflexivity.
  split; [reflexivity|]. split; [exact H2|]. split; [exact H3|].
  exact (SendMessage_exhausted sampleClient downHttp "hello" idleWire eq_refl H2 H3).
Defined.

(** X18: with no attempt allowed, or a webhook URL that [http.NewRequest]
    rejects, [SendMessage] posts nothing, pauses for nothing and returns an
    error. *)
Theorem SendMessage_never_posts (c : Client) (http : Http) (text : string) (wire : Wire) :
  (retryAttempts c <= 0 ->
     SendMessage c http text wire = (wire, FailedAfter (retryAttempts c) None))
  /\ (0 < retryAttempts c -> newRequestOk http = false ->
      SendMessage c http text wire = (wire, CreateRequestFailed)).
Proof.
  unfold SendMessage. split.
  - intros Hn. replace (Z.to_nat (retryAttempts c)) with 0%nat by lia. reflexivity.
  - intros Hn Hreq. destruct (Z.to_nat (retryAttempts c)) as [|f] eqn:E; [lia|].
    cbn [sendAttempts]. rewrite Hreq. reflexivity.
Qed.

(** ** Configuration *)

(** *** The days flag *)

Lemma Split_nonempty (s : string) (sep : ascii) : Split s sep <> [].
Proof.
  induction s as [|c s IH]; cbn; [discriminate|].
  destruct (Ascii.eqb c sep); [discriminate|].
  destruct (Split s sep); discriminate.
Qed.

Lemma Split_app (a b : string) (sep : ascii) :
  noByte sep a = true ->
  Split (a +:+ b) sep
  = match Split b sep with
    | p :: ps => (a +:+ p) :: ps
    | [] => [a]
    end.
Proof.
  induction a as [|c a IH]; intros Hno.
  - rewrite append_nil_l. destruct (Split b sep) eqn:E; [|reflexivity].
    by apply Split_nonempty in E.
  - cbn in Hno. apply andb_prop in Hno as [Hc Ha]. rewrite append_cons.
    cbn [Split]. apply negb_true_iff in Hc. rewrite Hc, (IH Ha).
    destruct (Split b sep); reflexivity.
Qed.

Lemma Split_sep (a b : string) (sep : ascii) :
  noByte sep a = true ->
  Split (a +:+ String sep b) sep = a :: Split b sep.
Proof.
  intros Hno. rewrite (Split_app _ _ _ Hno). cbn [Split].
  rewrite Ascii.eqb_refl. by rewrite append_nil_r.
Qed.

Lemma Split_none (a : string) (sep : ascii) :
  noByte sep a = true -> Split a sep = [a].
Proof.
  intros Hno. rewrite <- (append_nil_r a) at 1. rewrite (Split_app _ _ _ Hno).
  cbn. by rewrite append_nil_r.
Qed.

Lemma workDayStep_cases (days : list Weekday) (p : string) :
  workDayStep days p = days
  \/ exists d, 0 <= d <= 6 /\ workDayStep days p = days ++ [d].
Proof.
  unfold workDayStep.
  repeat (destruct (String.eqb _ _);
          [right; eexists; split; [|reflexivity]; cbv; split; discriminate|]).
  left. reflexivity.
Qed.

Lemma foldl_workDays_range (fields : list string) : forall days,
  Forall (fun d => 0 <= d <= 6) days ->
  Forall (fun d => 0 <= d <= 6) (foldl workDayStep days fields)
  /\ (length (foldl workDayStep days fields) <= length days + length fields)%nat.
Proof.
  induction fields as [|p fields IH]; intros days Hd;
    [cbn [foldl length]; split; [exact Hd|unfold Weekday; lia]|].
  cbn [foldl]. destruct (workDayStep_cases days p) as [->|(d & Hr & ->)].
  - destruct (IH days Hd) as [H1 H2]. split; [exact H1|]. cbn [length].
    unfold Weekday in *. lia.
  - destruct (IH (days ++ [d])) as [H1 H2].
    + apply Forall_app. split; [exact Hd|]. by apply Forall_singleton.
    + split; [exact H1|]. rewrite length_app in H2. cbn [length] in *.
      unfold Weekday in *. lia.
Qed.

Lemma dayField_step (days : list Weekday) (d : Z) :
  0 <= d <= 6 -> workDayStep days (dayField d) = days ++ [d].
Proof.
  intros Hd.
  assert (d = 0 \/ d = 1 \/ d = 2 \/ d = 3 \/ d = 4 \/ d = 5 \/ d = 6) as Hc by lia.
  destruct Hc as [->|[->|[->|[->|[->|[->| ->]]]]]]; reflexivity.
Qed.

Lemma dayField_noComma (d : Z) : 0 <= d <= 6 -> noByte "," (dayField d) = true.
Proof.
  intros Hd.
  assert (d = 0 \/ d = 1 \/ d = 2 \/ d = 3 \/ d = 4 \/ d = 5 \/ d = 6) as Hc by lia.
  destruct Hc as [->|[->|[->|[->|[->|[->| ->]]]]]]; reflexivity.
Qed.

Lemma Split_joinFields (d : Weekday) (ds : list Weekday) :
  Forall (fun d => 0 <= d <= 6) (d :: ds) ->
  Split (joinFields (dayField <$> (d :: ds))) "," = dayField <$> (d :: ds).
Proof.
  revert d. induction ds as [|d' ds IH]; intros d Hall.
  - cbn. apply Split_none, dayField_noComma. by inversion Hall.
  - inversion Hall as [|? ? Hd Hrest]; subst.
    change (joinFields (dayField <$> d :: d' :: ds))
      with (dayField d +:+ String "," (joinFields (dayField <$> (d' :: ds)))).
    rewrite Split_sep by (by apply dayField_noComma).
    rewrite (IH d' Hrest). reflexivity.
Qed.

Lemma foldl_dayFields (ds : list Weekday) : forall days,
  Forall (fun d => 0 <= d <= 6) ds ->
  foldl workDayStep days (dayField <$> ds) = days ++ ds.
Proof.
  induction ds as [|d ds IH]; intros days Hall; [cbn; by rewrite app_nil_r|].
  inversion Hall; subst. cbn [fmap list_fmap foldl].
  rewrite dayField_step by assumption. rewrite IH by assumption.
  by rewrite <- app_assoc.
Qed.

(** X19: [parseWorkDays] returns days of the week only, at most one for each
    field; and it reads back every list of days written as 1 (Monday) to 7
    (Sunday) between commas, in order and with repetitions. *)
Theorem parseWorkDays_days :
  (forall (s : string) (d : Weekday), d ∈ config.parseWorkDays s -> 0 <= d <= 6)
  /\ (forall s : string, (length (config.parseWorkDays s) <= length (Split s ","))%nat)
  /\ (forall ds : list Weekday, Forall (fun d => 0 <= d <= 6) ds ->
        config.parseWorkDays (joinFields (dayField <$> ds)) = ds).
Proof.
  split; [|split].
  - intros s d Hd.
    destruct (foldl_workDays_range (Split s ",") [] (Forall_nil_2 _)) as [H _].
    rewrite Forall_forall in H. exact (H d Hd).
  - intros s.
    destruct (foldl_workDays_range (Split s ",") [] (Forall_nil_2 _)) as [_ H].
    exact H.
  - intros ds Hall. unfold config.parseWorkDays. fold workDayStep.
    destruct ds as [|d ds]; [reflexivity|].
    rewrite Split_joinFields by exact Hall. apply (foldl_dayFields (d :: ds) [] Hall).
Qed.

(** *** The business hours built from the configuration *)

Lemma mapBool_foldl_insert `{Countable K} (l : list K) : forall (m : gmap K bool) (k : K),
  mapBool (foldl (fun m x => <[x := true]> m) m l) k = bool_decide (k ∈ l) || mapBool m k.
Proof.
  induction l as [|x l IH]; intros m k.
  - cbn [foldl]. rewrite bool_decide_eq_false_2 by (apply not_elem_of_nil). reflexivity.
  - cbn [foldl]. rewrite IH. unfold mapBool at 1.
    destruct (decide (k = x)) as [->|Hne].
    + rewrite lookup_insert_eq. cbn. rewrite orb_true_r.
      rewrite bool_decide_eq_true_2 by (left). reflexivity.
    + rewrite lookup_insert_ne by congruence. fold (mapBool m k).
      destruct (bool_decide (k ∈ l)) eqn:E.
      * apply bool_decide_eq_true in E. rewrite bool_decide_eq_true_2 by (by right).
        reflexivity.
      * apply bool_decide_eq_false in E. rewrite bool_decide_eq_false_2; [reflexivity|].
        intros Hin. apply elem_of_cons in Hin as [?|?]; congruence.
Qed.

Lemma NewBusinessHours_timezone (host : Host) (cfg : config.BusinessHoursConfig) :
  timezone (NewBusinessHours host cfg)
  = default UTC (LoadLocation host (config.Timezone cfg)).
Proof. unfold NewBusinessHours. cbn. destruct (LoadLocation _ _); reflexivity. Qed.

Lemma NewBusinessHours_holidays (host : Host) (cfg : config.BusinessHoursConfig)
    (d : string) :
  mapBool (holidays (NewBusinessHours host cfg)) d
  = bool_decide (d ∈ listedHolidays host cfg).
Proof.
  unfold NewBusinessHours, listedHolidays, loadHolidays. cbn [holidays].
  destruct (String.length _ =? 0)%nat; cbn [negb].
  - rewrite bool_decide_eq_false_2 by apply not_elem_of_nil. reflexivity.
  - destruct (ReadFile host _) as [data|]; cbn [fst].
    + destruct (UnmarshalHolidays host data) as [hf|]; cbn [fst default].
      * rewrite mapBool_foldl_insert. unfold mapBool. rewrite lookup_empty.
        cbn. by rewrite orb_false_r.
      * rewrite bool_decide_eq_false_2 by apply not_elem_of_nil. reflexivity.
    + rewrite bool_decide_eq_false_2 by apply not_elem_of_nil. reflexivity.
Qed.

Lemma NewBusinessHours_workDays (host : Host) (cfg : config.BusinessHoursConfig)
    (d : Z) :
  mapBool (workDays (NewBusinessHours host cfg)) d
  = bool_decide (d ∈ config.WorkDays cfg).
Proof.
  unfold NewBusinessHours. cbn [workDays].
  rewrite mapBool_foldl_insert. unfold mapBool. rewrite lookup_empty.
  cbn. by rewrite orb_false_r.
Qed.

Lemma IsBusinessHours_hours (bh : BusinessHours) (t : Time) :
  enabled bh = true -> IsBusinessHours bh t = true ->
  startHour bh <= Time_Hour (timezone bh) t < endHour bh.
Proof.
  unfold IsBusinessHours. intros -> H. cbn [negb] in H.
  destruct (mapBool (holidays bh) _); [discriminate|].
  destruct (mapBool (workDays bh) _); [|discriminate]. cbn [negb] in H.
  apply andb_prop in H as [H1 H2]. apply Z.leb_le in H1. apply Z.ltb_lt in H2. lia.
Qed.

(** X20: from the configuration to the decision: with business hours enabled, an
    instant is in business hours exactly when its date in the configured
    zone (UTC when the zone does not load) is not a listed holiday, its
    weekday is a configured work day and its hour is in [[start, end)]. *)
Theorem NewBusinessHours_decision (host : Host) (cfg : config.BusinessHoursConfig)
    (t : Time) :
  let bh := NewBusinessHours host cfg in
  let loc := default UTC (LoadLocation host (config.Timezone cfg)) in
  timezone bh = loc
  /\ IsBusinessHours bh t
     = negb (config.Enabled cfg)
       || (negb (bool_decide (Time_FormatDate loc t ∈ listedHolidays host cfg))
           && bool_decide (Time_Weekday loc t ∈ config.WorkDays cfg)
           && (config.StartHour cfg <=? Time_Hour loc t)
           && (Time_Hour loc t <? config.EndHour cfg)).
Proof.
  cbv zeta. split; [apply NewBusinessHours_timezone|].
  unfold IsBusinessHours.
  rewrite NewBusinessHours_holidays, NewBusinessHours_workDays, NewBusinessHours_timezone.
  set (loc := default UTC _).
  change (enabled (NewBusinessHours host cfg)) with (config.Enabled cfg).
  change (startHour (NewBusinessHours host cfg)) with (config.StartHour cfg).
  change (endHour (NewBusinessHours host cfg)) with (config.EndHour cfg).
  destruct (config.Enabled cfg); cbn [negb orb]; [|reflexivity].
  destruct (bool_decide (_ ∈ listedHolidays host cfg)); cbn [negb andb]; [reflexivity|].
  destruct (bool_decide (_ ∈ config.WorkDays cfg)); reflexivity.
Qed.

(** *** Validated settings *)

Lemma Validate_accepts (c : config.Config) :
  config.Validate c = None ->
  Contains (config.DSN (config.FreeScout c)) "@" = true
  /\ Contains (config.DSN (config.FreeScout c)) "/" = true
  /\ HasPrefix (config.DSN (config.FreeScout c)) "tcp://" = false
  /\ config.URL (config.FreeScout c) <> ""
  /\ 0 <= config.StartHour (config.BusinessHours c)
     < config.EndHour (config.BusinessHours c)
  /\ config.EndHour (config.BusinessHours c) <= 23.
Proof.
  unfold config.Validate, config.validateDSN. intros H.
  destruct (String.length (config.DSN _) =? 0)%nat; [discriminate|].
  destruct (Contains _ "@"); [|discriminate].
  destruct (Contains _ "/"); [|discriminate]. cbn [negb orb] in H.
  destruct (HasPrefix _ _); [discriminate|].
  destruct (String.length (config.URL _) =? 0)%nat eqn:Hurl; [discriminate|].
  destruct (_ && _); [discriminate|].
  destruct (config.StartHour _ <? 0) eqn:E1; [discriminate|].
  destruct (23 <? config.StartHour _) eqn:E2; [discriminate|]. cbn [orb] in H.
  destruct (config.EndHour _ <? 0) eqn:E3; [discriminate|].
  destruct (23 <? config.EndHour _) eqn:E4; [discriminate|]. cbn [orb] in H.
  destruct (config.EndHour _ <=? config.StartHour _) eqn:E5; [discriminate|].
  apply Z.ltb_ge in E1, E2, E3, E4. apply Z.leb_gt in E5.
  repeat split; try lia.
  intros Hempty. rewrite Hempty in Hurl. discriminate.
Qed.

Lemma Time_Hour_range (loc : Location) (t : Time) : 0 <= Time_Hour loc t <= 23.
Proof.
  unfold Time_Hour. pose proof (Z.mod_pos_bound (wallSeconds loc t) 86400 ltac:(lia)).
  split; [apply Z.div_pos; lia|].
  assert (wallSeconds loc t mod 86400 / 3600 < 24); [|lia].
  apply Z.div_lt_upper_bound; lia.
Qed.

(** X21: under a configuration that [Validate] accepts, the business hours are a
    non-empty range of hours that ends at 23:00 at the latest: no instant of
    the last hour of a day is ever in business hours. *)
Theorem Validate_business_window (c : config.Config) (host : Host) (t : Time) :
  config.Validate c = None ->
  config.Enabled (config.BusinessHours c) = true ->
  let bh := NewBusinessHours host (config.BusinessHours c) in
  0 <= startHour bh < endHour bh /\ endHour bh <= 23
  /\ (IsBusinessHours bh t = true ->
      startHour bh <= Time_Hour (timezone bh) t <= 22)
  /\ (Time_Hour (timezone bh) t = 23 -> IsBusinessHours bh t = false).
Proof.
  intros Hv Hen. cbv zeta.
  destruct (Validate_accepts c Hv) as (_ & _ & _ & _ & Hse & He).
  change (startHour (NewBusinessHours host (config.BusinessHours c)))
    with (config.StartHour (config.BusinessHours c)).
  change (endHour (NewBusinessHours host (config.BusinessHours c)))
    with (config.EndHour (config.BusinessHours c)).
  assert (Hin : IsBusinessHours (NewBusinessHours host (config.BusinessHours c)) t = true ->
                config.StartHour (config.BusinessHours c)
                <= Time_Hour (timezone (NewBusinessHours host (config.BusinessHours c))) t
                <= 22).
  { intros Hb.
    pose proof (IsBusinessHours_hours (NewBusinessHours host (config.BusinessHours c)) t
                  Hen Hb) as Hh.
    change (startHour (NewBusinessHours host (config.BusinessHours c)))
      with (config.StartHour (config.BusinessHours c)) in Hh.
    change (endHour (NewBusinessHours host (config.BusinessHours c)))
      with (config.EndHour (config.BusinessHours c)) in Hh.
    lia. }
  split; [exact Hse|]. split; [exact He|]. split; [exact Hin|].
  intros H23. destruct (IsBusinessHours _ t) eqn:E; [|reflexivity].
  specialize (Hin eq_refl). lia.
Qed.

(** X21, at the sample data. *)
Lemma Validate_business_window_witness :
  config.Validate sampleSettings = None
  /\ config.Enabled (config.BusinessHours sampleSettings) = true
  /\ (let bh := NewBusinessHours bareHost (config.BusinessHours sampleSettings) in
      0 <= startHour bh < endHour bh /\ endHour bh <= 23
      /\ (IsBusinessHours bh mondayNine = true ->
          startHour bh <= Time_Hour (timezone bh) mondayNine <= 22)
      /\ (Time_Hour (timezone bh) mondayNine = 23 -> IsBusinessHours bh mondayNine = false)).
Proof.
  assert (H1 : config.Validate sampleSettings = None) by (vm_compute; reflexivity).
  split; [exact H1|]. split; [reflexivity|].
  exact (Validate_business_window sampleSettings bareHost mondayNine H1 eq_refl).
Defined.

(** *** The parts of a DSN *)

Lemma noByte_append (sep : ascii) (a b : string) :
  noByte sep (a +:+ b) = noByte sep a && noByte sep b.
Proof.
  induction a as [|c a IH]; [reflexivity|].
  rewrite append_cons. cbn. rewrite <- andb_assoc. f_equal. exact IH.
Qed.

Lemma noByte_cons (sep c : ascii) (s : string) :
  noByte sep (String c s) = negb (Ascii.eqb c sep) && noByte sep s.
Proof. reflexivity. Qed.

Lemma noByte_nil (sep : ascii) : noByte sep "" = true.
Proof. reflexivity. Qed.

Ltac no_byte :=
  norm_app;
  repeat first [rewrite noByte_append | rewrite noByte_cons | rewrite noByte_nil];
  repeat match goal with
         | H : noByte ?c ?s = true |- context [noByte ?c ?s] => rewrite H
         end;
  reflexivity.

Lemma HasPrefix_byte (c : ascii) (s : string) :
  HasPrefix s (String c "")
  = match s with String b _ => Ascii.eqb c b | "" => false end.
Proof.
  unfold HasPrefix. destruct s as [|b s]; [reflexivity|]. cbn.
  destruct (Ascii.eqb c b); reflexivity.
Qed.

Lemma Index_from_byte (c : ascii) (a b : string) : forall i,
  noByte c a = true ->
  Index_from (a +:+ String c b) (String c "") i = i + Z.of_nat (String.length a).
Proof.
  induction a as [|x a IH]; intros i Hno.
  - rewrite append_nil_l. cbn [Index_from]. rewrite HasPrefix_byte, Ascii.eqb_refl.
    cbn. lia.
  - cbn in Hno. apply andb_prop in Hno as [Hx Ha]. rewrite append_cons.
    cbn [Index_from]. rewrite HasPrefix_byte.
    apply negb_true_iff in Hx. rewrite Ascii.eqb_sym, Hx.
    rewrite (IH (i + 1) Ha). cbn [String.length]. lia.
Qed.

Lemma substring_append (a b c : string) :
  String.substring (String.length a) (String.length b) (a +:+ b +:+ c) = b.
Proof.
  induction a as [|x a IH].
  - rewrite append_nil_l. cbn [String.length].
    induction b as [|y b IHb]; [apply substring_zero|].
    rewrite append_cons. cbn. by rewrite IHb.
  - rewrite append_cons. cbn. exact IH.
Qed.

Lemma sliceFrom_append (a b : string) :
  sliceFrom (a +:+ b) (Z.of_nat (String.length a)) = b.
Proof. unfold sliceFrom. rewrite Nat2Z.id. apply skip_append. Qed.

Lemma Split_hd (a b : string) (sep : ascii) :
  noByte sep a = true ->
  exists p ps, Split (a +:+ b) sep = (a +:+ p) :: ps
               /\ (b = "" -> p = "")
               /\ (forall c b', b = String c b' -> Ascii.eqb c sep = false ->
                     exists q, p = String c q).
Proof.
  intros Hno. rewrite (Split_app _ _ _ Hno).
  destruct b as [|c b'].
  - exists "", []. cbn. split; [reflexivity|]. split; [reflexivity|]. discriminate.
  - cbn [Split]. destruct (Ascii.eqb c sep) eqn:E.
    + exists "", (Split b' sep). split; [reflexivity|]. split; [discriminate|].
      intros c0 b0 Heq Hc. injection Heq as <- <-. congruence.
    + destruct (Split b' sep) as [|q qs] eqn:Eq; [by apply Split_nonempty in Eq|].
      exists (String c q), qs. split; [reflexivity|]. split; [discriminate|].
      intros c0 b0 Heq Hc. injection Heq as <- <-. eauto.
Qed.

(** X24: [GetDSNInfo] recovers the parts of a DSN of the form
    user:password@tcp(host:port)/database, with or without options: the
    user, the host and the port, and the database, not the password. *)
Theorem GetDSNInfo_parts (c : config.Config)
    (user pass host port db : string) (opts : option string) :
  config.DSN (config.FreeScout c) = renderDSN user pass host port db opts ->
  noByte "@" user = true -> noByte ":" user = true ->
  noByte "@" pass = true ->
  noByte "@" host = true -> noByte ":" host = true -> noByte ")" host = true ->
  noByte "@" port = true -> noByte ":" port = true -> noByte ")" port = true ->
  noByte "@" db = true -> noByte "?" db = true ->
  config.GetDSNInfo c
  = <["database" := db]> (<["port" := port]> (<["host" := host]>
      (<["host_port" := host +:+ String ":" port]> (<["user" := user]> ∅)))).
Proof.
  intros Hdsn U1 U2 P1 H1 H2 H3 O1 O2 O3 D1 D2.
  unfold config.GetDSNInfo. rewrite Hdsn. unfold renderDSN.
  set (tail := match opts with Some o => String "?" o | None => "" end).
  (* the two sides of the first @ *)
  replace (user +:+ String ":" (pass +:+ String "@" ("tcp(" +:+ host +:+ String ":" (port
             +:+ String ")" (String "/" (db +:+ tail))))))
    with ((user +:+ String ":" pass) +:+ String "@" ("tcp(" +:+ host +:+ String ":" (port
             +:+ String ")" (String "/" (db +:+ tail)))))
    by (rewrite append_assoc, append_cons; reflexivity).
  rewrite Split_sep
    by no_byte.
  set (A := "tcp(" +:+ host +:+ String ":" (port +:+ String ")" (String "/" db))).
  replace ("tcp(" +:+ host +:+ String ":" (port +:+ String ")" (String "/" (db +:+ tail))))
    with (A +:+ tail).
  2:{ subst A. norm_app. rewrite !append_assoc. norm_app. rewrite !append_assoc.
      norm_app. reflexivity. }
  assert (HA : noByte "@" A = true).
  { subst A. no_byte. }
  destruct (Split_hd A tail "@" HA) as (p & ps & -> & Hp0 & Hp1).
  assert (Hp : p = "" \/ exists q, p = String "?" q).
  { subst tail. destruct opts as [o|]; [right; apply (Hp1 "?"%char o eq_refl eq_refl)|].
    left. apply Hp0. reflexivity. }
  rewrite Split_sep by exact U2.
  (* the part after the @ *)
  assert (Hr : A +:+ p
          = ("tcp(" +:+ host +:+ String ":" port) +:+ String ")" (String "/" (db +:+ p))).
  { subst A. norm_app. rewrite !append_assoc. norm_app. rewrite !append_assoc.
    norm_app. reflexivity. }
  rewrite Hr.
  assert (Hpre : HasPrefix (("tcp(" +:+ host +:+ String ":" port)
                            +:+ String ")" (String "/" (db +:+ p))) "tcp(" = true).
  { norm_app. reflexivity. }
  rewrite Hpre.
  assert (Hidx : Index (("tcp(" +:+ host +:+ String ":" port)
                            +:+ String ")" (String "/" (db +:+ p))) ")"
                 = Z.of_nat (String.length ("tcp(" +:+ host +:+ String ":" port))).
  { unfold Index. rewrite Index_from_byte; [lia|].
    no_byte. }
  rewrite Hidx.
  assert (Hlen : Z.of_nat (String.length ("tcp(" +:+ host +:+ String ":" port))
                 = 4 + Z.of_nat (String.length (host +:+ String ":" port))).
  { norm_app. cbn [String.length]. lia. }
  assert (Hgt : (4 <? Z.of_nat (String.length ("tcp(" +:+ host +:+ String ":" port)))
                = true).
  { apply Z.ltb_lt. rewrite Hlen, length_append. cbn [String.length]. lia. }
  rewrite Hgt.
  assert (Hhp : slice (("tcp(" +:+ host +:+ String ":" port)
                            +:+ String ")" (String "/" (db +:+ p))) 4
                  (Z.of_nat (String.length ("tcp(" +:+ host +:+ String ":" port)))
                = host +:+ String ":" port).
  { unfold slice. rewrite Hlen.
    replace (Z.to_nat (4 + Z.of_nat (String.length (host +:+ String ":" port)) - 4))
      with (String.length (host +:+ String ":" port)) by lia.
    change (Z.to_nat 4) with (String.length "tcp(").
    rewrite (append_assoc "tcp("). apply substring_append. }
  rewrite Hhp. rewrite Split_sep by exact H2. rewrite (Split_none port) by exact O2.
  replace (Z.of_nat (String.length ("tcp(" +:+ host +:+ String ":" port)) + 1)
    with (Z.of_nat (String.length (("tcp(" +:+ host +:+ String ":" port) +:+ ")")))
    by (rewrite (length_append _ ")"); cbn [String.length]; lia).
  replace (("tcp(" +:+ host +:+ String ":" port) +:+ String ")" (String "/" (db +:+ p)))
    with ((("tcp(" +:+ host +:+ String ":" port) +:+ ")") +:+ String "/" (db +:+ p))
    by (rewrite append_assoc; reflexivity).
  rewrite sliceFrom_append. rewrite HasPrefix_byte, Ascii.eqb_refl.
  change (sliceFrom (String "/" (db +:+ p)) 1) with (db +:+ p).
  destruct Hp as [->|[q ->]].
  - rewrite append_nil_r, (Split_none db) by exact D2. reflexivity.
  - rewrite Split_sep by exact D2. reflexivity.
Qed.

(** X24, at the sample data. *)
Lemma GetDSNInfo_parts_witness :
  config.DSN (config.FreeScout sampleSettings)
  = renderDSN "scout" "s3cret" "db.example.com" "3306" "freescout" (Some "parseTime=true")
  /\ noByte "@" "scout" = true /\ noByte ":" "scout" = true
  /\ noByte "@" "s3cret" = true
  /\ noByte "@" "db.example.com" = true /\ noByte ":" "db.example.com" = true
  /\ noByte ")" "db.example.com" = true
  /\ noByte "@" "3306" = true /\ noByte ":" "3306" = true /\ noByte ")" "3306" = true
  /\ noByte "@" "freescout" = true /\ noByte "?" "freescout" = true
  /\ config.GetDSNInfo sampleSettings
     = <["database" := "freescout"]> (<["port" := "3306"]> (<["host" := "db.example.com"]>
         (<["host_port" := "db.example.com" +:+ String ":" "3306"]>
            (<["user" := "scout"]> ∅)))).
Proof.
  repeat (split; [reflexivity|]).
  apply (GetDSNInfo_parts sampleSettings "scout" "s3cret" "db.example.com" "3306"
           "freescout" (Some "parseTime=true")); reflexivity.
Defined.

Lemma noByte_split (c : ascii) (s : string) :
  noByte c s = false ->
  exists a b, s = a +:+ String c b /\ noByte c a = true.
Proof.
  induction s as [|x s IH]; [discriminate|].
  rewrite noByte_cons. destruct (Ascii.eqb x c) eqn:E; cbn [negb andb].
  - intros _. apply Ascii.eqb_eq in E as ->. exists "", s. split; reflexivity.
  - intros Hs. destruct (IH Hs) as (a & b & -> & Ha).
    exists (String x a), b. split; [reflexivity|]. rewrite noByte_cons, E, Ha. reflexivity.
Qed.

Lemma Index_from_byte_none (c : ascii) (s : string) : forall i,
  noByte c s = true -> Index_from s (String c "") i = -1.
Proof.
  induction s as [|x s IH]; intros i Hno; [reflexivity|].
  rewrite noByte_cons in Hno. apply andb_prop in Hno as [Hx Hs].
  cbn [Index_from]. rewrite HasPrefix_byte. apply negb_true_iff in Hx.
  rewrite Ascii.eqb_sym, Hx. apply IH, Hs.
Qed.

Lemma Contains_byte (c : ascii) (s : string) :
  Contains s (String c "") = negb (noByte c s).
Proof.
  unfold Contains, Index. destruct (noByte c s) eqn:E.
  - rewrite Index_from_byte_none by exact E. reflexivity.
  - destruct (noByte_split c s E) as (a & b & -> & Ha).
    rewrite Index_from_byte by exact Ha. cbn [negb]. apply Z.leb_le. lia.
Qed.

Lemma Split_first (s : string) (sep : ascii) :
  exists p ps rest, Split s sep = p :: ps /\ s = p +:+ rest /\ noByte sep p = true
    /\ (noByte sep s = false -> ps <> []).
Proof.
  destruct (noByte sep s) eqn:E.
  - exists s, [], "". rewrite (Split_none s sep E), append_nil_r. auto.
  - destruct (noByte_split sep s E) as (a & b & -> & Ha).
    exists a, (Split b sep), (String sep b). rewrite (Split_sep a b sep Ha).
    split; [reflexivity|]. split; [reflexivity|]. split; [exact Ha|].
    intros _. apply Split_nonempty.
Qed.

Lemma noByte_prefix (sep : ascii) (a b : string) :
  noByte sep (a +:+ b) = true -> noByte sep a = true.
Proof. rewrite noByte_append. intros H. by apply andb_prop in H as [? _]. Qed.

(** X25: for a configuration that [Validate] accepts, [GetDSNInfo] always names
    a user: the text of the DSN up to its first colon or at sign. *)
Theorem Validate_dsn_user (c : config.Config) :
  config.Validate c = None ->
  exists user rest,
    config.GetDSNInfo c !! "user" = Some user
    /\ config.DSN (config.FreeScout c) = user +:+ rest
    /\ noByte ":" user = true /\ noByte "@" user = true
    /\ rest <> "".
Proof.
  intros Hv. destruct (Validate_accepts c Hv) as (Hat & _).
  rewrite Contains_byte in Hat. apply negb_true_iff in Hat.
  unfold config.GetDSNInfo.
  destruct (Split_first (config.DSN (config.FreeScout c)) "@")
    as (up & ps & rest1 & Hsplit & Hdsn & Hup & Hps).
  specialize (Hps Hat). destruct ps as [|remaining ps]; [congruence|].
  rewrite Hsplit.
  destruct (Split_first up ":") as (user & qs & rest2 & Hsplit2 & Hup2 & Huser & _).
  rewrite Hsplit2.
  exists user, (rest2 +:+ rest1).
  assert (Hrest1 : rest1 <> "").
  { intros ->. rewrite append_nil_r in Hdsn. congruence. }
  split.
  - repeat match goal with
           | |- context [match ?x with _ => _ end] => destruct x
           end;
      rewrite ?lookup_insert_ne by discriminate; apply lookup_insert_eq.
  - split; [rewrite Hdsn, Hup2, append_assoc; reflexivity|].
    split; [exact Huser|]. split.
    + rewrite Hup2 in Hup. by apply noByte_prefix in Hup.
    + destruct rest2; [exact Hrest1|discriminate].
Qed.

(** X25, at the sample data. *)
Lemma Validate_dsn_user_witness :
  config.Validate sampleSettings = None
  /\ exists user rest,
       config.GetDSNInfo sampleSettings !! "user" = Some user
       /\ config.DSN (config.FreeScout sampleSettings) = user +:+ rest
       /\ noByte ":" user = true /\ noByte "@" user = true
       /\ rest <> "".
Proof.
  assert (H1 : config.Validate sampleSettings = None) by (vm_compute; reflexivity).
  split; [exact H1|]. exact (Validate_dsn_user sampleSettings H1).
Defined.

(** *** Holiday entries *)

Lemma daysIn_le_31 (m y : Z) : daysIn m y <= 31.
Proof.
  unfold daysIn. destruct (m =? 2); [destruct (isLeap y); lia|].
  destruct (_ || _); lia.
Qed.

Lemma Time_FormatDate_length (loc : Location) (t : Time) :
  0 <= Time_Year loc t <= 9999 ->
  String.length (Time_FormatDate loc t) = 10%nat.
Proof.
  unfold Time_Year, Time_FormatDate.
  pose proof (civilFromDays_valid (wallSeconds loc t / 86400)) as Hv.
  destruct (civilFromDays (wallSeconds loc t / 86400)) as [[y m] d]. cbn [fst].
  intros Hy. destruct Hv as [Hm Hd]. pose proof (daysIn_le_31 m y).
  rewrite padInt_4 by lia. rewrite !padInt_2 by lia.
  unfold digits4, digits2. norm_app. reflexivity.
Qed.

(** X23: a holiday entry bears on the instants whose date in the zone, written
    YYYY-MM-DD, is that very text, and on no other: an entry that is not ten
    bytes long (such as 2024-1-5) changes nothing for any instant of the
    years 0 to 9999. *)
Theorem holiday_entry_exact (bh : BusinessHours) (h : string) (t : Time) :
  let date := Time_FormatDate (timezone bh) t in
  (date <> h -> IsBusinessHours (withHoliday bh h) t = IsBusinessHours bh t)
  /\ (date = h -> enabled bh = true -> IsBusinessHours (withHoliday bh h) t = false)
  /\ (0 <= Time_Year (timezone bh) t <= 9999 ->
      String.length date = 10%nat
      /\ (String.length h <> 10%nat ->
          IsBusinessHours (withHoliday bh h) t = IsBusinessHours bh t)).
Proof.
  cbv zeta.
  assert (Hne : Time_FormatDate (timezone bh) t <> h ->
                IsBusinessHours (withHoliday bh h) t = IsBusinessHours bh t).
  { intros Hd. unfold IsBusinessHours, withHoliday.
    cbn [enabled holidays timezone workDays startHour endHour].
    unfold mapBool at 1. rewrite lookup_insert_ne by congruence. reflexivity. }
  split; [exact Hne|]. split.
  - intros Hd Hen. unfold IsBusinessHours, withHoliday.
    cbn [enabled holidays timezone workDays startHour endHour]. rewrite Hen. cbn [negb].
    unfold mapBool at 1. rewrite Hd, lookup_insert_eq. reflexivity.
  - intros Hy. pose proof (Time_FormatDate_length (timezone bh) t Hy) as Hlen.
    split; [exact Hlen|]. intros Hh. apply Hne. intros Heq. congruence.
Qed.

(** *** No work day *)

(** X22: with business hours enabled and no work day configured, as when the
    days flag names no day from 1 to 7, no instant is in business hours: a
    run posts nothing and never flushes the queue. *)
Theorem no_work_days_never_posts (host : Host) (hours : config.BusinessHoursConfig)
    (days : string) (cfg : Config) (env : Env) (w : World) :
  config.Enabled hours = true ->
  config.WorkDays hours = config.parseWorkDays days ->
  config.parseWorkDays days = [] ->
  let bh := NewBusinessHours host hours in
  (forall t, IsBusinessHours bh t = false /\ IsStartOfBusinessDay bh t = false)
  /\ outbox (Run cfg bh env w).1.1 = outbox w
  /\ NotificationsSent (Run cfg bh env w).1.2 = 0.
Proof.
  intros Hen Hdays Hnone. cbv zeta.
  assert (Hb : forall t, IsBusinessHours (NewBusinessHours host hours) t = false).
  { intros t. unfold IsBusinessHours.
    change (enabled (NewBusinessHours host hours)) with (config.Enabled hours).
    rewrite Hen. cbn [negb].
    destruct (mapBool (holidays _) _); [reflexivity|].
    rewrite NewBusinessHours_workDays, Hdays, Hnone.
    rewrite bool_decide_eq_false_2 by apply not_elem_of_nil. reflexivity. }
  split.
  - intros t. split; [apply Hb|].
    apply IsStartOfBusinessDay_outside, Hb.
  - exact (Run_quiet cfg (NewBusinessHours host hours) env w (Hb (clock w))).
Qed.

(** X22, at the sample data. *)
Lemma no_work_days_never_posts_witness :
  config.Enabled namedDaysHours = true
  /\ config.WorkDays namedDaysHours = config.parseWorkDays "mon,tue,wed,thu,fri"
  /\ config.parseWorkDays "mon,tue,wed,thu,fri" = []
  /\ (let bh := NewBusinessHours bareHost namedDaysHours in
      (forall t, IsBusinessHours bh t = false /\ IsStartOfBusinessDay bh t = false)
      /\ outbox (Run sampleConfig bh ticketEnv mondayWorld).1.1 = outbox mondayWorld
      /\ NotificationsSent (Run sampleConfig bh ticketEnv mondayWorld).1.2 = 0).
Proof.
  assert (H3 : config.parseWorkDays "mon,tue,wed,thu,fri" = []) by (vm_compute; reflexivity).
  split; [reflexivity|]. split; [reflexivity|]. split; [exact H3|].
  exact (no_work_days_never_posts bareHost namedDaysHours "mon,tue,wed,thu,fri"
           sampleConfig ticketEnv mondayWorld eq_refl eq_refl H3).
Defined.

(** ** Candidate tickets *)

Lemma scanLoop_spec (nt : string) (rows : list Row) : forall acc tickets,
  scanLoop rows nt acc = Some tickets ->
  exists new, tickets = acc ++ new
    /\ Forall2 (fun r t => scanRow r nt = Some t) rows new.
Proof.
  induction rows as [|r rows IH]; intros acc tickets H.
  - cbn in H. injection H as <-. exists []. rewrite app_nil_r. split; [reflexivity|constructor].
  - cbn in H. destruct (scanRow r nt) as [t|] eqn:E; [|discriminate].
    destruct (IH _ _ H) as (new & -> & Hall). exists (t :: new).
    rewrite <- app_assoc. split; [reflexivity|]. constructor; assumption.
Qed.

Lemma scanRow_select (j : Joined) (nt : string) (t : Ticket) :
  scanRow (selectRow j) nt = Some t ->
  NotificationType t = nt
  /\ CustomerName t = COALESCE (cust_first_name j) +:+ " " +:+ COALESCE (cust_last_name j)
  /\ AssignedUserName t = COALESCE (u_first_name j) +:+ " " +:+ COALESCE (u_last_name j)
  /\ AssignedUserID t = c_user_id j.
Proof.
  unfold scanRow, selectRow. cbn.
  destruct (c_id j); [|discriminate]. destruct (c_number j); [|discriminate].
  destruct (c_subject j); [|discriminate]. destruct (c_customer_email j); [|discriminate].
  destruct (c_last_reply_at j); [|discriminate].
  destruct (minutes_since_reply j); [|discriminate].
  destruct (c_mailbox_id j); [|discriminate]. cbn.
  intros H. injection H as <-. cbn. auto.
Qed.

Lemma length_name (a b : string) : (String.length (a +:+ " " +:+ b) =? 0)%nat = false.
Proof.
  rewrite length_append. cbn [String.length append]. apply Nat.eqb_neq.
  rewrite length_append. cbn [String.length]. lia.
Qed.

(** X26: every ticket read from the rows of a query carries the category it was
    asked for and names built around a space, so never empty: its message
    shows the [AssignedUserName] text (a lone space when the conversation
    has no user) and never the word for an unassigned ticket. *)
Theorem fetched_ticket_never_unassigned (joined : list Joined) (rowsErr : bool)
    (notificationType : string) (tickets : list Ticket) :
  scanTickets (selectRow <$> joined) rowsErr notificationType = Some tickets ->
  length tickets = length joined
  /\ (forall (i : nat) (j : Joined) (t : Ticket),
        joined !! i = Some j -> tickets !! i = Some t ->
        NotificationType t = notificationType
        /\ AssignedUserName t <> ""
        /\ CustomerName t <> ""
        /\ (u_first_name j = None -> u_last_name j = None -> AssignedUserName t = " ")
        /\ (forall cfg : Config, formatSlackMessage cfg t = assignedMessage cfg t)).
Proof.
  unfold scanTickets. intros H.
  destruct (scanLoop _ _ _) as [ts|] eqn:E; [|discriminate].
  destruct rowsErr; [discriminate|]. injection H as <-.
  destruct (scanLoop_spec _ _ _ _ E) as (new & -> & Hall). cbn [app] in *.
  apply Forall2_fmap_l in Hall.
  split; [symmetry; exact (Forall2_length _ _ _ Hall)|].
  intros i j t Hj Ht.
  pose proof (Forall2_lookup_lr _ _ _ _ _ _ Hall Hj Ht) as Hs. cbn in Hs.
  destruct (scanRow_select j notificationType t Hs) as (Hnt & Hc & Ha & _).
  assert (Hlen : (String.length (AssignedUserName t) =? 0)%nat = false)
    by (rewrite Ha; apply length_name).
  assert (Hlenc : (String.length (CustomerName t) =? 0)%nat = false)
    by (rewrite Hc; apply length_name).
  split; [exact Hnt|]. split; [|split; [|split]].
  - intros He. rewrite He in Hlen. discriminate.
  - intros He. rewrite He in Hlenc. discriminate.
  - intros H1 H2. rewrite Ha, H1, H2. reflexivity.
  - intros cfg. unfold formatSlackMessage, assignedMessage. rewrite Hlen. reflexivity.
Qed.

(** X26, at the sample data. *)
Lemma fetched_ticket_never_unassigned_witness :
  scanTickets (selectRow <$> [unassignedRow]) false OpenNoAgentResponse
  = Some [unassignedTicket]
  /\ length [unassignedTicket] = length [unassignedRow]
  /\ (forall (i : nat) (j : Joined) (t : Ticket),
        [unassignedRow] !! i = Some j -> [unassignedTicket] !! i = Some t ->
        NotificationType t = OpenNoAgentResponse
        /\ AssignedUserName t <> ""
        /\ CustomerName t <> ""
        /\ (u_first_name j = None -> u_last_name j = None -> AssignedUserName t = " ")
        /\ (forall cfg : Config, formatSlackMessage cfg t = assignedMessage cfg t)).
Proof.
  split; [reflexivity|].
  exact (fetched_ticket_never_unassigned [unassignedRow] false OpenNoAgentResponse
           [unassignedTicket] eq_refl).
Defined.

Lemma scanLoop_fails (nt : string) (rows : list Row) (r : Row) : forall acc,
  r ∈ rows -> scanRow r nt = None -> scanLoop rows nt acc = None.
Proof.
  induction rows as [|r' rows IH]; intros acc Hin Hr; [by apply elem_of_nil in Hin|].
  cbn. apply elem_of_cons in Hin as [->|Hin].
  - rewrite Hr. reflexivity.
  - destruct (scanRow r' nt); [|reflexivity]. apply IH; assumption.
Qed.

(** X27: one conversation with a NULL subject among the open candidates makes the
    fetch fail as a whole: the run returns an error once the flush is done,
    having checked and processed no ticket, open or pending. *)
Theorem null_subject_blocks_run (cfg : Config) (bh : BusinessHours) (env : Env)
    (w : World) (joined : list Joined) (rowsErr : bool) (j : Joined) :
  fetchOpen env = scanTickets (selectRow <$> joined) rowsErr OpenNoAgentResponse ->
  j ∈ joined ->
  c_subject j = None ->
  fetchOpen env = None
  /\ Run cfg bh env w
     = ((runFlush cfg bh env w zeroStats).1, (runFlush cfg bh env w zeroStats).2, true)
  /\ TicketsChecked (Run cfg bh env w).1.2 = 0
  /\ NotificationsQueued (Run cfg bh env w).1.2 = 0.
Proof.
  intros Hfetch Hj Hsub.
  assert (Hnone : fetchOpen env = None).
  { rewrite Hfetch. unfold scanTickets.
    rewrite (scanLoop_fails _ _ (selectRow j)); [reflexivity| |].
    - apply list_elem_of_fmap. eauto.
    - unfold scanRow, selectRow. cbn. rewrite Hsub.
      destruct (c_id j); [|reflexivity]. destruct (c_number j); reflexivity. }
  split; [exact Hnone|].
  assert (Hrun : Run cfg bh env w
     = ((runFlush cfg bh env w zeroStats).1, (runFlush cfg bh env w zeroStats).2, true)).
  { rewrite Run_unfold. cbv zeta. rewrite Hnone. reflexivity. }
  split; [exact Hrun|]. rewrite Hrun. cbn [fst snd].
  pose proof (runFlush_stats cfg bh env w zeroStats) as Hf. cbv zeta in Hf.
  destruct Hf as (H1 & H2 & _). rewrite H1, H2. split; reflexivity.
Qed.

(** X27, at the sample data. *)
Lemma null_subject_blocks_run_witness :
  fetchOpen untitledEnv
  = scanTickets (selectRow <$> [unassignedRow; untitledRow]) false OpenNoAgentResponse
  /\ untitledRow ∈ [unassignedRow; untitledRow]
  /\ c_subject untitledRow = None
  /\ fetchOpen untitledEnv = None
  /\ Run sampleConfig sampleHours untitledEnv (emptyWorld mondayTen)
     = ((runFlush sampleConfig sampleHours untitledEnv (emptyWorld mondayTen) zeroStats).1,
        (runFlush sampleConfig sampleHours untitledEnv (emptyWorld mondayTen) zeroStats).2,
        true)
  /\ TicketsChecked (Run sampleConfig sampleHours untitledEnv (emptyWorld mondayTen)).1.2 = 0
  /\ NotificationsQueued
       (Run sampleConfig sampleHours untitledEnv (emptyWorld mondayTen)).1.2 = 0.
Proof.
  assert (H2 : untitledRow ∈ [unassignedRow; untitledRow]) by (right; left).
  split; [reflexivity|]. split; [exact H2|]. split; [reflexivity|].
  exact (null_subject_blocks_run sampleConfig sampleHours untitledEnv (emptyWorld mondayTen)
           [unassignedRow; untitledRow] false untitledRow eq_refl H2 eq_refl).
Defined.

(** ** The wait shown in a message *)

(** X28: the wait shown for a ticket that has waited [m] minutes: minutes alone
    below an hour, else whole hours and the minutes left over, if any. *)
Theorem formatDuration_whole_minutes (m : Z) :
  - 153722867 <= m <= 153722867 ->
  formatDuration (wrap64 (m * Minute))
  = if m <? 60 then itoa m +:+ " minutes"
    else
      (if m / 60 =? 1 then "1 hour" else itoa (m / 60) +:+ " hours")
      +:+ (if m mod 60 =? 0 then "" else " " +:+ itoa (m mod 60) +:+ " minutes").
Proof.
  intros Hm.
  assert (Hw : wrap64 (m * Minute) = m * Minute).
  { unfold wrap64. rewrite Z.mod_small; unfold Minute, Second; lia. }
  rewrite Hw. unfold formatDuration, minutesInt, hoursInt.
  assert (Hq : m * Minute ÷ Minute = m).
  { apply Z.quot_mul. unfold Minute, Second. lia. }
  rewrite Hq.
  destruct (m <? 60) eqn:E.
  - apply Z.ltb_lt in E.
    replace (m * Minute <? Hour) with true
      by (symmetry; apply Z.ltb_lt; unfold Hour, Minute, Second; lia).
    reflexivity.
  - apply Z.ltb_ge in E.
    replace (m * Minute <? Hour) with false
      by (symmetry; apply Z.ltb_ge; unfold Hour, Minute, Second; lia).
    assert (Hh : m * Minute ÷ Hour = m / 60).
    { rewrite Z.quot_div_nonneg by (unfold Hour, Minute, Second; lia).
      unfold Hour. rewrite Z.div_mul_cancel_r; [reflexivity|lia|].
      unfold Minute, Second. lia. }
    rewrite Hh.
    assert (Hr : Z.rem m 60 = m mod 60) by (apply Z.rem_mod_nonneg; lia).
    rewrite Hr.
    destruct (m / 60 =? 1); destruct (m mod 60 =? 0).
    + reflexivity.
    + norm_app. reflexivity.
    + by rewrite append_nil_r.
    + rewrite !append_assoc. reflexivity.
Qed.

(** X28, at the sample data. *)
Lemma formatDuration_whole_minutes_witness :
  - 153722867 <= 185 <= 153722867
  /\ formatDuration (wrap64 (185 * Minute))
     = if 185 <? 60 then itoa 185 +:+ " minutes"
       else
         (if 185 / 60 =? 1 then "1 hour" else itoa (185 / 60) +:+ " hours")
         +:+ (if 185 mod 60 =? 0 then "" else " " +:+ itoa (185 mod 60) +:+ " minutes").
Proof.
  split; [lia|]. apply (formatDuration_whole_minutes 185). lia.
Defined.
